(** * A Rocq model of the repository analyzer's enrichment pipeline

    The development embeds, function by function, the Python code of
    [backend/cache.py], [backend/github_analyzer.py],
    [backend/deep_analyzer.py], [backend/repo_processor.py], the timeout
    guard and the result cache of [backend/optimized_analyzer.py], the
    health scorer of [backend/enhanced_analyzer.py], the CSV export of
    [backend/export_handler.py] and the analysis endpoint of
    [backend/app.py], and proves properties of the cache engine, the
    timeout guard, the provider client, the heuristic classifiers, the
    report assembler and what is built on its report.

    Conventions.
    - Python values are the inductive [pyval]; a [dict] is an
      insertion-ordered association list with unique keys, as CPython
      iterates it. The dictionaries that the code itself builds with a
      fixed set of keys (the results of the deep analyses) are records.
    - A Python call that may raise returns a [result]; code that changes
      the process state (the global cache, the number of provider requests
      made, the clock readings taken) is a computation [M], which leaves a
      state also when it raises.
    - What lies outside the repository is a parameter, the record [env]:
      the data provider (the value that [_make_request] returns), the
      clock, and library routines that the model does not interpret
      ([lib], called by name: date arithmetic, number formatting, regular
      expressions, base64, JSON). Every theorem holds for every [env].
    - Timestamps ([time.time()]) are integers counting clock ticks. *)

From Stdlib Require Import List String Ascii ZArith Bool Lia Arith QArith DecimalString.
Import ListNotations.
Local Open Scope string_scope.
Local Open Scope Z_scope.

Set Warnings "-register-all".

(** ** Python values, exceptions and dictionaries *)

Module Py.

(** The exception classes the modelled code raises or catches; all are
    subclasses of [Exception]. *)
Inductive exn : Type :=
| KeyError (key : string)
| TypeError (msg : string)
| ValueError (msg : string)
| AttributeError (msg : string)
| IndexError (msg : string)
| Exception (msg : string).

(** [str(e)] *)
Definition str_exn (e : exn) : string :=
  match e with
  | KeyError k => "'" ++ k ++ "'"
  | TypeError m | ValueError m | AttributeError m | IndexError m | Exception m => m
  end.

Inductive result (A : Type) : Type :=
| Ok (a : A)
| Raise (e : exn).
Arguments Ok {A} a.
Arguments Raise {A} e.

Definition bind {A B : Type} (r : result A) (k : A -> result B) : result B :=
  match r with
  | Ok a => k a
  | Raise e => Raise e
  end.

Definition is_ok {A : Type} (r : result A) : bool :=
  match r with Ok _ => true | Raise _ => false end.

(** A [dict]: keys in insertion order, no key twice. *)
Definition dict (V : Type) : Type := list (string * V).

Section Dict.
Variable V : Type.

(** [d.get(k)] / [d[k]] when present *)
Fixpoint dict_get (k : string) (d : dict V) : option V :=
  match d with
  | [] => None
  | (k', v) :: d' => if String.eqb k k' then Some v else dict_get k d'
  end.

(** [k in d] *)
Definition dict_in (k : string) (d : dict V) : bool :=
  match dict_get k d with Some _ => true | None => false end.

(** [d[k] = v]: an existing key keeps its position, a new key goes last. *)
Fixpoint dict_set (k : string) (v : V) (d : dict V) : dict V :=
  match d with
  | [] => [(k, v)]
  | (k', v') :: d' =>
      if String.eqb k k' then (k', v) :: d' else (k', v') :: dict_set k v d'
  end.

(** the dictionary without [k] *)
Fixpoint dict_remove (k : string) (d : dict V) : dict V :=
  match d with
  | [] => []
  | (k', v') :: d' =>
      if String.eqb k k' then d' else (k', v') :: dict_remove k d'
  end.

(** [del d[k]]: [KeyError] when [k] is absent. *)
Definition dict_del (k : string) (d : dict V) : result (dict V) :=
  if dict_in k d then Ok (dict_remove k d) else Raise (KeyError k).

Definition dict_keys (d : dict V) : list string := map fst d.
Definition dict_values (d : dict V) : list V := map snd d.

(** [len(d)] *)
Definition dict_len (d : dict V) : Z := Z.of_nat (List.length d).
End Dict.
Arguments dict_get {V} k d.
Arguments dict_in {V} k d.
Arguments dict_set {V} k v d.
Arguments dict_remove {V} k d.
Arguments dict_del {V} k d.
Arguments dict_keys {V} d.
Arguments dict_values {V} d.
Arguments dict_len {V} d.

(** [min(d, key=d.get)] on a non-empty [dict] of numbers: the first key, in
    iteration order, whose value is the least. *)
Fixpoint min_from (best : string) (bv : Z) (d : dict Z) : string :=
  match d with
  | [] => best
  | (k, v) :: d' => if v <? bv then min_from k v d' else min_from best bv d'
  end.

Definition min_key (d : dict Z) : option string :=
  match d with
  | [] => None
  | (k, v) :: d' => Some (min_from k v d')
  end.

(** JSON-like values. A [float] is kept as the exact rational it stands
    for. *)
Inductive pyval : Type :=
| PNone
| PBool (b : bool)
| PInt (n : Z)
| PFloat (x : Q)
| PStr (s : string)
| PList (xs : list pyval)
| PDict (kv : dict pyval).

(** [bool(v)] *)
Definition truthy (v : pyval) : bool :=
  match v with
  | PNone => false
  | PBool b => b
  | PInt n => negb (n =? 0)
  | PFloat x => negb (Qeq_bool x 0)
  | PStr s => negb (String.eqb s "")
  | PList xs => match xs with [] => false | _ => true end
  | PDict kv => match kv with [] => false | _ => true end
  end.

End Py.

(** ** [backend/cache.py]: the cache engine *)

Module RepositoryCache.
Import Py.

(** One value of [self._cache]: the dict literal built by [set]. *)
Record entry : Type := Entry {
  value : pyval;
  expires_at : Z;
  created_at : Z
}.

(** The fields of a [RepositoryCache] object (the lock has no state of
    its own: every method body runs under it from start to end). *)
Record t : Type := Cache {
  _cache : dict entry;
  _access_times : dict Z;
  max_size : Z;
  default_ttl : Z;
  hits : Z;
  misses : Z
}.

(** [__init__] *)
Definition init (max_size default_ttl : Z) : t :=
  {| _cache := []; _access_times := [];
     max_size := max_size; default_ttl := default_ttl;
     hits := 0; misses := 0 |}.

Definition with_cache (c : t) (d : dict entry) : t :=
  {| _cache := d; _access_times := _access_times c;
     max_size := max_size c; default_ttl := default_ttl c;
     hits := hits c; misses := misses c |}.

Definition with_access_times (c : t) (a : dict Z) : t :=
  {| _cache := _cache c; _access_times := a;
     max_size := max_size c; default_ttl := default_ttl c;
     hits := hits c; misses := misses c |}.

Definition with_hits (c : t) (h : Z) : t :=
  {| _cache := _cache c; _access_times := _access_times c;
     max_size := max_size c; default_ttl := default_ttl c;
     hits := h; misses := misses c |}.

Definition with_misses (c : t) (m : Z) : t :=
  {| _cache := _cache c; _access_times := _access_times c;
     max_size := max_size c; default_ttl := default_ttl c;
     hits := hits c; misses := m |}.

(** [get]: [now] is the clock reading compared with [expires_at], [now']
    the later reading stored as the access time. A miss returns [None]. *)
Definition get (now now' : Z) (key : string) (c : t) : result pyval * t :=
  match dict_get key (_cache c) with
  | Some e =>
      if now <? expires_at e then
        let c1 := with_hits c (hits c + 1) in
        let c2 := with_access_times c1 (dict_set key now' (_access_times c1)) in
        (Ok (value e), c2)
      else
        (* expired: del self._cache[key]; del self._access_times[key] *)
        let c1 := with_cache c (dict_remove key (_cache c)) in
        match dict_del key (_access_times c1) with
        | Raise x => (Raise x, c1)
        | Ok a =>
            let c2 := with_access_times c1 a in
            (Ok PNone, with_misses c2 (misses c2 + 1))
        end
  | None => (Ok PNone, with_misses c (misses c + 1))
  end.

(** [_evict_oldest] *)
Definition _evict_oldest (c : t) : result unit * t :=
  match min_key (_access_times c) with
  | None => (Ok tt, c)
  | Some oldest_key =>
      match dict_del oldest_key (_cache c) with
      | Raise x => (Raise x, c)
      | Ok d =>
          let c1 := with_cache c d in
          match dict_del oldest_key (_access_times c1) with
          | Raise x => (Raise x, c1)
          | Ok a => (Ok tt, with_access_times c1 a)
          end
      end
  end.

(** [ttl or self.default_ttl]: [None] and [0] both select the default. *)
Definition ttl_or_default (ttl : option Z) (c : t) : Z :=
  match ttl with
  | Some n => if n =? 0 then default_ttl c else n
  | None => default_ttl c
  end.

(** [set]: [t1], [t2], [t3] are the three successive clock readings (for
    [expires_at], [created_at] and the access time). *)
Definition set (t1 t2 t3 : Z) (key : string) (v : pyval) (ttl : option Z)
    (c : t) : result unit * t :=
  let '(r, c1) :=
    if dict_len (_cache c) >=? max_size c then _evict_oldest c else (Ok tt, c) in
  match r with
  | Raise x => (Raise x, c1)
  | Ok _ =>
      let e := {| value := v; expires_at := t1 + ttl_or_default ttl c1;
                  created_at := t2 |} in
      let c2 := with_cache c1 (dict_set key e (_cache c1)) in
      (Ok tt, with_access_times c2 (dict_set key t3 (_access_times c2)))
  end.

(** [clear] *)
Definition clear (c : t) : t :=
  {| _cache := []; _access_times := [];
     max_size := max_size c; default_ttl := default_ttl c;
     hits := 0; misses := 0 |}.

(** The two dictionaries hold the same keys, each once. *)
Definition same_keys (c : t) : Prop :=
  forall k, dict_in k (_cache c) = dict_in k (_access_times c).

Definition wf (c : t) : Prop :=
  NoDup (dict_keys (_cache c)) /\ NoDup (dict_keys (_access_times c)) /\ same_keys c.

(** The capacity invariant. *)
Definition inv (c : t) : Prop :=
  wf c /\ dict_len (_cache c) <= max_size c.

End RepositoryCache.

(** ** Python string operations (strings are sequences of bytes; case
    mapping covers the ASCII letters) *)

Module PyStr.

Definition lower_ascii (a : ascii) : ascii :=
  let n := nat_of_ascii a in
  if (Nat.leb 65 n && Nat.leb n 90)%bool then ascii_of_nat (n + 32) else a.

(** [s.lower()] *)
Fixpoint lower (s : string) : string :=
  match s with
  | EmptyString => EmptyString
  | String a s' => String (lower_ascii a) (lower s')
  end.

(** [s.startswith(p)] *)
Definition startswith (p s : string) : bool := String.prefix p s.

(** [needle in hay] *)
Fixpoint contains (needle hay : string) : bool :=
  if String.prefix needle hay then true
  else match hay with
       | EmptyString => false
       | String _ hay' => contains needle hay'
       end.

(** [any(p(x) for x in xs)] *)
Definition any {A : Type} (p : A -> bool) (xs : list A) : bool := existsb p xs.

(** [s.split(sep)] for a one-character separator *)
Fixpoint split_on (sep : ascii) (s : string) : list string :=
  match s with
  | EmptyString => [EmptyString]
  | String a s' =>
      if Ascii.eqb a sep then EmptyString :: split_on sep s'
      else match split_on sep s' with
           | [] => [String a EmptyString]
           | w :: ws => String a w :: ws
           end
  end.

(** [sep.join(xs)] *)
Fixpoint join (sep : string) (xs : list string) : string :=
  match xs with
  | [] => EmptyString
  | [x] => x
  | x :: xs' => x ++ sep ++ join sep xs'
  end.

(** [s.strip(c)] for a one-character set *)
Fixpoint lstrip (c : ascii) (s : string) : string :=
  match s with
  | String a s' => if Ascii.eqb a c then lstrip c s' else s
  | EmptyString => EmptyString
  end.

Definition reverse (s : string) : string :=
  string_of_list_ascii (List.rev (list_ascii_of_string s)).

Definition strip (c : ascii) (s : string) : string :=
  reverse (lstrip c (reverse (lstrip c s))).

(** [s.replace(c, "")] for a one-character [c] *)
Fixpoint remove_char (c : ascii) (s : string) : string :=
  match s with
  | EmptyString => EmptyString
  | String a s' => if Ascii.eqb a c then remove_char c s' else String a (remove_char c s')
  end.

(** [s.split(sep)[0]]: the part of [s] before the first [sep] ([sep] not
    empty), all of [s] when [sep] does not occur *)
Fixpoint before_first (sep s : string) : string :=
  if String.prefix sep s then EmptyString
  else match s with
       | EmptyString => EmptyString
       | String a s' => String a (before_first sep s')
       end.

(** [s.endswith(suffix)] *)
Definition endswith (suffix s : string) : bool :=
  String.prefix (reverse suffix) (reverse s).

(** the part of [s] after the first [sep], empty when [sep] does not occur *)
Fixpoint after_first (sep s : string) : string :=
  if String.prefix sep s then String.substring (String.length sep) (String.length s) s
  else match s with
       | EmptyString => EmptyString
       | String _ s' => after_first sep s'
       end.

(** [s] from its first [c] on, empty when [c] does not occur *)
Fixpoint from_first (c : ascii) (s : string) : string :=
  match s with
  | EmptyString => EmptyString
  | String a s' => if Ascii.eqb a c then s else from_first c s'
  end.

(** [s.split(sep)[-1]] *)
Definition last_part (sep : ascii) (s : string) : string :=
  List.last (split_on sep s) EmptyString.

(** [sep.join(s.split(sep)[:-1])] *)
Definition parent_path (sep : ascii) (s : string) : string :=
  join (String sep EmptyString) (List.removelast (split_on sep s)).

(** [len(s.split(sep)) - 1] *)
Definition depth_of (sep : ascii) (s : string) : Z :=
  Z.of_nat (List.length (split_on sep s)) - 1.

(** the characters that [s.strip()] removes *)
Definition is_space (a : ascii) : bool :=
  let n := nat_of_ascii a in
  ((Nat.eqb n 32) || (Nat.leb 9 n && Nat.leb n 13))%bool.

Fixpoint lstrip_ws (s : string) : string :=
  match s with
  | String a s' => if is_space a then lstrip_ws s' else s
  | EmptyString => EmptyString
  end.

(** [s.strip()] *)
Definition strip_ws (s : string) : string :=
  reverse (lstrip_ws (reverse (lstrip_ws s))).

End PyStr.

(** ** The process state and the collaborators outside the repository *)

Module Run.
Import Py.

(** What the code obtains from outside: the data provider's answer to a
    request, the clock, and library routines that the model does not
    interpret. *)
Record env : Type := Env {
  (** what [_make_request] does for an endpoint, given how many requests
      were made before: it returns a JSON value or the degraded marker,
      or raises what its [except] clauses do not catch *)
  respond : nat -> string -> result pyval;
  (** successive readings of [time.time()] *)
  clock : nat -> Z;
  (** tenths in [round(a / b * 100, 1)] for integers [a], [b] *)
  round_pct : Z -> Z -> Z;
  (** [str(v)] for values other than strings *)
  str_of : pyval -> string;
  (** [urlparse(url).path] *)
  urlparse_path : string -> result string;
  (** any other library routine (date parsing and arithmetic, number
      formatting, regular expressions, base64, JSON), by name *)
  lib : string -> list pyval -> result pyval
}.

(** The mutable state of the process: the module-level
    [repository_cache], and counters of the requests made and of the clock
    readings taken. *)
Record world : Type := World {
  cache : RepositoryCache.t;
  api_calls : nat;
  clock_reads : nat
}.

(** A computation: it may raise, and it leaves a state either way. *)
Definition M (A : Type) : Type := world -> result A * world.

Definition ret {A : Type} (a : A) : M A := fun w => (Ok a, w).
Definition raise {A : Type} (e : exn) : M A := fun w => (Raise e, w).

Definition bind {A B : Type} (m : M A) (k : A -> M B) : M B :=
  fun w => match m w with
           | (Ok a, w') => k a w'
           | (Raise e, w') => (Raise e, w')
           end.

(** a pure step that may raise *)
Definition lift {A : Type} (r : result A) : M A := fun w => (r, w).

(** [try: m  except Exception as e: h e] *)
Definition try_except {A : Type} (m : M A) (h : exn -> M A) : M A :=
  fun w => match m w with
           | (Ok a, w') => (Ok a, w')
           | (Raise e, w') => h e w'
           end.

(** [str(v)] / [f"{v}"] *)
Definition py_str (E : env) (v : pyval) : string :=
  match v with
  | PStr s => s
  | _ => str_of E v
  end.

(** [v.get(k, default)]: [AttributeError] unless [v] is a [dict]. *)
Definition py_get (v : pyval) (k : string) (default : pyval) : result pyval :=
  match v with
  | PDict kv => Ok (match dict_get k kv with Some x => x | None => default end)
  | _ => Raise (AttributeError "object has no attribute 'get'")
  end.

(** [d[k]] for a string key: [KeyError] on a [dict] without it,
    [TypeError] on any other value. *)
Definition py_index (v : pyval) (k : string) : result pyval :=
  match v with
  | PDict kv => match dict_get k kv with Some x => Ok x | None => Raise (KeyError k) end
  | _ => Raise (TypeError "indices must be integers or the object is not subscriptable")
  end.

(** [v == s] for a string literal [s] *)
Definition is_str (v : pyval) (s : string) : bool :=
  match v with PStr s' => String.eqb s' s | _ => false end.

Definition chars (s : string) : list pyval :=
  map (fun a => PStr (String a EmptyString)) (list_ascii_of_string s).

(** [v[:n]]: a [dict] cannot be sliced ([TypeError]; from Python 3.12 on
    a [KeyError], the slice being looked up as a key). *)
Definition py_slice (v : pyval) (n : nat) : result pyval :=
  match v with
  | PList xs => Ok (PList (firstn n xs))
  | PStr s => Ok (PStr (String.substring 0 n s))
  | PDict _ => Raise (TypeError "unhashable type: 'slice'")
  | _ => Raise (TypeError "object is not subscriptable")
  end.

(** the elements that [for x in v] visits *)
Definition py_iter (v : pyval) : result (list pyval) :=
  match v with
  | PList xs => Ok xs
  | PDict kv => Ok (map PStr (dict_keys kv))
  | PStr s => Ok (chars s)
  | _ => Raise (TypeError "object is not iterable")
  end.

(** [len(v)] *)
Definition py_len (v : pyval) : result Z :=
  match v with
  | PList xs => Ok (Z.of_nat (List.length xs))
  | PDict kv => Ok (Z.of_nat (List.length kv))
  | PStr s => Ok (Z.of_nat (String.length s))
  | _ => Raise (TypeError "object has no len()")
  end.

(** [v[0]] *)
Definition py_first (v : pyval) : result pyval :=
  match v with
  | PList (x :: _) => Ok x
  | PList [] => Raise (IndexError "list index out of range")
  | PStr (String a _) => Ok (PStr (String a EmptyString))
  | PStr EmptyString => Raise (IndexError "string index out of range")
  | PDict _ => Raise (KeyError "0")
  | _ => Raise (TypeError "object is not subscriptable")
  end.

(** [k in v] for a string [k] *)
Definition py_contains (k : string) (v : pyval) : result bool :=
  match v with
  | PDict kv => Ok (dict_in k kv)
  | PList xs => Ok (existsb (fun x => is_str x k) xs)
  | PStr s => Ok (PyStr.contains k s)
  | _ => Raise (TypeError "argument is not iterable")
  end.

(** [v.items()]: [AttributeError] unless [v] is a [dict]. *)
Definition py_items (v : pyval) : result (list (string * pyval)) :=
  match v with
  | PDict kv => Ok kv
  | _ => Raise (AttributeError "object has no attribute 'items'")
  end.

(** the number a value stands for in arithmetic ([True] is 1, [False] 0) *)
Definition as_number (v : pyval) : option (Z + Q) :=
  match v with
  | PInt n => Some (inl n)
  | PBool b => Some (inl (if b then 1 else 0))
  | PFloat x => Some (inr x)
  | _ => None
  end.

Definition to_Q (n : Z + Q) : Q :=
  match n with inl z => inject_Z z | inr x => x end.

Definition of_number (n : Z + Q) : pyval :=
  match n with inl z => PInt z | inr x => PFloat x end.

(** [a + b] on numbers *)
Definition add_numbers (a b : Z + Q) : Z + Q :=
  match a, b with
  | inl x, inl y => inl (x + y)
  | _, _ => inr (Qplus (to_Q a) (to_Q b))
  end.

(** [sum(vs)] *)
Fixpoint py_sum_from (acc : Z + Q) (vs : list pyval) : result pyval :=
  match vs with
  | [] => Ok (of_number acc)
  | v :: vs' =>
      match as_number v with
      | Some n => py_sum_from (add_numbers acc n) vs'
      | None => Raise (TypeError "unsupported operand type(s) for +")
      end
  end.

Definition py_sum (vs : list pyval) : result pyval := py_sum_from (inl 0) vs.

(** [v > n] for an integer literal [n] *)
Definition py_gt (v : pyval) (n : Z) : result bool :=
  match as_number v with
  | Some (inl m) => Ok (m >? n)
  | Some (inr x) => Ok (negb (Qle_bool x (inject_Z n)))
  | None => Raise (TypeError "'>' not supported between these types")
  end.

(** [v.values()] and [v.keys()]: [AttributeError] unless [v] is a [dict]. *)
Definition py_values (v : pyval) : result (list pyval) :=
  match v with
  | PDict kv => Ok (dict_values kv)
  | _ => Raise (AttributeError "object has no attribute 'values'")
  end.

Definition py_keys (v : pyval) : result (list pyval) :=
  match v with
  | PDict kv => Ok (map PStr (dict_keys kv))
  | _ => Raise (AttributeError "object has no attribute 'keys'")
  end.

(** a list comprehension whose element expression may raise *)
Fixpoint mapM {A B : Type} (f : A -> result B) (xs : list A) : result (list B) :=
  match xs with
  | [] => Ok []
  | x :: xs' =>
      Py.bind (f x) (fun y => Py.bind (mapM f xs') (fun ys => Ok (y :: ys)))
  end.

(** a list comprehension with a condition that may raise *)
Fixpoint filterM {A : Type} (p : A -> result bool) (xs : list A) : result (list A) :=
  match xs with
  | [] => Ok []
  | x :: xs' =>
      Py.bind (p x) (fun b =>
        Py.bind (filterM p xs') (fun ys => Ok (if b then x :: ys else ys)))
  end.

End Run.

Declare Scope run_scope.
Delimit Scope run_scope with run.
Notation "x <- m ;; k" := (Run.bind m (fun x => k))
  (at level 61, m at next level, right associativity) : run_scope.
Notation "m ;;; k" := (Run.bind m (fun _ => k))
  (at level 61, right associativity) : run_scope.

(** ** [backend/github_analyzer.py]: the provider client *)

Module GitHubAnalyzer.
Import Py PyStr Run.
Local Open Scope run_scope.

(** [_make_request]: one request to the data provider. The method turns
    transport failures into the degraded marker
    [{"error": ..., "partial": True}] itself; the model takes its outcome
    from the provider oracle and counts the call. *)
Definition _make_request (E : env) (endpoint : string) : M pyval :=
  fun w => (respond E (api_calls w) endpoint,
            {| cache := cache w; api_calls := S (api_calls w);
               clock_reads := clock_reads w |}).

Definition invalid_url (repo_url : string) : exn :=
  ValueError ("Invalid GitHub repository URL: " ++ repo_url).

(** [parse_repo_url] *)
Definition parse_repo_url (E : env) (repo_url : string) : result (string * string) :=
  if startswith "http" repo_url then
    Py.bind (urlparse_path E repo_url) (fun path =>
      match split_on "/" (strip "/" path) with
      | owner :: repo :: _ => Ok (owner, repo)
      | _ => Raise (invalid_url repo_url)
      end)
  else
    match split_on "/" repo_url with
    | [owner; repo] => Ok (owner, repo)
    | _ => Raise (invalid_url repo_url)
    end.

Definition repo_endpoint (owner repo : string) : string :=
  "repos/" ++ owner ++ "/" ++ repo.

(** [get_repository_info] *)
Definition get_repository_info (E : env) (owner repo : string) : M pyval :=
  result <- _make_request E (repo_endpoint owner repo) ;;
  err <- lift (py_get result "error" PNone) ;;
  if truthy err then
    ret (PDict [("name", PStr repo);
                ("owner", PDict [("login", PStr owner)]);
                ("description", PStr "Unable to fetch description");
                ("stargazers_count", PInt 0);
                ("forks_count", PInt 0);
                ("open_issues_count", PInt 0);
                ("size", PInt 0);
                ("default_branch", PStr "main");
                ("partial", PBool true)])
  else ret result.

Definition get_languages (E : env) (owner repo : string) : M pyval :=
  _make_request E (repo_endpoint owner repo ++ "/languages").

Definition get_contributors (E : env) (owner repo : string) : M pyval :=
  _make_request E (repo_endpoint owner repo ++ "/contributors").

Definition get_commits (E : env) (owner repo : string) : M pyval :=
  _make_request E (repo_endpoint owner repo ++ "/commits").

(** [get_releases]: [try: return ... except: return []] *)
Definition get_releases (E : env) (owner repo : string) : M pyval :=
  try_except (_make_request E (repo_endpoint owner repo ++ "/releases"))
             (fun _ => ret (PList [])).

Definition get_issues (E : env) (owner repo : string) : M pyval :=
  _make_request E (repo_endpoint owner repo ++ "/issues").

Definition get_pull_requests (E : env) (owner repo : string) : M pyval :=
  _make_request E (repo_endpoint owner repo ++ "/pulls").

(** the body shared by [get_readme] and [get_requirements_txt]:
    [base64.b64decode(file_data["content"]).decode("utf-8")] *)
Definition decode_content (E : env) (file_data : pyval) : M pyval :=
  content <- lift (py_index file_data "content") ;;
  lift (lib E "b64decode_utf8" [content]).

(** [get_readme] *)
Definition get_readme (E : env) (owner repo : string) : M pyval :=
  try_except
    (readme_data <- _make_request E (repo_endpoint owner repo ++ "/readme") ;;
     enc <- lift (py_get readme_data "encoding" PNone) ;;
     if is_str enc "base64" then decode_content E readme_data
     else lift (py_get readme_data "content" (PStr "")))
    (fun _ => ret PNone).

(** [get_package_json] *)
Definition get_package_json (E : env) (owner repo : string) : M pyval :=
  try_except
    (file_data <- _make_request E (repo_endpoint owner repo ++ "/contents/package.json") ;;
     enc <- lift (py_get file_data "encoding" PNone) ;;
     if is_str enc "base64" then
       content <- decode_content E file_data ;;
       lift (lib E "json.loads" [content])
     else ret PNone)
    (fun _ => ret PNone).

(** [get_requirements_txt] *)
Definition get_requirements_txt (E : env) (owner repo : string) : M pyval :=
  try_except
    (file_data <- _make_request E (repo_endpoint owner repo ++ "/contents/requirements.txt") ;;
     enc <- lift (py_get file_data "encoding" PNone) ;;
     if is_str enc "base64" then decode_content E file_data
     else ret PNone)
    (fun _ => ret PNone).

(** [get_workflow_runs] *)
Definition get_workflow_runs (E : env) (owner repo : string) : M pyval :=
  try_except
    (result <- _make_request E (repo_endpoint owner repo ++ "/actions/runs") ;;
     lift (py_get result "workflow_runs" (PList [])))
    (fun _ => ret (PList [])).

End GitHubAnalyzer.

(** ** [backend/cache.py]: the module-level functions on the global
    [repository_cache] *)

Module CachePy.
Import Py Run.

(** The number of clock readings a [get] takes: none for an absent key,
    one for an expired entry, two for a hit. *)
Definition get_reads (now : Z) (key : string) (c : RepositoryCache.t) : nat :=
  match dict_get key (RepositoryCache._cache c) with
  | None => 0
  | Some e => if now <? RepositoryCache.expires_at e then 2 else 1
  end.

(** [repository_cache.get(key)] *)
Definition cache_get (E : env) (key : string) : M pyval :=
  fun w =>
    let n := clock_reads w in
    let '(r, c) := RepositoryCache.get (clock E n) (clock E (S n)) key (cache w) in
    (r, {| cache := c; api_calls := api_calls w;
           clock_reads := (n + get_reads (clock E n) key (cache w))%nat |}).

(** [repository_cache.set(key, value, ttl)] *)
Definition cache_set (E : env) (key : string) (v : pyval) (ttl : option Z) : M unit :=
  fun w =>
    let n := clock_reads w in
    let '(r, c) :=
      RepositoryCache.set (clock E n) (clock E (S n)) (clock E (S (S n)))
                          key v ttl (cache w) in
    (r, {| cache := c; api_calls := api_calls w;
           clock_reads := match r with Ok _ => (n + 3)%nat | Raise _ => n end |}).

Definition analysis_key (owner repo : string) : string :=
  "analysis:" ++ owner ++ "/" ++ repo.

(** [cache_repository_analysis] *)
Definition cache_repository_analysis (E : env) (owner repo : string)
    (analysis_data : pyval) : M unit :=
  cache_set E (analysis_key owner repo) analysis_data (Some 1800).

(** [get_cached_analysis] *)
Definition get_cached_analysis (E : env) (owner repo : string) : M pyval :=
  cache_get E (analysis_key owner repo).

(** [value is None] *)
Definition is_None (v : pyval) : bool :=
  match v with PNone => true | _ => false end.

(** [_generate_key]: the MD5 digest of the JSON text of
    the arguments; [json.dumps] raises when an argument has no JSON form. *)
Definition _generate_key (E : env) (args : list pyval) : result string :=
  Py.bind (lib E "md5(json.dumps(args))" args) (fun digest => Ok (py_str E digest)).

(** [not isinstance(result, dict) or not result.get("error")] *)
Definition cacheable (result : pyval) : bool :=
  match result with
  | PDict kv => negb (truthy (match dict_get "error" kv with
                              | Some e => e
                              | None => PNone
                              end))
  | _ => true
  end.

(** [cache_result(ttl)(func)] called on [args]: [name] is [func.__name__] and [func]
    the call of the wrapped function on [args]. *)
Definition cache_result (E : env) (ttl : option Z) (name : string)
    (args : list pyval) (func : M pyval) : M pyval :=
  Run.bind (lift (_generate_key E args)) (fun digest =>
  let cache_key := name ++ ":" ++ digest in
  (* Try to get from cache *)
  Run.bind (cache_get E cache_key) (fun cached_result =>
  if negb (is_None cached_result) then ret cached_result
  else
    (* Execute function and cache result *)
    Run.bind func (fun result =>
    (* Don't cache errors or partial results *)
    if cacheable result then
      Run.bind (cache_set E cache_key result ttl) (fun _ => ret result)
    else ret result))).

(** [invalidate_repository_cache]: clears the whole cache, whatever the
    repository. *)
Definition invalidate_repository_cache (owner repo : string) : M unit :=
  fun w => (Ok tt, {| cache := RepositoryCache.clear (cache w);
                      api_calls := api_calls w; clock_reads := clock_reads w |}).

End CachePy.

(** ** [backend/deep_analyzer.py]: the tree features and the
    architecture-pattern detector *)

Module DeepAnalyzer.
Import Py PyStr Run GitHubAnalyzer.
Local Open Scope run_scope.

(** The dictionary returned by [analyze_file_tree] (and by
    [_default_tree_analysis]): always these eight keys. *)
Record tree_analysis : Type := TreeAnalysis {
  total_files : Z;
  total_dirs : Z;
  file_types : dict Z;
  directory_structure : dict (list string);
  config_files : list string;
  test_files : list string;
  doc_files : list string;
  max_depth : Z
}.

(** [_default_tree_analysis] *)
Definition _default_tree_analysis : tree_analysis :=
  {| total_files := 0; total_dirs := 0; file_types := [];
     directory_structure := []; config_files := []; test_files := [];
     doc_files := []; max_depth := 0 |}.

Local Notation "x <~ r ;; k" := (Py.bind r (fun x => k))
  (at level 61, r at next level, right associativity).

(** a loop whose body may raise *)
Fixpoint foldM {A B : Type} (f : B -> A -> result B) (xs : list A) (b : B)
    : result B :=
  match xs with
  | [] => Ok b
  | x :: xs' => b' <~ f b x ;; foldM f xs' b'
  end.

(** [counter[k] += 1] on a [Counter] *)
Definition counter_incr (k : string) (d : dict Z) : dict Z :=
  dict_set k (match dict_get k d with Some n => n + 1 | None => 1 end) d.

(** [d[k].append(x)] on a [defaultdict(list)] *)
Definition multimap_append (k x : string) (d : dict (list string))
    : dict (list string) :=
  dict_set k (match dict_get k d with Some xs => xs ++ [x] | None => [x] end)%list d.

Definition config_basenames : list string :=
  ["package.json"; "requirements.txt"; "Gemfile";
   "Cargo.toml"; "go.mod"; "pom.xml"; ".env.example";
   "Dockerfile"; "docker-compose.yml"; ".github/workflows"].

(** One round of the loop of [analyze_file_tree] over the tree entries. *)
Definition tree_step (analysis : tree_analysis) (item : pyval) : result tree_analysis :=
  p <~ py_index item "path" ;;
  item_type <~ py_index item "type" ;;
  if is_str item_type "blob" then
    match p with
    | PStr path =>
        let basename := last_part "/" path in
        let depth := depth_of "/" path in
        Ok {| total_files := total_files analysis + 1;
              total_dirs := total_dirs analysis;
              (* Extract file extension *)
              file_types :=
                if contains "." path
                then counter_incr (lower (last_part "." path)) (file_types analysis)
                else file_types analysis;
              (* Track directory structure *)
              directory_structure :=
                if depth >? 0
                then multimap_append (parent_path "/" path) basename
                       (directory_structure analysis)
                else directory_structure analysis;
              (* Categorize files *)
              config_files :=
                (if existsb (String.eqb basename) config_basenames
                 then config_files analysis ++ [path] else config_files analysis)%list;
              test_files :=
                (if any (fun t => contains t (lower path)) ["test"; "spec"; "__test__"]
                 then test_files analysis ++ [path] else test_files analysis)%list;
              doc_files :=
                (if any (fun d => contains d (lower path))
                        ["readme"; "doc"; "license"; "contributing"]
                 then doc_files analysis ++ [path] else doc_files analysis)%list;
              max_depth := Z.max (max_depth analysis) depth |}
    | _ => Raise (AttributeError "path is not a str")
    end
  else if is_str item_type "tree" then
    Ok {| total_files := total_files analysis;
          total_dirs := total_dirs analysis + 1;
          file_types := file_types analysis;
          directory_structure := directory_structure analysis;
          config_files := config_files analysis;
          test_files := test_files analysis;
          doc_files := doc_files analysis;
          max_depth := max_depth analysis |}
  else Ok analysis.

(** [analyze_file_tree]: any exception yields the default analysis. *)
Definition analyze_file_tree (E : env) (owner repo : string) : M tree_analysis :=
  try_except
    ((* Get full tree recursively *)
     info <- get_repository_info E owner repo ;;
     default_branch <- lift (py_get info "default_branch" (PStr "main")) ;;
     tree_data <- _make_request E (repo_endpoint owner repo ++ "/git/trees/" ++
                                   py_str E default_branch ++ "?recursive=1") ;;
     if negb (truthy tree_data) then ret _default_tree_analysis
     else
       has_tree <- lift (py_contains "tree" tree_data) ;;
       if negb has_tree then ret _default_tree_analysis
       else
         files <- lift (py_index tree_data "tree") ;;
         items <- lift (py_iter files) ;;
         lift (foldM tree_step items _default_tree_analysis))
    (fun _ => ret _default_tree_analysis).

(** [detect_architecture_pattern] *)
Definition detect_architecture_pattern (tree : tree_analysis) : string :=
  let dirs := dict_keys (directory_structure tree) in
  (* MVC Pattern *)
  if (any (fun d => contains "controller" (lower d)) dirs &&
      any (fun d => contains "model" (lower d)) dirs &&
      any (fun d => contains "view" (lower d)) dirs)%bool
  then "MVC (Model-View-Controller)"
  (* Microservices *)
  else if (any (fun d => contains "services" (lower d)) dirs ||
           (Z.of_nat (List.length
                        (filter (fun d => contains "service" (lower d)) dirs)) >? 2))%bool
  then "Microservices Architecture"
  (* Layered Architecture *)
  else if (any (fun d => contains "domain" (lower d)) dirs &&
           any (fun d => contains "infrastructure" (lower d)) dirs)%bool
  then "Domain-Driven Design (DDD)"
  (* Component-based *)
  else if (any (fun d => contains "components" (lower d)) dirs ||
           any (fun d => contains "src/components" d) dirs)%bool
  then "Component-Based Architecture"
  (* API-First: any(f for f in config_files if ...) tests the truth value
     of each selected path *)
  else if (any (fun d => contains "api" (lower d)) dirs &&
           any (fun f => negb (String.eqb f ""))
               (filter (fun f => (contains "swagger" (lower f) ||
                                  contains "openapi" (lower f))%bool)
                       (config_files tree)))%bool
  then "API-First Architecture"
  (* Monolithic *)
  else if ((max_depth tree <? 3) && (total_dirs tree <? 10))%bool
  then "Monolithic Architecture"
  (* Modular *)
  else if (any (fun d => contains "modules" (lower d)) dirs ||
           any (fun d => contains "packages" (lower d)) dirs)%bool
  then "Modular Architecture"
  else "Standard Project Structure".

(** The dictionary returned by [analyze_dependencies_detailed]: always
    these six keys. The values of [direct_dependencies] and
    [dev_dependencies] are what the manifests contain. *)
Record dependencies : Type := Dependencies {
  total_count : Z;
  direct_dependencies : dict pyval;
  dev_dependencies : dict pyval;
  outdated_check : list string;
  security_warnings : list pyval;
  package_managers : list string
}.

(** the test of the loop over the npm dependencies *)
Definition flexible_npm (entry : string * pyval) : result (list string) :=
  let '(dep, version) := entry in
  match version with
  | PStr v =>
      Ok (if (startswith "^" v || startswith "~" v)%bool
          then [dep ++ ": using flexible versioning (" ++ v ++ ")"] else [])
  | _ => Raise (AttributeError "object has no attribute 'startswith'")
  end.

(** The lines of [requirements.txt]: the pinned and bare names, and the
    warnings for the range pins. *)
Definition requirement_step (acc : dict pyval * list string) (raw : string)
    : dict pyval * list string :=
  let '(python_deps, outdated) := acc in
  let line := strip_ws raw in
  if (negb (String.eqb line "") && negb (startswith "#" line))%bool then
    if contains "==" line then
      (dict_set (strip_ws (before_first "==" line))
                (PStr (strip_ws (after_first "==" line))) python_deps,
       outdated)
    else if (contains ">=" line || contains "<=" line)%bool then
      (python_deps, (outdated ++ [(line ++ ": using flexible versioning")%string])%list)
    else (dict_set line (PStr "*") python_deps, outdated)
  else acc.

Definition files_to_check : list (string * string) :=
  [("Gemfile", "bundler"); ("Cargo.toml", "cargo"); ("go.mod", "go modules");
   ("pom.xml", "maven"); ("build.gradle", "gradle")].

(** one probe of the loop over [files_to_check] *)
Definition probe_manager (E : env) (owner repo : string) (found : list string)
    (probe : string * string) : M (list string) :=
  let '(filename, manager) := probe in
  try_except
    (file_exists <- _make_request E (repo_endpoint owner repo ++ "/contents/" ++ filename) ;;
     if truthy file_exists then
       err <- lift (py_get file_exists "error" PNone) ;;
       ret (if truthy err then found else (found ++ [manager])%list)
     else ret found)
    (fun _ => ret found).

Fixpoint probe_managers (E : env) (owner repo : string) (found : list string)
    (probes : list (string * string)) : M (list string) :=
  match probes with
  | [] => ret found
  | p :: probes' =>
      found' <- probe_manager E owner repo found p ;;
      probe_managers E owner repo found' probes'
  end.

(** [analyze_dependencies_detailed] *)
Definition analyze_dependencies_detailed (E : env) (owner repo : string)
    : M dependencies :=
  (* Check package.json for Node.js *)
  package_json <- get_package_json E owner repo ;;
  npm <-
    (if truthy package_json then
       has_deps <- lift (py_contains "dependencies" package_json) ;;
       direct <-
         (if has_deps then
            d <- lift (py_index package_json "dependencies") ;;
            n <- lift (py_len d) ;;
            ret ([("npm", d)], n)
          else ret ([], 0)) ;;
       has_dev <- lift (py_contains "devDependencies" package_json) ;;
       dev <-
         (if has_dev then
            d <- lift (py_index package_json "devDependencies") ;;
            n <- lift (py_len d) ;;
            ret ([("npm", d)], n)
          else ret ([], 0)) ;;
       (* Check for outdated patterns *)
       items <- lift (py_items (match dict_get "npm" (fst direct) with
                                | Some d => d
                                | None => PDict []
                                end)) ;;
       flexible <- lift (mapM flexible_npm items) ;;
       ret (["npm/yarn"], fst direct, fst dev, snd direct + snd dev, List.concat flexible)
     else ret ([], [], [], 0, [])) ;;
  let '(managers, direct, dev, total, outdated) := npm in
  (* Check requirements.txt for Python *)
  requirements <- get_requirements_txt E owner repo ;;
  pip <-
    (if truthy requirements then
       match requirements with
       | PStr text =>
           let '(python_deps, outdated') :=
             fold_left requirement_step (split_on (ascii_of_nat 10) text)
                       ([], outdated) in
           ret ((managers ++ ["pip"])%list,
                dict_set "pip" (PDict python_deps) direct,
                total + Z.of_nat (List.length python_deps), outdated')
       | _ => raise (AttributeError "object has no attribute 'split'")
       end
     else ret (managers, direct, total, outdated)) ;;
  let '(managers, direct, total, outdated) := pip in
  (* Check for other package managers *)
  managers <- probe_managers E owner repo managers files_to_check ;;
  ret {| total_count := total;
         direct_dependencies := direct;
         dev_dependencies := dev;
         outdated_check := outdated;
         security_warnings := [];
         package_managers := managers |}.

(** The dictionary returned by [analyze_code_quality_detailed]. The two
    percentages are floats with one decimal; the record holds their
    number of tenths. *)
Record quality : Type := Quality {
  test_coverage : string;
  test_file_ratio : Z;
  documentation_coverage : Z;
  linting_config : list string;
  ci_cd_tools : list string;
  code_review_process : string;
  branch_protection : bool
}.

Definition linting_files : list string :=
  [".eslintrc"; ".eslintrc.json"; ".eslintrc.js";
   ".prettierrc"; ".prettierrc.json";
   ".flake8"; ".pylintrc"; "pyproject.toml";
   ".rubocop.yml"; "rustfmt.toml"].

(** [analyze_code_quality_detailed] *)
Definition analyze_code_quality_detailed (E : env) (owner repo : string)
    (tree : tree_analysis) : M quality :=
  (* Calculate test coverage estimate *)
  let total := total_files tree in
  let tests := Z.of_nat (List.length (test_files tree)) in
  let ratio := if total >? 0 then round_pct E tests total else 0 in
  let coverage :=
    if total >? 0 then
      if ratio >? 300 then "High (>30% test files)"
      else if ratio >? 150 then "Medium (15-30% test files)"
      else if ratio >? 50 then "Low (5-15% test files)"
      else "Minimal (<5% test files)"
    else "Unknown" in
  (* Check for linting configs *)
  let linting :=
    flat_map (fun lint_file =>
                if any (fun f => contains lint_file f) (config_files tree)
                then [before_first "rc" (remove_char "." lint_file)] else [])
             linting_files in
  (* Check CI/CD *)
  let ci_of (fragment tool : string) : list string :=
    if any (fun f => contains fragment f) (config_files tree) then [tool] else [] in
  let ci := (ci_of ".github/workflows" "GitHub Actions" ++ ci_of ".gitlab-ci" "GitLab CI" ++
             ci_of "Jenkinsfile" "Jenkins" ++ ci_of ".travis" "Travis CI")%list in
  (* Check branch protection *)
  protected <-
    try_except
      (info <- get_repository_info E owner repo ;;
       branch <- lift (py_get info "default_branch" (PStr "main")) ;;
       resp <- _make_request E (repo_endpoint owner repo ++ "/branches/" ++
                                py_str E branch ++ "/protection") ;;
       if truthy resp then
         err <- lift (py_get resp "error" PNone) ;;
         ret (negb (truthy err))
       else ret false)
      (fun _ => ret false) ;;
  (* Documentation coverage *)
  let docs := Z.of_nat (List.length (doc_files tree)) in
  let doc_cov := if total >? 0 then round_pct E docs total else 0 in
  ret {| test_coverage := coverage;
         test_file_ratio := ratio;
         documentation_coverage := doc_cov;
         linting_config := linting;
         ci_cd_tools := ci;
         code_review_process :=
           if protected then "Protected branches with review requirements"
           else "Unknown";
         branch_protection := protected |}.

(** The dictionary returned by [analyze_commit_activity]: always these
    seven keys. *)
Record activity : Type := Activity {
  commit_frequency : pyval;
  peak_hours : pyval;
  peak_days : pyval;
  avg_pr_merge_time : pyval;
  issue_resolution_time : pyval;
  contributor_distribution : pyval;
  commit_message_quality : pyval
}.

(** [datetime.fromisoformat(s.replace("Z", "+00:00"))] *)
Definition parse_date (E : env) (s : pyval) : result pyval :=
  lib E "datetime.fromisoformat" [s].

(** One round of the first loop over [commits[:100]]: [None] when the
    commit is skipped, else the parsed date (if any) and the author name. *)
Definition commit_time_author (E : env) (commit : pyval)
    : result (option (option pyval * pyval)) :=
  c <~ py_get commit "commit" PNone ;;
  if truthy c then
    a <~ py_get c "author" (PDict []) ;;
    date_str <~ py_get a "date" PNone ;;
    dt <~ (if truthy date_str
           then d <~ parse_date E date_str ;; Ok (Some d)
           else Ok None) ;;
    a' <~ py_get c "author" (PDict []) ;;
    author <~ py_get a' "name" (PStr "Unknown") ;;
    (* commit_authors[author] += 1 needs a hashable key *)
    match author with
    | PList _ | PDict _ => Raise (TypeError "unhashable type")
    | _ => Ok (Some (dt, author))
    end
  else Ok None.

Definition newline : string := String (ascii_of_nat 10) EmptyString.

Definition conventional_prefixes : list string :=
  ["fix:"; "feat:"; "docs:"; "refactor:"; "test:"].

(** The test of the second loop, over [commits[:50]]: is the message a
    good one? *)
Definition good_message (commit : pyval) : result bool :=
  c <~ py_get commit "commit" (PDict []) ;;
  message <~ py_get c "message" (PStr "") ;;
  n <~ py_len message ;;
  if ((10 <? n) && (n <? 200))%bool then
    match message with
    | PStr m =>
        Ok (any (fun prefix => contains prefix (lower m)) conventional_prefixes ||
            (Z.of_nat (String.length (before_first newline m)) <? 72))%bool
    | _ => Raise (AttributeError "object has no attribute 'lower'")
    end
  else Ok false.

(** One round of the loop over [prs[:20]]: the two parsed dates of a
    merged pull request. *)
Definition pr_merge_span (E : env) (pr : pyval) : result (option pyval) :=
  merged_at <~ py_get pr "merged_at" PNone ;;
  created_at <~ (if truthy merged_at then py_get pr "created_at" PNone else Ok PNone) ;;
  if (truthy merged_at && truthy created_at)%bool then
    created <~ parse_date E created_at ;;
    merged <~ parse_date E merged_at ;;
    Ok (Some (PList [created; merged]))
  else Ok None.

(** One round of the loop over [issues[:20]] *)
Definition issue_resolution_span (E : env) (issue : pyval) : result (option pyval) :=
  closed_at <~ py_get issue "closed_at" PNone ;;
  created_at <~ (if truthy closed_at then py_get issue "created_at" PNone else Ok PNone) ;;
  is_pr <~ (if (truthy closed_at && truthy created_at)%bool
            then py_get issue "pull_request" PNone else Ok PNone) ;;
  if (truthy closed_at && truthy created_at && negb (truthy is_pr))%bool then
    created <~ parse_date E created_at ;;
    closed <~ parse_date E closed_at ;;
    Ok (Some (PList [created; closed]))
  else Ok None.

Fixpoint somes {A : Type} (xs : list (option A)) : list A :=
  match xs with
  | [] => []
  | Some x :: xs' => x :: somes xs'
  | None :: xs' => somes xs'
  end.

(** [analyze_commit_activity] *)
Definition analyze_commit_activity (E : env) (commits issues prs : pyval)
    : result activity :=
  let unknown := PStr "Unknown" in
  (* if commits: *)
  from_commits <~
    (if truthy commits then
       first100 <~ py_slice commits 100 ;;
       cs <~ py_iter first100 ;;
       infos <~ mapM (commit_time_author E) cs ;;
       let commit_times := somes (map fst (somes infos)) in
       let commit_authors := map snd (somes infos) in
       hours <~ (match commit_times with
                 | [] => Ok (PList [])
                 | _ => lib E "peak_hours" [PList commit_times]
                 end) ;;
       days <~ (match commit_times with
                | [] => Ok (PList [])
                | _ => lib E "peak_days" [PList commit_times]
                end) ;;
       contributors <~ (match commit_authors with
                        | [] => Ok (PDict [])
                        | _ => lib E "contributor_distribution" [PList commit_authors]
                        end) ;;
       first50 <~ py_slice commits 50 ;;
       cs50 <~ py_iter first50 ;;
       goods <~ filterM good_message cs50 ;;
       let good_messages := Z.of_nat (List.length goods) in
       Ok (hours, days, contributors,
           PStr (if good_messages >? 35 then "Excellent (follows conventions)"
                 else if good_messages >? 20 then "Good (mostly structured)"
                 else "Needs improvement"))
     else Ok (PList [], PList [], PDict [], unknown)) ;;
  let '(hours, days, contributors, message_quality) := from_commits in
  (* if prs: *)
  merge_time <~
    (if truthy prs then
       first20 <~ py_slice prs 20 ;;
       ps <~ py_iter first20 ;;
       spans <~ mapM (pr_merge_span E) ps ;;
       match somes spans with
       | [] => Ok unknown
       | merge_times => lib E "format_merge_time" [PList merge_times]
       end
     else Ok unknown) ;;
  (* if issues: *)
  resolution <~
    (if truthy issues then
       first20 <~ py_slice issues 20 ;;
       is_ <~ py_iter first20 ;;
       spans <~ mapM (issue_resolution_span E) is_ ;;
       match somes spans with
       | [] => Ok unknown
       | resolution_times => lib E "format_resolution_time" [PList resolution_times]
       end
     else Ok unknown) ;;
  Ok {| commit_frequency := PDict [];
        peak_hours := hours;
        peak_days := days;
        avg_pr_merge_time := merge_time;
        issue_resolution_time := resolution;
        contributor_distribution := contributors;
        commit_message_quality := message_quality |}.

(** [identify_tech_debt_indicators] *)
Definition identify_tech_debt_indicators (E : env) (tree : tree_analysis)
    (deps : dependencies) (q : quality) : list string :=
  let indicators :=
    ((* File organization debt *)
     (if max_depth tree >? 6
      then ["Deep nesting (>6 levels) indicates complex organization"] else []) ++
     (if total_files tree >? 500
      then ["Large codebase (>500 files) may need modularization"] else []) ++
     (* Dependency debt *)
     (if total_count deps >? 50
      then [("High dependency count (" ++ py_str E (PInt (total_count deps)) ++
             ") increases maintenance burden")%string] else []) ++
     (if Z.of_nat (List.length (outdated_check deps)) >? 5
      then ["Multiple dependencies using flexible versioning"] else []) ++
     (* Testing debt *)
     (if test_file_ratio q <? 100
      then ["Low test coverage (<10% test files)"] else []) ++
     (match ci_cd_tools q with
      | [] => ["No CI/CD pipeline detected"]
      | _ => []
      end) ++
     (match linting_config q with
      | [] => ["No code linting configuration found"]
      | _ => []
      end) ++
     (* Documentation debt *)
     (if documentation_coverage q <? 50
      then ["Minimal documentation coverage"] else []))%list in
  match indicators with
  | [] => ["No significant technical debt indicators detected"]
  | _ => indicators
  end.

(** The dictionary returned by [analyze_security_posture]. *)
Record security : Type := Security {
  dependency_risks : list string;
  security_features : list string;
  vulnerabilities : list pyval
}.

(** the risks listed for one package manager *)
Definition manager_risks (entry : string * pyval) : result (list string) :=
  let '(manager, packages) := entry in
  if (String.eqb manager "npm" || String.eqb manager "pip")%bool then
    items <~ py_items packages ;;
    Ok (map (fun kv => "Check " ++ fst kv ++ " version for known vulnerabilities") items)
  else Ok [].

(** [analyze_security_posture] *)
Definition analyze_security_posture (deps : dependencies) (q : quality)
    : result security :=
  (* Check for known vulnerable patterns *)
  risks <~ mapM manager_risks (direct_dependencies deps) ;;
  (* Security features *)
  let features :=
    ((if branch_protection q then ["Branch protection enabled"] else []) ++
     (if any (fun f => contains "dependabot" (lower f)) (ci_cd_tools q)
      then ["Automated dependency updates"] else []) ++
     (if any (fun f => contains "security" (lower f)) (ci_cd_tools q)
      then ["Security scanning in CI/CD"] else []))%list in
  Ok {| dependency_risks := List.concat risks;
        security_features :=
          match features with
          | [] => ["Consider enabling security features"]
          | _ => features
          end;
        vulnerabilities := [] |}.

End DeepAnalyzer.

(** ** [backend/enhanced_analyzer.py]: the project-health scorer *)

Module EnhancedAnalyzer.
Import Py.

(** The fields of an issue object that the scorer reads. [updated_at] is
    the instant denoted by the ISO-8601 text, in microseconds. *)
Record issue : Type := Issue {
  state : string;
  updated_at : Z
}.

(** The field of a pull-request object that the scorer reads
    ([pr.get("merged_at")], [None] when the key is missing). *)
Record pull_request : Type := PullRequest {
  merged_at : pyval
}.

(** [timedelta(days=30)], in microseconds *)
Definition days_30 : Z := 30 * 86400 * 1000000.

(** [a / b] for integers with [b > 0]. The quotient is kept exact: for
    lists of fewer than 2^50 elements the comparisons of the rounded
    floating-point quotient with the literals [0.3] and [0.7] come out as
    the exact ones do. *)
Definition true_div (a b : Z) : Q := Qmake a (Z.to_pos b).

Definition Qltb (x y : Q) : bool := negb (Qle_bool y x).

Definition len {A : Type} (xs : list A) : Z := Z.of_nat (List.length xs).

(** [_calculate_health_score]; [now] is the value of [datetime.now()]. *)
Definition _calculate_health_score (now : Z) (issues : list issue)
    (prs : list pull_request) : Z :=
  let score := 50 in
  (* Issue health *)
  let score :=
    match issues with
    | [] => score
    | _ =>
        let open_ratio :=
          true_div (len (filter (fun i => String.eqb (state i) "open") issues))
                   (len issues) in
        if Qltb open_ratio (3 # 10) then score + 20
        else if Qltb (7 # 10) open_ratio then score - 20
        else score
    end in
  (* PR health *)
  let score :=
    match prs with
    | [] => score
    | _ =>
        let merged_ratio :=
          true_div (len (filter (fun pr => truthy (merged_at pr)) prs)) (len prs) in
        if Qltb (7 # 10) merged_ratio then score + 15
        else if Qltb merged_ratio (3 # 10) then score - 15
        else score
    end in
  (* Activity bonus *)
  let recent_activity :=
    len (filter (fun i => now - days_30 <? updated_at i) issues) in
  let score := if recent_activity >? 5 then score + 15 else score in
  Z.max 0 (Z.min 100 score).

End EnhancedAnalyzer.

(** ** [backend/optimized_analyzer.py]: the timeout guard *)

Module OptimizedAnalyzer.
Import Py Run.

(** What the wrapped function does on the worker thread: it ends after
    [elapsed] clock units by returning or by raising, or it never ends. *)
Inductive work : Type :=
| Finishes (elapsed : Z) (outcome : result pyval)
| Hangs.

(** The two one-element lists that the worker writes. *)
Record cells : Type := Cells {
  result0 : pyval;
  exception0 : option exn
}.

(** [target]: run the function, store its value or the exception. *)
Definition target (outcome : result pyval) (c : cells) : cells :=
  match outcome with
  | Ok v => {| result0 := v; exception0 := exception0 c |}
  | Raise e => {| result0 := result0 c; exception0 := Some e |}
  end.

(** The state once [thread.join(seconds)] has returned: the cells, and
    whether [thread.is_alive()]. A worker that ends before the budget has
    written its cell and is dead; one that needs longer, or never ends,
    is alive and has written nothing yet. (A worker ending at the very
    instant the budget runs out may be seen either way; the model counts
    it as alive.) *)
Definition after_join (seconds : Z) (w : work) : cells * bool :=
  let fresh := {| result0 := PNone; exception0 := None |} in
  match w with
  | Finishes elapsed outcome =>
      if elapsed <? seconds then (target outcome fresh, false) else (fresh, true)
  | Hangs => (fresh, true)
  end.

Definition degraded (reason : string) : pyval :=
  PDict [("error", PStr reason); ("partial", PBool true)].

(** [timeout_decorator(seconds)(func)(...)]: the body of [wrapper]. No
    statement of it can raise. *)
Definition timeout_decorator (E : env) (seconds : Z) (w : work) : result pyval :=
  let '(c, alive) := after_join seconds w in
  if alive then
    (* Timeout occurred *)
    Ok (degraded ("Analysis timeout after " ++ py_str E (PInt seconds) ++ " seconds"))
  else
    match exception0 c with
    | Some e => Ok (degraded (str_exn e))
    | None => Ok (result0 c)
    end.

(** The analyzer's own cache: [self._cache], [self._cache_times] and
    [self.cache_ttl]. *)
Record analyzer_cache : Type := AnalyzerCache {
  _cache : dict pyval;
  _cache_times : dict Z;
  cache_ttl : Z
}.

(** [_get_cached], with the reading [now] of [time.time()] *)
Definition _get_cached (now : Z) (key : string) (c : analyzer_cache) : pyval :=
  match dict_get key (_cache c) with
  | Some v =>
      if now - (match dict_get key (_cache_times c) with Some t => t | None => 0 end)
         <? cache_ttl c
      then v else PNone
  | None => PNone
  end.

(** [_set_cache] *)
Definition _set_cache (now : Z) (key : string) (value : pyval) (c : analyzer_cache)
    : analyzer_cache :=
  {| _cache := dict_set key value (_cache c);
     _cache_times := dict_set key now (_cache_times c);
     cache_ttl := cache_ttl c |}.

End OptimizedAnalyzer.

(** ** [backend/repo_processor.py]: the report assembler *)

Module RepoProcessor.
Import Py PyStr Run GitHubAnalyzer DeepAnalyzer CachePy.
Local Open Scope run_scope.

(** The one function of the pipeline whose body the model leaves open:
    [OptimizedAnalyzer.get_quick_insights] runs three analyses on guarded
    worker threads. It may return any value or raise, and it reports how
    many provider requests it made. What is proved below holds whatever
    it does. *)
Record stages : Type := Stages {
  get_quick_insights : string -> string -> world -> result pyval * nat
}.

(** run a stage that makes provider requests *)
Definition requesting {A : Type} (f : world -> result A * nat) : M A :=
  fun w => let '(r, n) := f w in
           (r, {| cache := cache w; api_calls := (api_calls w + n)%nat;
                  clock_reads := clock_reads w |}).

(** [datetime.now()], as an integer instant *)
Definition datetime_now (E : env) : M pyval :=
  fun w => (Ok (PInt (clock E (clock_reads w))),
            {| cache := cache w; api_calls := api_calls w;
               clock_reads := S (clock_reads w) |}).

Local Notation "x <~ r ;; k" := (Py.bind r (fun x => k))
  (at level 61, r at next level, right associativity).

Definition strings (xs : list string) : pyval := PList (map PStr xs).

(** [_calculate_commit_frequency] *)
Definition _calculate_commit_frequency (E : env) (repo_info : pyval) : result pyval :=
  created <~ py_get repo_info "created_at" PNone ;;
  updated <~ py_get repo_info "updated_at" PNone ;;
  if (truthy created && truthy updated)%bool then
    created_date <~ parse_date E created ;;
    updated_date <~ parse_date E updated ;;
    (* "Active for N days" when the difference is positive *)
    lib E "active_days_text" [created_date; updated_date]
  else Ok (PStr "Unable to calculate").

(** [_process_metadata] *)
Definition _process_metadata (E : env) (repo_info languages contributors : pyval)
    : result (dict pyval) :=
  total_bytes <~ (if truthy languages
                  then vs <~ py_values languages ;; py_sum vs
                  else Ok (PInt 1)) ;;
  language_percentages <~
    (if truthy languages
     then lib E "language_percentages" [languages; total_bytes]
     else Ok (PDict [])) ;;
  primary_language <~
    (if truthy language_percentages
     then lib E "primary_language" [language_percentages]
     else Ok (PStr "Unknown")) ;;
  size <~ py_get repo_info "size" (PInt 0) ;;
  frequency <~ _calculate_commit_frequency E repo_info ;;
  contributor_count <~ py_len contributors ;;
  license <~ py_get repo_info "license" PNone ;;
  license_type <~ (if truthy license
                   then l <~ py_get repo_info "license" (PDict []) ;;
                        py_get l "name" PNone
                   else Ok (PStr "No License")) ;;
  default_branch <~ py_get repo_info "default_branch" (PStr "main") ;;
  created_at <~ py_get repo_info "created_at" PNone ;;
  updated_at <~ py_get repo_info "updated_at" PNone ;;
  stars <~ py_get repo_info "stargazers_count" (PInt 0) ;;
  forks <~ py_get repo_info "forks_count" (PInt 0) ;;
  watchers <~ py_get repo_info "watchers_count" (PInt 0) ;;
  Ok [("language_composition", language_percentages);
      ("primary_stack", primary_language);
      ("repository_size_kb", size);
      ("commit_frequency", frequency);
      ("contributor_count", PInt contributor_count);
      ("license_type", license_type);
      ("dependency_count", PStr "Analyzed in Architecture Synopsis");
      ("latest_release", default_branch);
      ("created_date", created_at);
      ("last_updated", updated_at);
      ("stars", stars);
      ("forks", forks);
      ("watchers", watchers)].

(** [_detect_build_system] *)
Definition _detect_build_system (E : env) (package_json requirements_txt : pyval)
    : result string :=
  if truthy package_json then
    dev <~ py_get package_json "devDependencies" (PDict []) ;;
    if contains "webpack" (py_str E dev) then Ok "Webpack"
    else
      dev' <~ py_get package_json "devDependencies" (PDict []) ;;
      if contains "vite" (py_str E dev') then Ok "Vite"
      else
        scripts <~ py_get package_json "scripts" (PDict []) ;;
        build <~ py_get scripts "build" PNone ;;
        Ok (if truthy build then "NPM Scripts" else "Node.js")
  else if truthy requirements_txt then Ok "Python/pip"
  else Ok "Unknown".

(** the name of a requirement line:
    [line.split('==')[0].split('>=')[0].split('<=')[0]] *)
Definition requirement_name (line : string) : string :=
  before_first "<=" (before_first ">=" (before_first "==" line)).

(** [_process_architecture] *)
Definition _process_architecture (E : env)
    (repo_info package_json requirements_txt : pyval) : result (dict pyval) :=
  (* Analyze package.json for Node.js projects *)
  node <~
    (if truthy package_json then
       scripts <~ py_get package_json "scripts" (PDict []) ;;
       items <~ py_items scripts ;;
       deps <~ py_get package_json "dependencies" (PDict []) ;;
       dev_deps <~ py_get package_json "devDependencies" (PDict []) ;;
       core <~ py_keys deps ;;
       dev <~ py_keys dev_deps ;;
       Ok (map (fun kv => PStr (fst kv ++ ": " ++ py_str E (snd kv))) items, core, dev)
     else Ok ([], [], [])) ;;
  let '(entry_points, core, dev) := node in
  (* Analyze requirements.txt for Python projects *)
  core <~
    (if truthy requirements_txt then
       match requirements_txt with
       | PStr text =>
           let lines := split_on (ascii_of_nat 10) (strip_ws text) in
           let python_deps :=
             map requirement_name
                 (filter (fun line => negb (String.eqb line "") &&
                                      negb (startswith "#" line))%bool lines) in
           Ok (core ++ map PStr python_deps)%list
       | _ => Raise (AttributeError "object has no attribute 'strip'")
       end
     else Ok core) ;;
  build_system <~ _detect_build_system E package_json requirements_txt ;;
  Ok [("entry_points",
         match entry_points with
         | [] => PList [PStr "No explicit entry points found"]
         | _ => PList entry_points
         end);
      ("directory_structure", PStr "TBD - Requires tree analysis");
      ("core_dependencies", PList (firstn 20 core));
      ("dev_dependencies", PList (firstn 20 dev));
      ("build_system", PStr build_system);
      ("deployment_pipeline", PStr "TBD - Requires CI/CD analysis")].

(** [w.get("status") == "completed"] *)
Definition is_completed (w : pyval) : result bool :=
  st <~ py_get w "status" PNone ;;
  Ok (is_str st "completed").

Definition workflow_result (w : pyval) : result pyval :=
  name <~ py_get w "name" (PStr "Unknown") ;;
  status <~ py_get w "conclusion" (PStr "unknown") ;;
  date <~ py_get w "updated_at" PNone ;;
  Ok (PDict [("name", name); ("status", status); ("date", date)]).

(** [_process_quality_metrics] *)
Definition _process_quality_metrics (E : env) (repo_info workflows : pyval)
    : result (dict pyval) :=
  n <~ py_len workflows ;;
  ws <~ py_iter workflows ;;
  completed <~ filterM is_completed ws ;;
  let recent_workflows := firstn 5 completed in
  results <~ mapM workflow_result recent_workflows ;;
  Ok [("test_coverage_percentage", PStr "TBD - Requires code analysis");
      ("testing_framework", PStr "TBD - Requires file analysis");
      ("linting_standards", PStr "TBD - Requires config file analysis");
      ("ci_cd_pipeline_status", PStr (if n >? 0 then "Active" else "Not detected"));
      ("automation_scope",
         PStr (if truthy workflows
               then py_str E (PInt n) ++ " workflow runs found"
               else "No automation detected"));
      ("security_vulnerabilities", PStr "TBD - Requires security scan");
      ("recent_workflow_results", PList results)].

(** [_process_documentation] *)
Definition _process_documentation (E : env) (readme repo_info : pyval)
    : result (dict pyval) :=
  from_readme <~
    (if truthy readme then
       (* the first non-header lines, cut at 500 characters *)
       summary <~ lib E "readme_summary" [readme] ;;
       (* the lines under "## Installation" *)
       steps <~ lib E "installation_steps" [readme] ;;
       Ok (summary, steps)
     else Ok (PStr "No README found", PList [])) ;;
  let '(readme_summary, installation_steps) := from_readme in
  language <~ py_get repo_info "language" (PStr "Unknown") ;;
  Ok [("readme_summary", readme_summary);
      ("api_documentation", PStr "TBD - Requires API endpoint analysis");
      ("installation_requirements",
         if truthy installation_steps then installation_steps
         else PList [PStr "Check README for installation instructions"]);
      ("configuration_variables", PStr "TBD - Requires env file analysis");
      ("known_limitations", PStr "TBD - Requires issue analysis");
      ("compatibility_constraints", PStr ("Language: " ++ py_str E language))].

(** [c["commit"]["author"]["date"]], parsed *)
Definition commit_date (E : env) (c : pyval) : result pyval :=
  x <~ py_index c "commit" ;;
  a <~ py_index x "author" ;;
  d <~ py_index a "date" ;;
  parse_date E d.

(** [i.get("state") == "open" and not i.get("pull_request")] *)
Definition is_open_issue (i : pyval) : result bool :=
  st <~ py_get i "state" PNone ;;
  if is_str st "open" then
    pr <~ py_get i "pull_request" PNone ;;
    Ok (negb (truthy pr))
  else Ok false.

(** [pr.get("state") == "open"] *)
Definition is_open_pr (pr : pyval) : result bool :=
  st <~ py_get pr "state" PNone ;;
  Ok (is_str st "open").

(** [c["author"]["login"]] for the commits with a true [c.get("author")] *)
Definition author_login (c : pyval) : result (option pyval) :=
  a <~ py_get c "author" PNone ;;
  if truthy a then
    a' <~ py_index c "author" ;;
    login <~ py_index a' "login" ;;
    Ok (Some login)
  else Ok None.

(** [_process_activity] *)
Definition _process_activity (E : env) (commits issues pull_requests releases : pyval)
    : M (dict pyval) :=
  (* Analyze commit patterns *)
  first30 <- lift (py_slice commits 30) ;;
  recent_commits <- lift (py_iter first30) ;;
  commit_dates <- lift (mapM (commit_date E) recent_commits) ;;
  (* Calculate commit frequency *)
  commit_frequency <-
    (match commit_dates with
     | [] => ret (PInt 0)
     | _ => now <- datetime_now E ;;
            lift (lib E "commit_frequency" [PList commit_dates; now])
     end) ;;
  (* Analyze issues and PRs *)
  issue_list <- lift (py_iter issues) ;;
  open_issues <- lift (filterM is_open_issue issue_list) ;;
  pr_list <- lift (py_iter pull_requests) ;;
  open_prs <- lift (filterM is_open_pr pr_list) ;;
  (* the dictionary display, entry by entry *)
  per_day <- lift (lib E "round2" [commit_frequency]) ;;
  cadence <-
    (if truthy releases then
       n <- lift (py_len releases) ;;
       ret (PStr (py_str E (PInt n) ++ " releases total"))
     else ret (PStr "No releases")) ;;
  logins <- lift (mapM author_login recent_commits) ;;
  distinct <- lift (lib E "len_set" [PList (somes logins)]) ;;
  latest <- (if truthy releases then lift (py_first releases) else ret PNone) ;;
  ret [("recent_commit_patterns",
          PStr (py_str E (PInt (Z.of_nat (List.length recent_commits))) ++
                " commits in last 30"));
       ("commit_frequency_per_day", per_day);
       ("release_cadence", cadence);
       ("open_issues_count", PInt (Z.of_nat (List.length open_issues)));
       ("open_pull_requests", PInt (Z.of_nat (List.length open_prs)));
       ("pull_request_velocity", PStr "TBD - Requires temporal analysis");
       ("contributor_activity", PStr (py_str E distinct ++ " active contributors"));
       ("breaking_changes", PStr "TBD - Requires changelog analysis");
       ("latest_release", latest)].

(** the body of the loop over [commits[:30]] in [_process_activity_deep]:
    the first line of a message that announces a breaking change *)
Definition breaking_line (commit : pyval) : result (option pyval) :=
  c <~ py_get commit "commit" (PDict []) ;;
  m <~ py_get c "message" (PStr "") ;;
  match m with
  | PStr s =>
      let message := lower s in
      if (contains "breaking" message || contains "major" message ||
          contains "incompatible" message)%bool
      then Ok (Some (PStr (String.substring 0 100 (before_first newline message))))
      else Ok None
  | _ => Raise (AttributeError "object has no attribute 'lower'")
  end.

(** [", ".join(v[:2])] *)
Definition join_first_two (E : env) (v : pyval) : result pyval :=
  two <~ py_slice v 2 ;;
  lib E "join" [PStr ", "; two].

(** [_process_activity_deep] *)
Definition _process_activity_deep (E : env)
    (commits issues prs releases : pyval) (deep_activity : activity)
    : M (dict pyval) :=
  base <- _process_activity E commits issues prs releases ;;
  (* Replace TBD fields with real data *)
  let base := dict_set "pull_request_velocity" (avg_pr_merge_time deep_activity) base in
  let base := dict_set "issue_resolution_time" (issue_resolution_time deep_activity) base in
  let base := dict_set "commit_message_quality" (commit_message_quality deep_activity) base in
  (* Add peak activity times *)
  base <-
    (if truthy (peak_hours deep_activity) then
       v <- lift (join_first_two E (peak_hours deep_activity)) ;;
       ret (dict_set "peak_development_hours" v base)
     else ret base) ;;
  base <-
    (if truthy (peak_days deep_activity) then
       v <- lift (join_first_two E (peak_days deep_activity)) ;;
       ret (dict_set "peak_development_days" v base)
     else ret base) ;;
  (* Add contributor insights *)
  let base :=
    if truthy (contributor_distribution deep_activity)
    then dict_set "top_contributors" (contributor_distribution deep_activity) base
    else base in
  (* Analyze breaking changes from commit messages *)
  first30 <- lift (py_slice commits 30) ;;
  cs <- lift (py_iter first30) ;;
  lines <- lift (mapM breaking_line cs) ;;
  let breaking_changes := somes lines in
  ret (dict_set "breaking_changes"
         (match breaking_changes with
          | [] => PList [PStr "No breaking changes detected in recent commits"]
          | _ => PList (firstn 3 breaking_changes)
          end)
         base).

(** [_calculate_repo_age]: the age in years, a number *)
Definition _calculate_repo_age (E : env) (created_at : pyval) : M pyval :=
  if truthy created_at then
    created_date <- lift (parse_date E created_at) ;;
    now <- datetime_now E ;;
    lift (lib E "age_in_years" [created_date; now])
  else ret (PInt 0).

(** [_process_technical_debt] *)
Definition _process_technical_debt (E : env) (repo_info : pyval) : M (dict pyval) :=
  created_at <- lift (py_get repo_info "created_at" PNone) ;;
  age_years <- _calculate_repo_age E created_at ;;
  old <- lift (py_gt age_years 3) ;;
  size <- lift (py_get repo_info "size" (PInt 0)) ;;
  large <- lift (py_gt size 100000) ;;
  let debt_indicators :=
    ((if old
      then ["Repository is over 3 years old - check for outdated dependencies"]
      else []) ++
     (if large
      then ["Large repository size may indicate accumulated technical debt"]
      else []))%list in
  age_text <- lift (lib E "format_1f" [age_years]) ;;
  ret [("outdated_dependencies", PStr "TBD - Requires dependency version analysis");
       ("security_implications", PStr "TBD - Requires vulnerability scan");
       ("code_complexity_hotspots", PStr "TBD - Requires static analysis");
       ("performance_bottlenecks", PStr "TBD - Requires performance profiling");
       ("scalability_concerns", PStr "TBD - Requires architecture analysis");
       ("maintenance_burden", PStr ("Repository age: " ++ py_str E age_text ++ " years"));
       ("debt_indicators",
          match debt_indicators with
          | [] => strings ["No immediate debt indicators detected"]
          | _ => strings debt_indicators
          end);
       ("refactoring_opportunities", PStr "TBD - Requires code analysis")].

Definition show (E : env) (n : Z) : string := py_str E (PInt n).

(** the first component of a directory path, when not empty *)
Definition top_dir (path : string) : list string :=
  match split_on "/" path with
  | first :: _ => if String.eqb first "" then [] else [first]
  | [] => []
  end.

(** [_process_architecture_deep] *)
Definition _process_architecture_deep (E : env)
    (repo_info package_json requirements_txt : pyval)
    (tree : tree_analysis) (deep_deps : dependencies) : result (dict pyval) :=
  (* Get base architecture *)
  base <~ _process_architecture E repo_info package_json requirements_txt ;;
  (* Replace TBD fields with real data *)
  let base := dict_set "architecture_pattern"
                (PStr (detect_architecture_pattern tree)) base in
  let base := dict_set "data_flow_analysis"
                (PStr ("Repository structure: " ++ show E (total_dirs tree) ++
                       " directories, " ++ show E (total_files tree) ++
                       " files, max depth: " ++ show E (max_depth tree))) base in
  let base := dict_set "scalability_assessment"
                (PStr ("Modular structure with " ++
                       show E (Z.of_nat (List.length (directory_structure tree))) ++
                       " modules")) base in
  let base := dict_set "performance_considerations"
                (PStr ("Dependencies: " ++ show E (total_count deep_deps) ++
                       " total packages across " ++
                       show E (Z.of_nat (List.length (package_managers deep_deps))) ++
                       " package managers")) base in
  (* Replace the TBD directory_structure with actual data *)
  base <~
    (match directory_structure tree with
     | [] =>
         Ok (dict_set "directory_structure"
               (PStr (show E (total_files tree) ++ " files, " ++
                      show E (total_dirs tree) ++ " directories")) base)
     | dir_struct =>
         let top_dirs := flat_map top_dir (dict_keys dir_struct) in
         let dir_summary := show E (total_files tree) ++ " files in " ++
                            show E (total_dirs tree) ++ " directories" in
         summary <~
           (match top_dirs with
            | [] => Ok dir_summary
            | _ =>
                (* ten elements of the set of names, sorted and joined *)
                folders <~ lib E "main_folders" [strings top_dirs] ;;
                Ok (dir_summary ++ " | Main folders: " ++ py_str E folders)
            end) ;;
         Ok (dict_set "directory_structure" (PStr summary) base)
     end) ;;
  (* Replace the deployment_pipeline TBD if we have CI/CD info *)
  let base :=
    match package_managers deep_deps with
    | [] => base
    | managers =>
        dict_set "deployment_pipeline" (PStr ("Detected: " ++ join ", " managers)) base
    end in
  (* Add file type distribution *)
  match file_types tree with
  | [] => Ok base
  | counts =>
      (* the five most common extensions, "ext: n files" joined *)
      top <~ lib E "primary_technologies" [PDict (map (fun kv => (fst kv, PInt (snd kv))) counts)] ;;
      Ok (dict_set "primary_technologies" top base)
  end.

(** [_process_quality_metrics_deep] *)
Definition _process_quality_metrics_deep (E : env) (repo_info workflows : pyval)
    (deep_quality : quality) (tree : tree_analysis) : result (dict pyval) :=
  base <~ _process_quality_metrics E repo_info workflows ;;
  (* Replace TBD fields with real data *)
  let base := dict_set "testing_framework" (PStr (test_coverage deep_quality)) base in
  coverage <~ lib E "format_tenths" [PInt (test_file_ratio deep_quality)] ;;
  let base := dict_set "code_coverage"
                (PStr (py_str E coverage ++ "% test files")) base in
  let base := dict_set "linting_standards"
                (PStr (match linting_config deep_quality with
                       | [] => "No linting config detected"
                       | configs => join ", " configs
                       end)) base in
  doc_coverage <~ lib E "format_tenths" [PInt (documentation_coverage deep_quality)] ;;
  let base := dict_set "documentation_quality"
                (PStr (py_str E doc_coverage ++ "% documentation coverage")) base in
  let base := dict_set "automation_scope"
                (PStr (match ci_cd_tools deep_quality with
                       | [] => "No CI/CD detected"
                       | tools => join ", " tools
                       end)) base in
  let base := dict_set "branch_protection"
                (PStr (if branch_protection deep_quality then "Enabled" else "Not enabled"))
                base in
  let base := dict_set "code_review_process"
                (PStr (code_review_process deep_quality)) base in
  Ok base.

(** [_process_technical_debt_deep] *)
Definition _process_technical_debt_deep (E : env) (repo_info languages : pyval)
    (tree : tree_analysis) (deep_deps : dependencies) (deep_quality : quality)
    (security_analysis : security) : M (dict pyval) :=
  base <- _process_technical_debt E repo_info ;;
  (* Get specific debt indicators *)
  let debt_indicators :=
    identify_tech_debt_indicators E tree deep_deps deep_quality in
  (* Replace TBD fields with real data *)
  let base := dict_set "outdated_dependencies"
                (PStr (match outdated_check deep_deps with
                       | [] => "All dependencies use fixed versioning"
                       | outdated => String.substring 0 200 (join ", " outdated)
                       end)) base in
  let base := dict_set "security_implications"
                (strings (dependency_risks security_analysis)) base in
  let base := dict_set "code_complexity_hotspots"
                (PStr ("Repository complexity: " ++ show E (max_depth tree) ++
                       " levels deep, " ++ show E (total_files tree) ++ " files")) base in
  size <- lift (py_get repo_info "size" (PInt 0)) ;;
  big <- lift (py_gt size 50000) ;;
  bottlenecks <-
    (if big then
       size' <- lift (py_get repo_info "size" (PInt 0)) ;;
       mb <- lift (lib E "format_megabytes" [size']) ;;
       ret ("Large repository size: " ++ py_str E mb ++ "MB")
     else ret "Repository size is manageable") ;;
  let base := dict_set "performance_bottlenecks" (PStr bottlenecks) base in
  let base := dict_set "scalability_concerns"
                (PStr (if total_count deep_deps >? 30
                       then "Total dependencies: " ++ show E (total_count deep_deps)
                       else "Dependency count is reasonable")) base in
  let base := dict_set "debt_indicators" (strings debt_indicators) base in
  let base := dict_set "refactoring_opportunities"
                (strings
                   [if any (fun files => Z.of_nat (List.length files) >? 20)
                           (dict_values (directory_structure tree))
                    then "Consider breaking down directories with many files"
                    else "File organization appears good";
                    if test_file_ratio deep_quality <? 150
                    then "Add more tests to improve coverage"
                    else "Test coverage appears adequate";
                    match linting_config deep_quality with
                    | [] => "Implement linting standards"
                    | _ => "Linting is configured"
                    end]) base in
  (* Add security features *)
  ret (match security_features security_analysis with
       | [] => base
       | features => dict_set "security_features" (strings features) base
       end).

Definition is_none (v : pyval) : bool :=
  match v with PNone => true | _ => false end.

(** The part of [analyze_repository] after a cache miss: gather the data,
    run the analyses, build the report and cache it. *)
Definition build_analysis (E : env) (S : stages) (owner repo : string) : M pyval :=
  (* Basic repo info *)
  repo_info <- get_repository_info E owner repo ;;
  languages <- get_languages E owner repo ;;
  contributors <- get_contributors E owner repo ;;
  commits <- get_commits E owner repo ;;
  releases <- get_releases E owner repo ;;
  issues <- get_issues E owner repo ;;
  pull_requests <- get_pull_requests E owner repo ;;
  readme <- get_readme E owner repo ;;
  package_json <- get_package_json E owner repo ;;
  requirements_txt <- get_requirements_txt E owner repo ;;
  workflows <- get_workflow_runs E owner repo ;;
  (* Try to get enhanced insights (with timeout protection) *)
  enhanced_insights <-
    try_except (requesting (get_quick_insights S owner repo)) (fun _ => ret PNone) ;;
  (* Perform deep analysis for complete data *)
  tree_analysis <- analyze_file_tree E owner repo ;;
  deep_deps <- analyze_dependencies_detailed E owner repo ;;
  deep_quality <- analyze_code_quality_detailed E owner repo tree_analysis ;;
  deep_activity <- lift (analyze_commit_activity E commits issues pull_requests) ;;
  security_analysis <- lift (analyze_security_posture deep_deps deep_quality) ;;
  (* Process data into structured analysis with deep insights *)
  metadata <- lift (_process_metadata E repo_info languages contributors) ;;
  architecture <-
    lift (_process_architecture_deep E repo_info package_json requirements_txt
            tree_analysis deep_deps) ;;
  quality_metrics <-
    lift (_process_quality_metrics_deep E repo_info workflows deep_quality
            tree_analysis) ;;
  documentation <- lift (_process_documentation E readme repo_info) ;;
  activity_section <-
    _process_activity_deep E commits issues pull_requests releases deep_activity ;;
  debt <-
    _process_technical_debt_deep E repo_info languages tree_analysis deep_deps
      deep_quality security_analysis ;;
  now <- datetime_now E ;;
  fetched_at <- lift (lib E "isoformat" [now]) ;;
  let analysis :=
    [("repository_metadata", PDict metadata);
     ("architecture_synopsis", PDict architecture);
     ("code_quality_metrics", PDict quality_metrics);
     ("documentation_extraction", PDict documentation);
     ("development_activity", PDict activity_section);
     ("technical_debt_assessment", PDict debt);
     ("raw_data",
        PDict [("fetched_at", fetched_at);
               ("repo_url", PStr ("https://github.com/" ++ owner ++ "/" ++ repo));
               ("api_calls_made", PInt 8);
               ("enhanced_analysis", PBool (negb (is_none enhanced_insights)))])] in
  (* Merge enhanced insights if available *)
  let analysis :=
    if truthy enhanced_insights
    then dict_set "enhanced_insights" enhanced_insights analysis
    else analysis in
  (* Cache the successful analysis *)
  cache_repository_analysis E owner repo (PDict analysis) ;;;
  ret (PDict analysis).

(** [analyze_repository] *)
Definition analyze_repository (E : env) (S : stages) (repo_url : string) : M pyval :=
  try_except
    ((* Parse repository URL *)
     id <- lift (parse_repo_url E repo_url) ;;
     let '(owner, repo) := id in
     (* Check cache first *)
     cached_analysis <- get_cached_analysis E owner repo ;;
     if truthy cached_analysis then ret cached_analysis
     else build_analysis E S owner repo)
    (fun e => raise (Exception ("Repository analysis failed: " ++ str_exn e))).

End RepoProcessor.

(** ** [backend/export_handler.py]: the CSV export *)

Module ExportHandler.
Import Py Run RepoProcessor.
Local Open Scope run_scope.

Local Notation "x <~ r ;; k" := (Py.bind r (fun x => k))
  (at level 61, r at next level, right associativity).

Definition row : Type := list pyval.

(** the rows written for one section of the report: none when the
    section is missing, else what [write] makes of it *)
Definition section_rows (analysis_data : pyval) (name : string)
    (write : pyval -> result (list row)) : result (list row) :=
  present <~ py_contains name analysis_data ;;
  if present then
    section <~ py_index analysis_data name ;;
    write section
  else Ok [].

(** [["label", section.get(key, default)]] *)
Definition field_row (section : pyval) (label key : string) (default : pyval)
    : result row :=
  v <~ py_get section key default ;;
  Ok [PStr label; v].

Definition not_available : pyval := PStr "N/A".

(** The rows that [export_csv] hands to its [csv.writer], in order. *)
Definition export_csv_rows (E : env) (analysis_data : pyval) : M (list row) :=
  (* Write headers *)
  now <- datetime_now E ;;
  exported_at <- lift (lib E "isoformat" [now]) ;;
  let header : list row :=
    [[PStr "GitHub Repository Analysis Report"];
     [PStr "Exported at"; exported_at];
     []] in
  (* Flatten and write repository metadata *)
  metadata <- lift (section_rows analysis_data "repository_metadata" (fun meta =>
    name <~ field_row meta "Name" "name" not_available ;;
    owner <~ field_row meta "Owner" "owner" not_available ;;
    description <~ field_row meta "Description" "description" not_available ;;
    stars <~ field_row meta "Stars" "stars" (PInt 0) ;;
    forks <~ field_row meta "Forks" "forks" (PInt 0) ;;
    language <~ field_row meta "Primary Language" "primary_language" not_available ;;
    license <~ field_row meta "License" "license" not_available ;;
    Ok [[PStr "Repository Metadata"]; [PStr "Field"; PStr "Value"];
        name; owner; description; stars; forks; language; license; []])) ;;
  (* Architecture Synopsis *)
  architecture <- lift (section_rows analysis_data "architecture_synopsis" (fun arch =>
    core <~ field_row arch "Core Language" "core_language" not_available ;;
    framework <~ field_row arch "Framework" "framework_identification" not_available ;;
    build <~ field_row arch "Build System" "build_system" not_available ;;
    Ok [[PStr "Architecture Synopsis"]; [PStr "Field"; PStr "Value"];
        core; framework; build; []])) ;;
  (* Code Quality Metrics *)
  quality <- lift (section_rows analysis_data "code_quality_metrics" (fun quality =>
    testing <~ field_row quality "Testing Framework" "testing_framework" not_available ;;
    pipeline <~ field_row quality "CI/CD Pipeline" "ci_cd_pipeline" not_available ;;
    docs <~ field_row quality "Documentation Quality" "documentation_quality"
              not_available ;;
    Ok [[PStr "Code Quality Metrics"]; [PStr "Metric"; PStr "Value"];
        testing; pipeline; docs; []])) ;;
  (* Development Activity *)
  activity <- lift (section_rows analysis_data "development_activity" (fun activity =>
    commits <~ field_row activity "Recent Commits" "recent_commit_patterns"
                 not_available ;;
    frequency <~ field_row activity "Commit Frequency" "commit_frequency_per_day"
                   (PInt 0) ;;
    issues <~ field_row activity "Open Issues" "open_issues_count" (PInt 0) ;;
    prs <~ field_row activity "Open PRs" "open_pull_requests" (PInt 0) ;;
    Ok [[PStr "Development Activity"]; [PStr "Metric"; PStr "Value"];
        commits; frequency; issues; prs; []])) ;;
  (* Technical Debt *)
  debt <- lift (section_rows analysis_data "technical_debt_assessment" (fun debt =>
    burden <~ field_row debt "Maintenance Burden" "maintenance_burden" not_available ;;
    listed <~ py_contains "debt_indicators" debt ;;
    indicators <~ (if listed then
                     v <~ py_index debt "debt_indicators" ;;
                     py_iter v
                   else Ok []) ;;
    Ok ([[PStr "Technical Debt Assessment"]; burden] ++
        map (fun indicator => [PStr "Debt Indicator"; indicator]) indicators)%list)) ;;
  ret (header ++ metadata ++ architecture ++ quality ++ activity ++ debt)%list.

(** [export_csv]: the rows in CSV syntax, as one string. *)
Definition export_csv (E : env) (analysis_data : pyval) : M pyval :=
  rows <- export_csv_rows E analysis_data ;;
  lift (lib E "csv.writer" [PList (map PList rows)]).

End ExportHandler.

(** ** [backend/app.py]: the analysis endpoint *)

Module App.
Import Py Run RepoProcessor.
Local Open Scope run_scope.

(** What an endpoint hands to the web framework: the body of its
    response, or the [HTTPException] it raises. *)
Inductive http : Type :=
| Body (body : dict pyval)
| HTTPException (status_code : Z) (detail : string).

(** [type(e).__name__] *)
Definition type_name (e : exn) : string :=
  match e with
  | KeyError _ => "KeyError"
  | TypeError _ => "TypeError"
  | ValueError _ => "ValueError"
  | AttributeError _ => "AttributeError"
  | IndexError _ => "IndexError"
  | Exception _ => "Exception"
  end.

(** [POST /api/analyze], behind its rate limiter: the handler's [try]
    block, and what its [except Exception] clause makes of a failure. *)
Definition analyze_repository (E : env) (S : stages) (repo_url : string)
    : world -> http * world :=
  fun w =>
    let attempt : M (dict pyval) :=
      (* Analyze repository *)
      analysis <- RepoProcessor.analyze_repository E S repo_url ;;
      now <- datetime_now E ;;
      timestamp <- lift (lib E "isoformat" [now]) ;;
      ret [("success", PBool true);
           ("repo_url", PStr repo_url);
           ("analysis", analysis);
           ("timestamp", timestamp)] in
    match attempt w with
    | (Ok body, w') => (Body body, w')
    | (Raise e, w') =>
        let error_msg :=
          if negb (String.eqb (str_exn e) "") then str_exn e
          else "Analysis failed for unknown reason: " ++ type_name e in
        (HTTPException 400 error_msg, w')
    end.

End App.

(** ** Vocabulary of the statements about the cache *)

Module CacheSpec.
Import Py RepositoryCache.

(** The cache without key [k] in both of its dictionaries. *)
Definition without (k : string) (c : t) : t :=
  with_access_times (with_cache c (dict_remove k (_cache c)))
                    (dict_remove k (_access_times c)).

(** The cache after the two stores of [set]. *)
Definition stored (k : string) (e : entry) (t3 : Z) (c : t) : t :=
  with_access_times (with_cache c (dict_set k e (_cache c)))
                    (dict_set k t3 (_access_times c)).

(** One call [set(key, value, ttl)] with its three clock readings. *)
Record insertion : Type := Insertion {
  ins_key : string;
  ins_value : pyval;
  ins_ttl : option Z;
  ins_t1 : Z;
  ins_t2 : Z;
  ins_t3 : Z
}.

Definition do_set (i : insertion) (c : t) : result unit * t :=
  set (ins_t1 i) (ins_t2 i) (ins_t3 i) (ins_key i) (ins_value i) (ins_ttl i) c.

(** The calls of a list, one after the other, stopping at the first that
    raises. *)
Fixpoint run_sets (ops : list insertion) (c : t) : result unit * t :=
  match ops with
  | [] => (Ok tt, c)
  | i :: ops' =>
      match do_set i c with
      | (Ok _, c') => run_sets ops' c'
      | (Raise x, c') => (Raise x, c')
      end
  end.

(** The entry that [set] builds for an insertion into cache [c]. *)
Definition entry_of (i : insertion) (c : t) : entry :=
  {| value := ins_value i;
     expires_at := ins_t1 i + ttl_or_default (ins_ttl i) c;
     created_at := ins_t2 i |}.

End CacheSpec.

(** ** Vocabulary of the statements about the detector *)

Module ArchSpec.
Import Py PyStr DeepAnalyzer.

Definition dirs (tree : tree_analysis) : list string :=
  dict_keys (directory_structure tree).

(** some directory path contains the keyword, ignoring case *)
Definition has_dir (kw : string) (tree : tree_analysis) : bool :=
  existsb (fun d => contains kw (lower d)) (dirs tree).

Definition count_dir (kw : string) (tree : tree_analysis) : Z :=
  Z.of_nat (List.length (filter (fun d => contains kw (lower d)) (dirs tree))).

Definition has_openapi_config (tree : tree_analysis) : bool :=
  existsb (fun f => (contains "swagger" (lower f) || contains "openapi" (lower f))%bool)
          (config_files tree).

Definition rule_mvc tree : bool :=
  (has_dir "controller" tree && has_dir "model" tree && has_dir "view" tree)%bool.
Definition rule_microservices tree : bool :=
  (has_dir "services" tree || (count_dir "service" tree >? 2))%bool.
Definition rule_ddd tree : bool :=
  (has_dir "domain" tree && has_dir "infrastructure" tree)%bool.
Definition rule_component tree : bool :=
  (has_dir "components" tree ||
   existsb (fun d => contains "src/components" d) (dirs tree))%bool.
Definition rule_api_first tree : bool :=
  (has_dir "api" tree && has_openapi_config tree)%bool.
Definition rule_monolithic tree : bool :=
  ((max_depth tree <? 3) && (total_dirs tree <? 10))%bool.
Definition rule_modular tree : bool :=
  (has_dir "modules" tree || has_dir "packages" tree)%bool.

(** The rules in their priority order, each with its label. *)
Definition rules : list ((tree_analysis -> bool) * string) :=
  [ (rule_mvc, "MVC (Model-View-Controller)");
    (rule_microservices, "Microservices Architecture");
    (rule_ddd, "Domain-Driven Design (DDD)");
    (rule_component, "Component-Based Architecture");
    (rule_api_first, "API-First Architecture");
    (rule_monolithic, "Monolithic Architecture");
    (rule_modular, "Modular Architecture") ].

(** The label of the first rule that holds, [fallback] when none does. *)
Fixpoint first_match (rs : list ((tree_analysis -> bool) * string))
    (fallback : string) (tree : tree_analysis) : string :=
  match rs with
  | [] => fallback
  | (holds, label) :: rs' =>
      if holds tree then label else first_match rs' fallback tree
  end.

End ArchSpec.

(** ** Vocabulary of the statements about the health score *)

Module HealthSpec.
Import Py EnhancedAnalyzer.

Definition open_count (issues : list issue) : Z :=
  len (filter (fun i => String.eqb (state i) "open") issues).

Definition merged_count (prs : list pull_request) : Z :=
  len (filter (fun pr => truthy (merged_at pr)) prs).

Definition recent_count (now : Z) (issues : list issue) : Z :=
  len (filter (fun i => now - days_30 <? updated_at i) issues).

(** ratio below 30 %: [part / total < 3 / 10], cross-multiplied; false for
    an empty list *)
Definition below_30 (part total : Z) : bool := 10 * part <? 3 * total.
Definition above_70 (part total : Z) : bool := 7 * total <? 10 * part.

Definition issue_term (issues : list issue) : Z :=
  if below_30 (open_count issues) (len issues) then 20
  else if above_70 (open_count issues) (len issues) then -20 else 0.

Definition pr_term (prs : list pull_request) : Z :=
  if above_70 (merged_count prs) (len prs) then 15
  else if below_30 (merged_count prs) (len prs) then -15 else 0.

Definition activity_term (now : Z) (issues : list issue) : Z :=
  if recent_count now issues >? 5 then 15 else 0.

Definition clamp (lo hi x : Z) : Z := Z.max lo (Z.min hi x).

End HealthSpec.

(** ** Vocabulary of the statements about the quality extractor *)

Module QualitySpec.
Import Py Run.

(** [round_pct] returns a nearest tenth of the percentage [100 * a / b]:
    [k] tenths with [|k / 10 - 100 * a / b| <= 1 / 20]. Python's
    [round(a / b * 100, 1)] meets this for every [b] below 10^11; which of
    the two neighbours it returns when the percentage lies exactly half way
    depends on the binary representation of the quotient, and is left
    open. *)
Definition nearest_tenth (E : env) : Prop :=
  forall a b, 0 <= a -> 0 < b ->
    2 * Z.abs (round_pct E a b * b - 1000 * a) <= b.

(** One rounding that qualifies: half-way cases go to the even tenth. *)
Definition round_half_even_pct (a b : Z) : Z :=
  let q := (1000 * a) / b in
  let r := (1000 * a) mod b in
  if 2 * r <? b then q
  else if b <? 2 * r then q + 1
  else if Z.even q then q else q + 1.

End QualitySpec.

(** ** Vocabulary of the statements about the assembler *)

Module ReportSpec.
Import Py Run DeepAnalyzer RepoProcessor.

(** What the [try]/[except] of [analyze_repository] makes of an outcome. *)
Definition reraised {A : Type} (p : result A * world) : result A * world :=
  match p with
  | (Ok a, w) => (Ok a, w)
  | (Raise e, w) => (Raise (Exception ("Repository analysis failed: " ++ str_exn e)), w)
  end.

Definition raises {A : Type} (p : result A * world) : Prop :=
  exists e, fst p = Raise e.

(** The keys that every activity section has, in order. *)
Definition activity_base_keys : list string :=
  ["recent_commit_patterns"; "commit_frequency_per_day"; "release_cadence";
   "open_issues_count"; "open_pull_requests"; "pull_request_velocity";
   "contributor_activity"; "breaking_changes"; "latest_release";
   "issue_resolution_time"; "commit_message_quality"].

(** The keys that depend on the deep activity data. *)
Definition activity_optional_keys (a : activity) : list string :=
  ((if truthy (peak_hours a) then ["peak_development_hours"] else []) ++
   (if truthy (peak_days a) then ["peak_development_days"] else []) ++
   (if truthy (contributor_distribution a) then ["top_contributors"] else []))%list.

(** The keys of the other sections, in order. *)
Definition metadata_keys : list string :=
  ["language_composition"; "primary_stack"; "repository_size_kb";
   "commit_frequency"; "contributor_count"; "license_type"; "dependency_count";
   "latest_release"; "created_date"; "last_updated"; "stars"; "forks"; "watchers"].

Definition architecture_base_keys : list string :=
  ["entry_points"; "directory_structure"; "core_dependencies"; "dev_dependencies";
   "build_system"; "deployment_pipeline"; "architecture_pattern";
   "data_flow_analysis"; "scalability_assessment"; "performance_considerations"].

Definition architecture_optional_keys (tree : tree_analysis) : list string :=
  match file_types tree with
  | [] => []
  | _ => ["primary_technologies"]
  end.

Definition quality_keys : list string :=
  ["test_coverage_percentage"; "testing_framework"; "linting_standards";
   "ci_cd_pipeline_status"; "automation_scope"; "security_vulnerabilities";
   "recent_workflow_results"; "code_coverage"; "documentation_quality";
   "branch_protection"; "code_review_process"].

Definition documentation_keys : list string :=
  ["readme_summary"; "api_documentation"; "installation_requirements";
   "configuration_variables"; "known_limitations"; "compatibility_constraints"].

Definition debt_base_keys : list string :=
  ["outdated_dependencies"; "security_implications"; "code_complexity_hotspots";
   "performance_bottlenecks"; "scalability_concerns"; "maintenance_burden";
   "debt_indicators"; "refactoring_opportunities"].

(** The keys that every freshly built report has, in order. *)
Definition report_base_keys : list string :=
  ["repository_metadata"; "architecture_synopsis"; "code_quality_metrics";
   "documentation_extraction"; "development_activity";
   "technical_debt_assessment"; "raw_data"].

(** section [name] of the report [analysis] is a dictionary with exactly
    the keys [keys], in this order *)
Definition section_keys (analysis : dict pyval) (name : string)
    (keys : list string) : Prop :=
  exists section, dict_get name analysis = Some (PDict section) /\
                  dict_keys section = keys.

(** The shape of a freshly built report for [owner]/[repo]: its top-level
    keys and the keys of its six sections, where [tree] is what
    [analyze_file_tree] returned in the run and [a] what
    [analyze_commit_activity] returned for its commits, issues and pull
    requests. *)
Definition fresh_report (E : env) (owner repo : string) (r : pyval) : Prop :=
  exists (analysis : dict pyval) (tree : tree_analysis) (a : activity)
         (enhanced commits issues prs : pyval) (wt wt' : world),
    r = PDict analysis /\
    analyze_file_tree E owner repo wt = (Ok tree, wt') /\
    analyze_commit_activity E commits issues prs = Ok a /\
    dict_keys analysis =
      (report_base_keys ++
       (if truthy enhanced then ["enhanced_insights"] else []))%list /\
    section_keys analysis "repository_metadata" metadata_keys /\
    section_keys analysis "architecture_synopsis"
      (architecture_base_keys ++ architecture_optional_keys tree)%list /\
    section_keys analysis "code_quality_metrics" quality_keys /\
    section_keys analysis "documentation_extraction" documentation_keys /\
    section_keys analysis "development_activity"
      (activity_base_keys ++ activity_optional_keys a)%list /\
    section_keys analysis "technical_debt_assessment"
      (debt_base_keys ++ ["security_features"])%list.

End ReportSpec.

(** ** Environments for the examples *)

Module Examples.
Import Py PyStr Run DeepAnalyzer RepoProcessor.

(** The path of a URL of the form [scheme://host/path?query#fragment]. *)
Definition simple_url_path (url : string) : result string :=
  Ok (before_first "#" (before_first "?" (from_first "/" (after_first "://" url)))).

(** The degraded marker of the provider client. *)
Definition degraded_marker : pyval :=
  PDict [("error", PStr "timeout"); ("partial", PBool true)].

(** Library routines for the examples: date parsing keeps the text, the
    aggregations return one sample line, the formatters an empty text. *)
Definition sample_lib (name : string) (args : list pyval) : result pyval :=
  if String.eqb name "datetime.fromisoformat" then Ok (hd PNone args)
  else if String.eqb name "peak_hours" then Ok (PList [PStr "12:00-13:00 UTC (1 commits)"])
  else if String.eqb name "peak_days" then Ok (PList [PStr "Monday (1 commits)"])
  else if String.eqb name "contributor_distribution"
       then Ok (PDict [("dev", PStr "1 commits (100.0%)")])
  else Ok (PStr "").

Definition env_with (provider : nat -> string -> pyval) : env :=
  {| respond := fun n endpoint => Ok (provider n endpoint);
     clock := fun n => 1000 + Z.of_nat n;
     round_pct := QualitySpec.round_half_even_pct;
     str_of := fun v => match v with
                        | PInt n => NilZero.string_of_int (Z.to_int n)
                        | _ => ""
                        end;
     urlparse_path := simple_url_path;
     lib := sample_lib |}.

(** Every request times out. *)
Definition degraded_env : env := env_with (fun _ _ => degraded_marker).

Definition is_list_endpoint (endpoint : string) : bool :=
  existsb (fun suffix => endswith suffix endpoint)
          ["/contributors"; "/commits"; "/releases"; "/issues"; "/pulls"].

(** A repository without commits, issues, pull requests or releases: the
    list endpoints answer [[]], the others [{}]. *)
Definition quiet_env : env :=
  env_with (fun _ endpoint => if is_list_endpoint endpoint then PList [] else PDict []).

Definition sample_commit : pyval :=
  PDict [("commit",
            PDict [("author", PDict [("name", PStr "dev");
                                     ("date", PStr "2024-01-01T12:00:00Z")]);
                   ("message", PStr "feat: first commit")]);
         ("author", PDict [("login", PStr "dev")])].

(** The same repository with one commit. *)
Definition one_commit_env : env :=
  env_with (fun _ endpoint =>
              if endswith "/commits" endpoint then PList [sample_commit]
              else if is_list_endpoint endpoint then PList [] else PDict []).

(** A quick-insights stage for the examples. *)
Definition sample_stages : stages :=
  {| get_quick_insights :=
       fun _ _ _ => (Ok (PDict [("analysis_type", PStr "quick")]), 3%nat) |}.

Definition empty_world : world :=
  {| cache := RepositoryCache.init 100 900; api_calls := 0; clock_reads := 0 |}.

(** [d[k]] for a report and its sections, [None] when absent *)
Definition field (k : string) (v : pyval) : option pyval :=
  match v with PDict kv => dict_get k kv | _ => None end.


End Examples.

(** ** Vocabulary of the statements about the deep analyzer *)

Module DeepSpec.
Import Py PyStr DeepAnalyzer.

(** The bounds that the counts of a tree analysis meet. *)
Definition tree_wf (t : tree_analysis) : Prop :=
  0 <= total_files t /\ 0 <= total_dirs t /\ 0 <= max_depth t /\
  Z.of_nat (List.length (test_files t)) <= total_files t /\
  Z.of_nat (List.length (doc_files t)) <= total_files t /\
  Z.of_nat (List.length (config_files t)) <= total_files t /\
  Forall (fun f => In (last_part "/" f) config_basenames) (config_files t).

(** The package managers in the order in which the analysis looks for
    them. *)
Definition all_managers : list string :=
  ["npm/yarn"; "pip"; "bundler"; "cargo"; "go modules"; "maven"; "gradle"].

(** [xs] is [ys] with some elements left out, the order kept. *)
Fixpoint subsequence (xs ys : list string) : bool :=
  match xs, ys with
  | [], _ => true
  | _ :: _, [] => false
  | x :: xs', y :: ys' =>
      if String.eqb x y then subsequence xs' ys' else subsequence xs ys'
  end.


End DeepSpec.

Module ProviderSpec.
Import Py.

(** What the provider client returns in place of the data when a request
    times out, is rate limited for too long or fails. *)
Definition degraded_answer (reason : string) : pyval :=
  PDict [("error", PStr reason); ("partial", PBool true)].

(** The requests whose answer the assembler uses as it comes. *)
Definition unguarded_endpoints : list string :=
  ["/languages"; "/commits"; "/releases"; "/issues"; "/pulls"].

End ProviderSpec.

Module MoreExamples.
Import Py PyStr Run Examples.

Definition blob (path : string) : pyval :=
  PDict [("path", PStr path); ("type", PStr "blob")].

(** A repository with a workflow, a linter configuration and a manifest,
    each where its tool expects it. *)
Definition ci_tree : pyval :=
  PDict [("tree", PList [blob ".github/workflows/ci.yml"; blob ".eslintrc.json";
                         blob "package.json"; blob "src/index.js"])].

Definition ci_env : env :=
  env_with (fun _ endpoint =>
              if contains "/git/trees/" endpoint then ci_tree
              else if is_list_endpoint endpoint then PList [] else PDict []).

(** The quiet repository, with every request for the issues timing out. *)
Definition issues_timeout_env : env :=
  env_with (fun _ endpoint =>
              if endswith "/issues" endpoint then ProviderSpec.degraded_answer "timeout"
              else if is_list_endpoint endpoint then PList [] else PDict []).

End MoreExamples.

(** * Properties *)

(** ** Dictionaries *)

Section DictFacts.
Import Py.
Context {V : Type}.
Implicit Types (d : dict V) (k : string) (v : V).

Lemma dict_in_keys k d : dict_in k d = true <-> In k (dict_keys d).
Proof.
  unfold dict_in. induction d as [|[k' v'] d IH]; simpl.
  - split; [discriminate | tauto].
  - destruct (String.eqb_spec k k') as [->|Hne].
    + split; auto.
    + rewrite IH. split; [auto | intros [H|H]; [congruence | exact H]].
Qed.

Lemma dict_in_false_keys k d : dict_in k d = false <-> ~ In k (dict_keys d).
Proof.
  rewrite <- dict_in_keys. destruct (dict_in k d); split; intuition congruence.
Qed.

Lemma dict_get_in k d v : dict_get k d = Some v -> dict_in k d = true.
Proof. unfold dict_in. now intros ->. Qed.

Lemma dict_get_set_eq k v d : dict_get k (dict_set k v d) = Some v.
Proof.
  induction d as [|[k' v'] d IH]; simpl.
  - now rewrite String.eqb_refl.
  - destruct (String.eqb_spec k k') as [->|Hne]; simpl.
    + now rewrite String.eqb_refl.
    + destruct (String.eqb_spec k k'); [contradiction | exact IH].
Qed.

Lemma dict_get_set_ne k k' v d :
  k <> k' -> dict_get k' (dict_set k v d) = dict_get k' d.
Proof.
  intros Hne. induction d as [|[k0 v0] d IH]; simpl.
  - destruct (String.eqb_spec k' k); [congruence | reflexivity].
  - destruct (String.eqb_spec k k0) as [->|Hk]; simpl.
    + destruct (String.eqb_spec k' k0); [congruence | reflexivity].
    + now rewrite IH.
Qed.

Lemma dict_in_set k k' v d :
  dict_in k' (dict_set k v d) = (String.eqb k k' || dict_in k' d)%bool.
Proof.
  unfold dict_in. destruct (String.eqb_spec k k') as [->|Hne].
  - now rewrite dict_get_set_eq.
  - now rewrite dict_get_set_ne.
Qed.

Lemma dict_keys_set_in k v d :
  dict_in k d = true -> dict_keys (dict_set k v d) = dict_keys d.
Proof.
  unfold dict_in. induction d as [|[k' v'] d IH]; simpl; [discriminate|].
  destruct (String.eqb_spec k k') as [->|Hne]; simpl; [reflexivity|].
  intros H. now rewrite IH.
Qed.

Lemma dict_keys_set_new k v d :
  dict_in k d = false -> dict_keys (dict_set k v d) = (dict_keys d ++ [k])%list.
Proof.
  unfold dict_in. induction d as [|[k' v'] d IH]; simpl; [reflexivity|].
  destruct (String.eqb_spec k k') as [->|Hne]; simpl; [discriminate|].
  intros H. now rewrite IH.
Qed.

Lemma dict_set_NoDup k v d :
  NoDup (dict_keys d) -> NoDup (dict_keys (dict_set k v d)).
Proof.
  intros Hnd. destruct (dict_in k d) eqn:Hin.
  - now rewrite dict_keys_set_in.
  - rewrite dict_keys_set_new by assumption.
    apply NoDup_app; [exact Hnd | repeat constructor; simpl; tauto |].
    intros x Hx [<-|[]]. apply dict_in_false_keys in Hin. contradiction.
Qed.

Lemma dict_len_set k v d :
  dict_len (dict_set k v d) = if dict_in k d then dict_len d else dict_len d + 1.
Proof.
  unfold dict_len. destruct (dict_in k d) eqn:Hin.
  - pose proof (dict_keys_set_in k v d Hin) as Hk.
    apply (f_equal (@List.length string)) in Hk.
    unfold dict_keys in Hk. rewrite !length_map in Hk. now rewrite Hk.
  - pose proof (dict_keys_set_new k v d Hin) as Hk.
    apply (f_equal (@List.length string)) in Hk.
    unfold dict_keys in Hk. rewrite length_app, !length_map in Hk.
    simpl in Hk. lia.
Qed.

Lemma dict_keys_remove_sub k k' d :
  In k' (dict_keys (dict_remove k d)) -> In k' (dict_keys d).
Proof.
  induction d as [|[k0 v0] d IH]; simpl; [tauto|].
  destruct (String.eqb_spec k k0); simpl; tauto.
Qed.

Lemma dict_remove_NoDup k d :
  NoDup (dict_keys d) -> NoDup (dict_keys (dict_remove k d)).
Proof.
  induction d as [|[k0 v0] d IH]; simpl; [constructor|].
  intros Hnd. inversion Hnd as [|? ? Hni Hnd']; subst.
  destruct (String.eqb_spec k k0); [assumption|]. simpl.
  constructor; [|auto]. intros H. apply Hni. eapply dict_keys_remove_sub; eauto.
Qed.

Lemma dict_get_remove_ne k k' d :
  k <> k' -> dict_get k' (dict_remove k d) = dict_get k' d.
Proof.
  intros Hne. induction d as [|[k0 v0] d IH]; simpl; [reflexivity|].
  destruct (String.eqb_spec k k0) as [->|Hk]; simpl.
  - destruct (String.eqb_spec k' k0); [congruence | reflexivity].
  - now rewrite IH.
Qed.

Lemma dict_get_remove_eq k d :
  NoDup (dict_keys d) -> dict_get k (dict_remove k d) = None.
Proof.
  induction d as [|[k0 v0] d IH]; simpl; [reflexivity|].
  intros Hnd. inversion Hnd as [|? ? Hni Hnd']; subst.
  destruct (String.eqb_spec k k0) as [->|Hk]; simpl.
  - apply dict_in_false_keys in Hni. unfold dict_in in Hni.
    now destruct (dict_get k0 d).
  - destruct (String.eqb_spec k k0); [contradiction | auto].
Qed.

Lemma dict_in_remove k k' d :
  NoDup (dict_keys d) ->
  dict_in k' (dict_remove k d) = (negb (String.eqb k k') && dict_in k' d)%bool.
Proof.
  intros Hnd. unfold dict_in. destruct (String.eqb_spec k k') as [->|Hne]; simpl.
  - now rewrite dict_get_remove_eq.
  - now rewrite dict_get_remove_ne.
Qed.

Lemma dict_len_remove k d :
  dict_in k d = true -> dict_len (dict_remove k d) = dict_len d - 1.
Proof.
  unfold dict_in, dict_len. induction d as [|[k0 v0] d IH];
    cbn [dict_get dict_remove List.length]; [discriminate|].
  destruct (String.eqb_spec k k0) as [->|Hk].
  - intros _. lia.
  - intros H. specialize (IH H). cbn [List.length]. lia.
Qed.

End DictFacts.

(** [min(d, key=d.get)] returns a key of [d] whose value no other value
    undercuts. *)
Lemma min_from_spec (d : Py.dict Z) (best : string) (bv : Z) :
  exists kv, In (Py.min_from best bv d, kv) ((best, bv) :: d) /\
    forall k' v', In (k', v') ((best, bv) :: d) -> kv <= v'.
Proof.
  revert best bv. induction d as [|[k0 v0] d IH]; intros best bv; simpl.
  - exists bv. split; [auto|]. intros k' v' [[= _ <-]|[]]. lia.
  - destruct (Z.ltb_spec v0 bv) as [Hlt|Hge].
    + destruct (IH k0 v0) as (kv & Hin & Hall). exists kv. split; [now right|].
      intros k' v' [[= _ <-]|Hin']; [|now apply Hall with k'].
      specialize (Hall k0 v0 (or_introl eq_refl)). lia.
    + destruct (IH best bv) as (kv & Hin & Hall). exists kv. split.
      * destruct Hin as [Hin|Hin]; [now left | now right; right].
      * intros k' v' [Heq|[[= _ <-]|Hin']].
        -- apply Hall with k'. now left.
        -- specialize (Hall best bv (or_introl eq_refl)). lia.
        -- apply Hall with k'. now right.
Qed.

Lemma dict_get_In (V : Type) (d : Py.dict V) k v :
  Py.dict_get k d = Some v -> In (k, v) d.
Proof.
  induction d as [|[k0 v0] d IH]; simpl; [discriminate|].
  destruct (String.eqb_spec k k0) as [->|Hne]; [intros [= ->]; auto | auto].
Qed.

Lemma In_dict_get (V : Type) (d : Py.dict V) k v :
  NoDup (Py.dict_keys d) -> In (k, v) d -> Py.dict_get k d = Some v.
Proof.
  induction d as [|[k0 v0] d IH]; simpl; [tauto|].
  intros Hnd. inversion Hnd as [|? ? Hni Hnd']; subst.
  intros [[= -> ->]|Hin].
  - now rewrite String.eqb_refl.
  - destruct (String.eqb_spec k k0) as [->|Hne]; [|auto].
    exfalso. apply Hni. change k0 with (fst (k0, v)). now apply in_map.
Qed.

Lemma min_key_spec (d : Py.dict Z) :
  NoDup (Py.dict_keys d) ->
  match Py.min_key d with
  | None => d = []
  | Some k => exists kv, Py.dict_get k d = Some kv /\
                forall k' v', Py.dict_get k' d = Some v' -> kv <= v'
  end.
Proof.
  destruct d as [|[k0 v0] d]; simpl; [reflexivity|]. intros Hnd.
  destruct (min_from_spec d k0 v0) as (kv & Hin & Hall).
  exists kv. split.
  - now apply (In_dict_get Z ((k0, v0) :: d)).
  - intros k' v' H. apply Hall with k'.
    apply (dict_get_In Z ((k0, v0) :: d)). exact H.
Qed.

(** ** The cache engine *)

Section CacheFacts.
Import Py RepositoryCache CacheSpec.
Implicit Types (c : t) (k key : string).

Lemma wf_without k c : wf c -> wf (without k c).
Proof.
  intros (Hc & Ha & Hs). repeat split; simpl.
  - now apply dict_remove_NoDup.
  - now apply dict_remove_NoDup.
  - intros k'. simpl. rewrite !dict_in_remove by assumption. now rewrite Hs.
Qed.

Lemma wf_stored k e t3 c : wf c -> wf (stored k e t3 c).
Proof.
  intros (Hc & Ha & Hs). repeat split; simpl.
  - now apply dict_set_NoDup.
  - now apply dict_set_NoDup.
  - intros k'. simpl. rewrite !dict_in_set. now rewrite Hs.
Qed.

Lemma wf_empty_access c :
  wf c -> _access_times c = [] -> _cache c = [].
Proof.
  intros (_ & _ & Hs) Ha. destruct (_cache c) as [|[k e] d] eqn:Hd; [reflexivity|].
  specialize (Hs k). rewrite Ha, Hd in Hs. unfold dict_in in Hs. simpl in Hs.
  now rewrite String.eqb_refl in Hs.
Qed.

Lemma wf_same_len c : wf c -> dict_len (_access_times c) = dict_len (_cache c).
Proof.
  destruct c as [d a ms dt h m]. unfold wf, same_keys. simpl.
  revert a. induction d as [|[k e] d IH]; intros a (Hc & Ha & Hs).
  - destruct a as [|[k v] a]; [reflexivity|]. specialize (Hs k).
    unfold dict_in in Hs. simpl in Hs. now rewrite String.eqb_refl in Hs.
  - inversion Hc as [|? ? Hni Hc']; subst.
    assert (Hin : dict_in k a = true).
    { rewrite <- Hs. unfold dict_in. simpl. now rewrite String.eqb_refl. }
    rewrite <- (Z.sub_add 1 (dict_len a)), <- (dict_len_remove k a Hin).
    rewrite (IH (dict_remove k a)).
    + unfold dict_len. cbn [List.length]. lia.
    + split; [exact Hc'|]. split; [now apply dict_remove_NoDup|].
      intros k'. rewrite dict_in_remove by assumption.
      specialize (Hs k'). unfold dict_in in Hs |- *. simpl in Hs.
      destruct (String.eqb_spec k k') as [<-|Hne]; simpl.
      * apply dict_in_false_keys in Hni. exact Hni.
      * destruct (String.eqb_spec k' k); [congruence | exact Hs].
Qed.

(** [_evict_oldest] never raises on a well-formed cache: it removes the
    key that [min] selects, or does nothing when there is none. *)
Lemma evict_oldest_spec c :
  wf c ->
  match min_key (_access_times c) with
  | None => _evict_oldest c = (Ok tt, c) /\ _cache c = []
  | Some victim =>
      _evict_oldest c = (Ok tt, without victim c) /\
      dict_in victim (_cache c) = true /\
      exists a, dict_get victim (_access_times c) = Some a /\
        forall k' a', dict_get k' (_access_times c) = Some a' -> a <= a'
  end.
Proof.
  intros Hwf. pose proof Hwf as (Hc & Ha & Hs).
  pose proof (min_key_spec _ Ha) as Hmin. unfold _evict_oldest.
  destruct (min_key (_access_times c)) as [victim|] eqn:Hm.
  - destruct Hmin as (a & Hget & Hall).
    assert (Hin : dict_in victim (_cache c) = true).
    { rewrite Hs. now apply dict_get_in with a. }
    split; [|split; [exact Hin | exists a; now split]].
    unfold dict_del. rewrite Hin. simpl.
    now rewrite (dict_get_in _ _ _ Hget).
  - split; [reflexivity|]. now apply wf_empty_access.
Qed.

(** What [set] does, in terms of [without] and [stored]. *)
Lemma set_spec t1 t2 t3 key v ttl c :
  wf c ->
  let e := {| value := v; expires_at := t1 + ttl_or_default ttl c;
              created_at := t2 |} in
  set t1 t2 t3 key v ttl c =
    (Ok tt,
     if dict_len (_cache c) >=? max_size c then
       match min_key (_access_times c) with
       | Some victim => stored key e t3 (without victim c)
       | None => stored key e t3 c
       end
     else stored key e t3 c).
Proof.
  intros Hwf e. unfold set.
  destruct (dict_len (_cache c) >=? max_size c); [|reflexivity].
  pose proof (evict_oldest_spec c Hwf) as He.
  destruct (min_key (_access_times c)) as [victim|].
  - destruct He as (-> & _). reflexivity.
  - destruct He as (-> & _). reflexivity.
Qed.

Lemma wf_set t1 t2 t3 key v ttl c :
  wf c -> wf (snd (set t1 t2 t3 key v ttl c)).
Proof.
  intros Hwf. rewrite set_spec by assumption. simpl.
  destruct (dict_len (_cache c) >=? max_size c);
    [destruct (min_key (_access_times c))|];
    auto using wf_stored, wf_without.
Qed.

(** What [get] does on a well-formed cache. *)
Lemma get_spec now now' key c :
  wf c ->
  get now now' key c =
    match dict_get key (_cache c) with
    | Some e =>
        if now <? expires_at e then
          (Ok (value e),
           with_access_times (with_hits c (hits c + 1))
             (dict_set key now' (_access_times c)))
        else
          (Ok PNone, with_misses (without key c) (misses c + 1))
    | None => (Ok PNone, with_misses c (misses c + 1))
    end.
Proof.
  intros (Hc & Ha & Hs). unfold get.
  destruct (dict_get key (_cache c)) as [e|] eqn:Hget; [|reflexivity].
  destruct (now <? expires_at e); [reflexivity|].
  unfold dict_del. simpl. rewrite <- Hs, (dict_get_in _ _ _ Hget). reflexivity.
Qed.

Lemma wf_get now now' key c : wf c -> wf (snd (get now now' key c)).
Proof.
  intros Hwf. rewrite get_spec by assumption. pose proof Hwf as (Hc & Ha & Hs).
  destruct (dict_get key (_cache c)) as [e|] eqn:Hget; simpl; [|exact Hwf].
  destruct (now <? expires_at e); simpl.
  - repeat split; simpl; auto using dict_set_NoDup.
    intros k'. simpl. rewrite dict_in_set. rewrite <- Hs.
    destruct (String.eqb_spec key k') as [<-|]; [|reflexivity].
    now rewrite (dict_get_in _ _ _ Hget).
  - apply (wf_without key c Hwf).
Qed.
End CacheFacts.

Section CacheClaims.
Import Py RepositoryCache CacheSpec.
Implicit Types (c : t) (k key : string).

Lemma wf_init ms dt : wf (init ms dt).
Proof. repeat split; simpl; try constructor. Qed.

Lemma inv_init ms dt : 0 <= ms -> inv (init ms dt).
Proof. intros H. split; [apply wf_init | exact H]. Qed.

Lemma dict_set_new (V : Type) k (v : V) (d : dict V) :
  dict_in k d = false -> dict_set k v d = (d ++ [(k, v)])%list.
Proof.
  unfold dict_in. induction d as [|[k' v'] d IH]; simpl; [reflexivity|].
  destruct (String.eqb_spec k k'); [discriminate|]. intros H. now rewrite IH.
Qed.

(** Below capacity, a run of [set] on fresh keys appends one entry per
    call to both dictionaries and evicts nothing. *)
Lemma run_sets_below_capacity ops : forall c,
  wf c ->
  NoDup (dict_keys (_cache c) ++ map ins_key ops) ->
  dict_len (_cache c) + Z.of_nat (List.length ops) <= max_size c ->
  exists c',
    run_sets ops c = (Ok tt, c') /\ wf c' /\
    _cache c' = (_cache c ++ map (fun i => (ins_key i, entry_of i c)) ops)%list /\
    _access_times c' =
      (_access_times c ++ map (fun i => (ins_key i, ins_t3 i)) ops)%list /\
    max_size c' = max_size c /\ default_ttl c' = default_ttl c.
Proof.
  induction ops as [|i ops IH]; intros c Hwf Hnd Hlen.
  - exists c. simpl. rewrite !app_nil_r. repeat split; auto; apply Hwf.
  - cbn [run_sets]. unfold do_set. rewrite set_spec by assumption.
    cbn [List.length] in Hlen.
    destruct (Z.geb_spec (dict_len (_cache c)) (max_size c)) as [Hge|Hlt]; [lia|].
    set (e := {| value := ins_value i;
                 expires_at := ins_t1 i + ttl_or_default (ins_ttl i) c;
                 created_at := ins_t2 i |}).
    assert (Hfresh : dict_in (ins_key i) (_cache c) = false).
    { apply dict_in_false_keys. intros Hin. simpl in Hnd.
      apply NoDup_remove_2 in Hnd. apply Hnd. apply in_or_app. now left. }
    assert (Hfresh' : dict_in (ins_key i) (_access_times c) = false).
    { destruct Hwf as (_ & _ & Hs). now rewrite <- Hs. }
    destruct (IH (stored (ins_key i) e (ins_t3 i) c)) as (c' & Hrun & Hwf' & Hc & Ha & Hm & Hd).
    + now apply wf_stored.
    + simpl. rewrite dict_keys_set_new by assumption.
      rewrite <- app_assoc. exact Hnd.
    + simpl. rewrite dict_len_set, Hfresh. lia.
    + exists c'. split; [exact Hrun|]. split; [exact Hwf'|].
      rewrite Hc, Ha, Hm, Hd. simpl.
      rewrite !dict_set_new by assumption. rewrite <- !app_assoc. simpl.
      repeat split.
Qed.

(** A hit and the two kinds of miss, on any well-formed cache. *)
Lemma get_hit now now' key c e :
  wf c -> dict_get key (_cache c) = Some e -> now < expires_at e ->
  get now now' key c =
    (Ok (value e),
     with_access_times (with_hits c (hits c + 1))
       (dict_set key now' (_access_times c))).
Proof.
  intros Hwf Hget Hlt. rewrite get_spec, Hget by assumption.
  destruct (Z.ltb_spec now (expires_at e)); [reflexivity | lia].
Qed.

Lemma get_expired now now' key c e :
  wf c -> dict_get key (_cache c) = Some e -> expires_at e <= now ->
  get now now' key c = (Ok PNone, with_misses (without key c) (misses c + 1)).
Proof.
  intros Hwf Hget Hle. rewrite get_spec, Hget by assumption.
  destruct (Z.ltb_spec now (expires_at e)); [lia | reflexivity].
Qed.

Lemma get_absent now now' key c :
  dict_get key (_cache c) = None ->
  get now now' key c = (Ok PNone, with_misses c (misses c + 1)).
Proof. intros Hget. unfold get. now rewrite Hget. Qed.

Lemma set_stores t1 t2 t3 key v ttl c :
  wf c ->
  dict_get key (_cache (snd (set t1 t2 t3 key v ttl c))) =
    Some {| value := v; expires_at := t1 + ttl_or_default ttl c; created_at := t2 |}
  /\ dict_get key (_access_times (snd (set t1 t2 t3 key v ttl c))) = Some t3.
Proof.
  intros Hwf. rewrite set_spec by assumption. simpl.
  destruct (dict_len (_cache c) >=? max_size c);
    [destruct (min_key (_access_times c))|]; simpl;
    now rewrite !dict_get_set_eq.
Qed.
End CacheClaims.

(** C4 (as amended). On a well-formed cache, [set(key, value, ttl)] read at
    clock value [t1] stores the entry with expiry [t1 + T], where [T] is
    [ttl] when [ttl] is a non-zero number and [default_ttl] when [ttl] is
    [None] or [0]. A [get] whose clock reading is before [t1 + T] returns
    the value, adds one to [hits] and records its second clock reading as
    the access time; a [get] at or after [t1 + T] returns [None], adds one
    to [misses] and deletes the key from both dictionaries; a [get] of an
    absent key returns [None] and adds one to [misses]. *)
Theorem C4_cache_ttl_semantics
    (c : RepositoryCache.t) (key : string) (v : Py.pyval) (ttl : option Z)
    (t1 t2 t3 : Z) :
  RepositoryCache.wf c ->
  let T := RepositoryCache.ttl_or_default ttl c in
  let c1 := snd (RepositoryCache.set t1 t2 t3 key v ttl c) in
  (forall n, ttl = Some n -> n <> 0 -> T = n) /\
  (ttl = None \/ ttl = Some 0 -> T = RepositoryCache.default_ttl c) /\
  fst (RepositoryCache.set t1 t2 t3 key v ttl c) = Py.Ok tt /\
  (forall now now', now < t1 + T ->
     RepositoryCache.get now now' key c1 =
       (Py.Ok v,
        RepositoryCache.with_access_times
          (RepositoryCache.with_hits c1 (RepositoryCache.hits c1 + 1))
          (Py.dict_set key now' (RepositoryCache._access_times c1)))) /\
  (forall now now', t1 + T <= now ->
     RepositoryCache.get now now' key c1 =
       (Py.Ok Py.PNone,
        RepositoryCache.with_misses (CacheSpec.without key c1)
          (RepositoryCache.misses c1 + 1)) /\
     Py.dict_in key (RepositoryCache._cache (CacheSpec.without key c1)) = false /\
     Py.dict_in key (RepositoryCache._access_times (CacheSpec.without key c1)) = false) /\
  (forall k now now', Py.dict_in k (RepositoryCache._cache c1) = false ->
     RepositoryCache.get now now' k c1 =
       (Py.Ok Py.PNone,
        RepositoryCache.with_misses c1 (RepositoryCache.misses c1 + 1))).
Proof.
  intros Hwf T c1.
  assert (Hwf1 : RepositoryCache.wf c1) by now apply wf_set.
  destruct (set_stores t1 t2 t3 key v ttl c Hwf) as [Hstored _].
  fold c1 in Hstored. fold T in Hstored.
  split; [|split; [|split; [|split; [|split]]]].
  - intros n -> Hn. unfold T. simpl. destruct (Z.eqb_spec n 0); [contradiction | reflexivity].
  - intros [->| ->]; reflexivity.
  - now rewrite set_spec.
  - intros now now' Hlt. now rewrite (get_hit now now' key c1 _ Hwf1 Hstored).
  - intros now now' Hle. split; [|split].
    + now rewrite (get_expired now now' key c1 _ Hwf1 Hstored).
    + simpl. destruct Hwf1 as (Hc & _). rewrite dict_in_remove by assumption.
      now rewrite String.eqb_refl.
    + simpl. destruct Hwf1 as (_ & Ha & _). rewrite dict_in_remove by assumption.
      now rewrite String.eqb_refl.
  - intros k now now' Hk. apply get_absent. unfold Py.dict_in in Hk.
    now destruct (Py.dict_get k (RepositoryCache._cache c1)).
Qed.

(** An instance of C4: in the global cache ([max_size=100],
    [default_ttl=900]), a value stored at time 1000 with [ttl=60] is
    served at time 1059 and reported missing at time 1060. *)
Lemma C4_cache_ttl_semantics_witness :
  RepositoryCache.wf (RepositoryCache.init 100 900) /\
  fst (RepositoryCache.get 1059 1059 "k"
         (snd (RepositoryCache.set 1000 1000 1000 "k" (Py.PStr "v") (Some 60)
                 (RepositoryCache.init 100 900)))) = Py.Ok (Py.PStr "v") /\
  fst (RepositoryCache.get 1060 1060 "k"
         (snd (RepositoryCache.set 1000 1000 1000 "k" (Py.PStr "v") (Some 60)
                 (RepositoryCache.init 100 900)))) = Py.Ok Py.PNone.
Proof.
  split; [apply wf_init|].
  pose proof (C4_cache_ttl_semantics (RepositoryCache.init 100 900) "k"
                (Py.PStr "v") (Some 60) 1000 1000 1000 (wf_init 100 900))
    as (_ & _ & _ & Hhit & Hmiss & _).
  split.
  - rewrite (Hhit 1059 1059); [reflexivity | simpl; lia].
  - destruct (Hmiss 1060 1060) as [-> _]; [simpl; lia | reflexivity].
Defined.

(** C4 as stated fails for [ttl=0]: the entry is not reported missing once
    zero time units have elapsed; it lives for [default_ttl]. *)
Lemma C4_ttl_zero_counterexample :
  let c1 := snd (RepositoryCache.set 1000 1000 1000 "k" (Py.PStr "v") (Some 0)
                   (RepositoryCache.init 100 900)) in
  1000 + 0 <= 1500 /\
  fst (RepositoryCache.get 1500 1500 "k" c1) = Py.Ok (Py.PStr "v") /\
  fst (RepositoryCache.get 1500 1500 "k" c1) <> Py.Ok Py.PNone.
Proof. simpl. repeat split; [lia | discriminate]. Qed.

(** C5 (as amended). For every capacity [N >= 1]: [N] calls of [set] on
    distinct keys into an empty cache of capacity [N] store [N] entries
    and evict nothing; one more call with a further key evicts exactly one
    entry, the victim, whose access time is the least among the [N]
    entries present at that moment (the first such key in insertion order
    when several share it). Afterwards the cache holds [N] entries, namely
    every inserted key but the victim, and each of them is returned by a
    [get] that reads the clock before the entry's expiry. *)
Theorem C5_capacity_plus_one_evicts_oldest
    (N dttl : Z) (ops : list CacheSpec.insertion) (last : CacheSpec.insertion) :
  1 <= N ->
  Z.of_nat (List.length ops) = N ->
  NoDup (map CacheSpec.ins_key (ops ++ [last])) ->
  exists cN cF victim,
    CacheSpec.run_sets ops (RepositoryCache.init N dttl) = (Py.Ok tt, cN) /\
    CacheSpec.do_set last cN = (Py.Ok tt, cF) /\
    Py.dict_keys (RepositoryCache._cache cN) = map CacheSpec.ins_key ops /\
    RepositoryCache._access_times cN =
      map (fun i => (CacheSpec.ins_key i, CacheSpec.ins_t3 i)) ops /\
    Py.min_key (RepositoryCache._access_times cN) = Some victim /\
    In victim (map CacheSpec.ins_key ops) /\
    (exists a, Py.dict_get victim (RepositoryCache._access_times cN) = Some a /\
       forall k' a', Py.dict_get k' (RepositoryCache._access_times cN) = Some a' ->
                     a <= a') /\
    Py.dict_len (RepositoryCache._cache cF) = N /\
    (forall k, Py.dict_in k (RepositoryCache._cache cF) = true <->
               In k (map CacheSpec.ins_key (ops ++ [last])) /\ k <> victim) /\
    (forall i, In i (ops ++ [last]) -> CacheSpec.ins_key i <> victim ->
       forall now now',
         now < CacheSpec.ins_t1 i + RepositoryCache.ttl_or_default (CacheSpec.ins_ttl i) cN ->
         fst (RepositoryCache.get now now' (CacheSpec.ins_key i) cF) =
           Py.Ok (CacheSpec.ins_value i)).
Proof.
  intros HN Hlen Hnd.
  set (c0 := RepositoryCache.init N dttl).
  assert (Hnd_ops : NoDup (map CacheSpec.ins_key ops)).
  { rewrite map_app in Hnd. now apply NoDup_app_remove_r in Hnd. }
  assert (Hlast : ~ In (CacheSpec.ins_key last) (map CacheSpec.ins_key ops)).
  { rewrite map_app in Hnd. simpl in Hnd. apply NoDup_remove_2 in Hnd.
    now rewrite app_nil_r in Hnd. }
  destruct (run_sets_below_capacity ops c0) as (cN & Hrun & HwfN & Hc & Ha & Hm & Hd).
  { apply wf_init. } { exact Hnd_ops. } { simpl. unfold Py.dict_len. simpl. lia. }
  simpl in Hc, Ha, Hm, Hd.
  assert (Hkeys : Py.dict_keys (RepositoryCache._cache cN) = map CacheSpec.ins_key ops).
  { rewrite Hc. unfold Py.dict_keys. rewrite map_map. reflexivity. }
  assert (HlenN : Py.dict_len (RepositoryCache._cache cN) = N).
  { unfold Py.dict_len. rewrite Hc, length_map. exact Hlen. }
  pose proof (evict_oldest_spec cN HwfN) as Hev.
  destruct (Py.min_key (RepositoryCache._access_times cN)) as [victim|] eqn:Hmin.
  2:{ destruct Hev as [_ Hnil]. rewrite Hnil in HlenN. unfold Py.dict_len in HlenN.
      simpl in HlenN. lia. }
  destruct Hev as (_ & Hvin & a & Hva & Hvmin).
  assert (Hvops : In victim (map CacheSpec.ins_key ops)).
  { rewrite <- Hkeys. now apply dict_in_keys. }
  set (e := {| RepositoryCache.value := CacheSpec.ins_value last;
               RepositoryCache.expires_at :=
                 CacheSpec.ins_t1 last +
                 RepositoryCache.ttl_or_default (CacheSpec.ins_ttl last) cN;
               RepositoryCache.created_at := CacheSpec.ins_t2 last |}).
  set (cF := CacheSpec.stored (CacheSpec.ins_key last) e (CacheSpec.ins_t3 last)
               (CacheSpec.without victim cN)).
  assert (HsetF : CacheSpec.do_set last cN = (Py.Ok tt, cF)).
  { unfold CacheSpec.do_set. rewrite set_spec by assumption. rewrite Hmin.
    destruct (Z.geb_spec (Py.dict_len (RepositoryCache._cache cN))
                (RepositoryCache.max_size cN)) as [_|Hlt]; [reflexivity | lia]. }
  assert (HwfF : RepositoryCache.wf cF).
  { apply wf_stored. now apply wf_without. }
  assert (Hne : victim <> CacheSpec.ins_key last) by (intros ->; contradiction).
  assert (HinF : forall k, Py.dict_in k (RepositoryCache._cache cF) =
            (String.eqb (CacheSpec.ins_key last) k ||
             (negb (String.eqb victim k) && Py.dict_in k (RepositoryCache._cache cN)))%bool).
  { intros k. unfold cF. simpl. rewrite dict_in_set, dict_in_remove; [reflexivity|].
    apply HwfN. }
  exists cN, cF, victim.
  split; [exact Hrun|]. split; [exact HsetF|]. split; [exact Hkeys|].
  split; [exact Ha|]. split; [exact Hmin|]. split; [exact Hvops|].
  split; [exists a; split; assumption|]. split; [|split].
  - unfold cF. simpl. rewrite dict_len_set.
    assert (Hfresh : Py.dict_in (CacheSpec.ins_key last)
              (Py.dict_remove victim (RepositoryCache._cache cN)) = false).
    { rewrite dict_in_remove by apply HwfN.
      assert (Py.dict_in (CacheSpec.ins_key last) (RepositoryCache._cache cN) = false)
        as ->; [|apply andb_false_r].
      apply dict_in_false_keys. now rewrite Hkeys. }
    rewrite Hfresh, dict_len_remove by assumption. lia.
  - intros k. rewrite HinF, map_app, in_app_iff. simpl.
    pose proof (dict_in_keys k (RepositoryCache._cache cN)) as Hk.
    rewrite Hkeys in Hk.
    destruct (String.eqb_spec (CacheSpec.ins_key last) k) as [Hl|Hl];
      destruct (String.eqb_spec victim k) as [Hv|Hv]; simpl;
      destruct (Py.dict_in k (RepositoryCache._cache cN));
      try (exfalso; congruence); intuition congruence.
  - intros i Hi Hiv now now' Hnow.
    assert (Hget : Py.dict_get (CacheSpec.ins_key i) (RepositoryCache._cache cF) =
              Some {| RepositoryCache.value := CacheSpec.ins_value i;
                      RepositoryCache.expires_at :=
                        CacheSpec.ins_t1 i +
                        RepositoryCache.ttl_or_default (CacheSpec.ins_ttl i) cN;
                      RepositoryCache.created_at := CacheSpec.ins_t2 i |}).
    { apply in_app_or in Hi. destruct Hi as [Hi|[<-|[]]].
      - unfold cF. simpl. rewrite dict_get_set_ne.
        2:{ intros Heq. apply Hlast. rewrite Heq. now apply in_map. }
        rewrite dict_get_remove_ne by congruence.
        apply In_dict_get; [apply HwfN|]. rewrite Hc.
        apply in_map_iff. exists i. split; [|exact Hi].
        unfold CacheSpec.entry_of. f_equal. f_equal. f_equal.
        unfold RepositoryCache.ttl_or_default. now rewrite Hd.
      - unfold cF. simpl. now rewrite dict_get_set_eq. }
    now rewrite (get_hit now now' _ cF _ HwfF Hget Hnow).
Qed.

(** An instance of C5 with capacity 2: keys a, b, c set at times 1, 2, 3
    leave b and c in the cache; a, the oldest, is gone. *)
Lemma C5_capacity_plus_one_evicts_oldest_witness :
  1 <= 2 /\
  exists cF,
    snd (CacheSpec.run_sets
           [CacheSpec.Insertion "a" (Py.PInt 1) None 1 1 1;
            CacheSpec.Insertion "b" (Py.PInt 2) None 2 2 2;
            CacheSpec.Insertion "c" (Py.PInt 3) None 3 3 3]
           (RepositoryCache.init 2 900)) = cF /\
    Py.dict_len (RepositoryCache._cache cF) = 2.
Proof.
  split; [lia|].
  destruct (C5_capacity_plus_one_evicts_oldest 2 900
              [CacheSpec.Insertion "a" (Py.PInt 1) None 1 1 1;
               CacheSpec.Insertion "b" (Py.PInt 2) None 2 2 2]
              (CacheSpec.Insertion "c" (Py.PInt 3) None 3 3 3))
    as (cN & cF & victim & Hrun & Hset & _ & _ & _ & _ & _ & Hlen & _).
  - lia.
  - reflexivity.
  - simpl. repeat constructor; simpl; intuition discriminate.
  - exists cF. split; [|exact Hlen].
    change (snd (CacheSpec.run_sets
                   ([CacheSpec.Insertion "a" (Py.PInt 1) None 1 1 1;
                     CacheSpec.Insertion "b" (Py.PInt 2) None 2 2 2] ++
                    [CacheSpec.Insertion "c" (Py.PInt 3) None 3 3 3])
                   (RepositoryCache.init 2 900)) = cF).
    vm_compute in Hrun. vm_compute in Hset. vm_compute.
    injection Hrun as <-. vm_compute in Hset. now injection Hset as <-.
Defined.

(** C5 as stated fails for capacity [N = 0]: inserting [0 + 1] entries into
    the empty cache of capacity 0 evicts nothing (the store is empty when
    [_evict_oldest] runs) and leaves one entry in the cache. *)
Lemma C5_capacity_zero_counterexample :
  let c0 := RepositoryCache.init 0 900 in
  let cF := snd (CacheSpec.run_sets [CacheSpec.Insertion "a" (Py.PInt 1) None 1 1 1] c0) in
  RepositoryCache._evict_oldest c0 = (Py.Ok tt, c0) /\
  Py.dict_keys (RepositoryCache._cache cF) = ["a"] /\
  Py.dict_len (RepositoryCache._cache cF) = 1 /\
  Py.dict_len (RepositoryCache._cache cF) > RepositoryCache.max_size cF.
Proof. vm_compute. repeat split. Qed.

(** C10 (as amended). Whenever [max_size >= 1], every operation keeps the
    invariant: it does not raise, the two dictionaries keep the same keys,
    and the entry count stays at most [max_size]. Moreover a [set] on a
    cache that already holds [max_size] entries removes the key that [min]
    selects over the access times before it stores, also when the key
    being set is already present: if the victim is another key, that key
    is gone afterwards and the count has dropped by one. *)
Theorem C10_capacity_invariant (c : RepositoryCache.t) :
  1 <= RepositoryCache.max_size c ->
  RepositoryCache.inv c ->
  (forall now now' k,
     Py.is_ok (fst (RepositoryCache.get now now' k c)) = true /\
     RepositoryCache.inv (snd (RepositoryCache.get now now' k c))) /\
  (forall t1 t2 t3 k v ttl,
     fst (RepositoryCache.set t1 t2 t3 k v ttl c) = Py.Ok tt /\
     RepositoryCache.inv (snd (RepositoryCache.set t1 t2 t3 k v ttl c)) /\
     (Py.dict_len (RepositoryCache._cache c) = RepositoryCache.max_size c ->
      exists victim a,
        Py.min_key (RepositoryCache._access_times c) = Some victim /\
        Py.dict_get victim (RepositoryCache._access_times c) = Some a /\
        (forall k' a', Py.dict_get k' (RepositoryCache._access_times c) = Some a' ->
                       a <= a') /\
        (victim <> k ->
         Py.dict_in victim
           (RepositoryCache._cache (snd (RepositoryCache.set t1 t2 t3 k v ttl c))) = false /\
         (Py.dict_in k (RepositoryCache._cache c) = true ->
          Py.dict_len
            (RepositoryCache._cache (snd (RepositoryCache.set t1 t2 t3 k v ttl c))) =
          RepositoryCache.max_size c - 1)))) /\
  (fst (RepositoryCache._evict_oldest c) = Py.Ok tt /\
   RepositoryCache.inv (snd (RepositoryCache._evict_oldest c))) /\
  RepositoryCache.inv (RepositoryCache.clear c).
Proof.
  intros Hms (Hwf & Hlen). pose proof Hwf as (Hc & Ha & Hs).
  pose proof (evict_oldest_spec c Hwf) as Hev.
  split; [|split; [|split]].
  - intros now now' k. split.
    + rewrite get_spec by assumption.
      destruct (Py.dict_get k (RepositoryCache._cache c)) as [e|]; [|reflexivity].
      now destruct (now <? RepositoryCache.expires_at e).
    + split; [now apply wf_get|]. rewrite get_spec by assumption.
      destruct (Py.dict_get k (RepositoryCache._cache c)) as [e|] eqn:Hget; simpl;
        [|exact Hlen].
      destruct (now <? RepositoryCache.expires_at e); simpl; [exact Hlen|].
      rewrite dict_len_remove; [lia | now apply dict_get_in with e].
  - intros t1 t2 t3 k v ttl. split; [now rewrite set_spec|]. split; [split|].
    + now apply wf_set.
    + rewrite set_spec by assumption. simpl.
      destruct (Z.geb_spec (Py.dict_len (RepositoryCache._cache c))
                  (RepositoryCache.max_size c)) as [Hge|Hlt].
      * destruct (Py.min_key (RepositoryCache._access_times c)) as [victim|].
        -- destruct Hev as (_ & Hvin & _). simpl. rewrite dict_len_set.
           rewrite dict_len_remove by assumption.
           destruct (Py.dict_in k _); lia.
        -- destruct Hev as (_ & Hnil). rewrite Hnil in Hge.
           unfold Py.dict_len in Hge. simpl in Hge. lia.
      * simpl. rewrite dict_len_set. destruct (Py.dict_in k _); lia.
    + intros Hfull. rewrite set_spec by assumption. simpl.
      destruct (Z.geb_spec (Py.dict_len (RepositoryCache._cache c))
                  (RepositoryCache.max_size c)) as [_|Hlt]; [|lia].
      destruct (Py.min_key (RepositoryCache._access_times c)) as [victim|].
      * destruct Hev as (_ & Hvin & a & Hva & Hmin).
        exists victim, a. split; [reflexivity|]. split; [exact Hva|].
        split; [exact Hmin|]. intros Hne. simpl. split.
        -- rewrite dict_in_set, dict_in_remove by assumption.
           rewrite String.eqb_refl. simpl.
           destruct (String.eqb_spec k victim); [congruence | reflexivity].
        -- intros Hkin. rewrite dict_len_set, dict_in_remove by assumption.
           rewrite Hkin. destruct (String.eqb_spec victim k); [contradiction|].
           simpl. rewrite dict_len_remove by assumption. lia.
      * destruct Hev as (_ & Hnil). rewrite Hnil in Hfull.
        unfold Py.dict_len in Hfull. simpl in Hfull. lia.
  - destruct (Py.min_key (RepositoryCache._access_times c)) as [victim|].
    + destruct Hev as (-> & Hvin & _). simpl. split; [reflexivity|].
      split; [now apply wf_without|]. simpl.
      rewrite dict_len_remove by assumption. lia.
    + destruct Hev as (-> & _). simpl. split; [reflexivity|]. now split.
  - split; [repeat split; simpl; try constructor|]. simpl.
    unfold Py.dict_len. simpl. lia.
Qed.

(** An instance of C10: a full cache of capacity 2 holding a (accessed at
    1) and b (accessed at 2); overwriting b removes a. *)
Lemma C10_capacity_invariant_witness :
  let c := snd (CacheSpec.run_sets
                  [CacheSpec.Insertion "a" (Py.PInt 1) None 1 1 1;
                   CacheSpec.Insertion "b" (Py.PInt 2) None 2 2 2]
                  (RepositoryCache.init 2 900)) in
  1 <= RepositoryCache.max_size c /\ RepositoryCache.inv c /\
  RepositoryCache.inv (snd (RepositoryCache.set 3 3 3 "b" (Py.PInt 7) None c)) /\
  Py.dict_keys
    (RepositoryCache._cache (snd (RepositoryCache.set 3 3 3 "b" (Py.PInt 7) None c))) = ["b"].
Proof.
  intros c.
  assert (Hms : 1 <= RepositoryCache.max_size c) by (vm_compute; discriminate).
  assert (Hinv : RepositoryCache.inv c).
  { split; [|vm_compute; discriminate].
    apply (wf_set 2 2 2 "b" (Py.PInt 2) None
             (snd (RepositoryCache.set 1 1 1 "a" (Py.PInt 1) None
                     (RepositoryCache.init 2 900)))).
    apply wf_set, wf_init. }
  split; [exact Hms|]. split; [exact Hinv|]. split; [|reflexivity].
  destruct (C10_capacity_invariant c Hms Hinv) as (_ & Hset & _).
  apply (Hset 3 3 3 "b" (Py.PInt 7) None).
Defined.

(** C10 as stated fails for [max_size = 0]: the empty cache satisfies the
    invariant and [set] leaves one entry in it. *)
Lemma C10_capacity_zero_counterexample :
  let c0 := RepositoryCache.init 0 900 in
  let c1 := snd (RepositoryCache.set 1 1 1 "a" (Py.PInt 1) None c0) in
  RepositoryCache.inv c0 /\ ~ RepositoryCache.inv c1.
Proof.
  split.
  - apply inv_init. lia.
  - intros [_ H]. vm_compute in H. now apply H.
Qed.

(** ** The architecture-pattern detector *)

Section ArchFacts.
Import Py PyStr DeepAnalyzer ArchSpec.

(** The truth-value test of the API-First rule never rejects a path
    that matched: such a path is not the empty string. *)
Lemma api_config_test (fs : list string) :
  any (fun f => negb (String.eqb f ""))
      (filter (fun f => (contains "swagger" (lower f) ||
                         contains "openapi" (lower f))%bool) fs) =
  existsb (fun f => (contains "swagger" (lower f) ||
                     contains "openapi" (lower f))%bool) fs.
Proof.
  unfold any. induction fs as [|f fs IH]; simpl; [reflexivity|].
  destruct (contains "swagger" (lower f) || contains "openapi" (lower f))%bool eqn:Hm;
    simpl; [|exact IH].
  destruct (String.eqb_spec f "") as [->|Hne]; [|reflexivity].
  simpl in Hm. discriminate.
Qed.

Lemma has_dir_intro kw tree d :
  In d (dirs tree) -> contains kw (lower d) = true -> has_dir kw tree = true.
Proof.
  intros Hin Hc. unfold has_dir. apply existsb_exists. now exists d.
Qed.
End ArchFacts.

(** C7. The detector returns the label of the first rule that holds in the
    order MVC, Microservices, Domain-Driven Design, Component-Based,
    API-First, Monolithic, Modular, and the generic label when none holds.
    In particular, when some directory path contains "controller", some
    contains "model" and some contains "view" (ignoring case), the result
    is the MVC label whatever else the tree contains, a services directory
    included. *)
Theorem C7_architecture_rule_priority (tree : DeepAnalyzer.tree_analysis) :
  DeepAnalyzer.detect_architecture_pattern tree =
    ArchSpec.first_match ArchSpec.rules "Standard Project Structure" tree /\
  (forall dc dm dv,
     In dc (ArchSpec.dirs tree) -> PyStr.contains "controller" (PyStr.lower dc) = true ->
     In dm (ArchSpec.dirs tree) -> PyStr.contains "model" (PyStr.lower dm) = true ->
     In dv (ArchSpec.dirs tree) -> PyStr.contains "view" (PyStr.lower dv) = true ->
     DeepAnalyzer.detect_architecture_pattern tree = "MVC (Model-View-Controller)").
Proof.
  assert (Hfirst : DeepAnalyzer.detect_architecture_pattern tree =
            ArchSpec.first_match ArchSpec.rules "Standard Project Structure" tree).
  { unfold DeepAnalyzer.detect_architecture_pattern. rewrite api_config_test.
    reflexivity. }
  split; [exact Hfirst|].
  intros dc dm dv Hc1 Hc2 Hm1 Hm2 Hv1 Hv2. rewrite Hfirst. simpl.
  unfold ArchSpec.rule_mvc.
  rewrite (has_dir_intro "controller" tree dc Hc1 Hc2).
  rewrite (has_dir_intro "model" tree dm Hm1 Hm2).
  rewrite (has_dir_intro "view" tree dv Hv1 Hv2). reflexivity.
Qed.

(** An instance of C7: directories controllers, models, views and
    services. *)
Lemma C7_architecture_rule_priority_witness :
  let tree :=
    {| DeepAnalyzer.total_files := 4; DeepAnalyzer.total_dirs := 4;
       DeepAnalyzer.file_types := [];
       DeepAnalyzer.directory_structure :=
         [("controllers", ["a.py"]); ("models", ["b.py"]);
          ("views", ["c.py"]); ("services", ["d.py"])];
       DeepAnalyzer.config_files := []; DeepAnalyzer.test_files := [];
       DeepAnalyzer.doc_files := []; DeepAnalyzer.max_depth := 1 |} in
  ArchSpec.rule_microservices tree = true /\
  DeepAnalyzer.detect_architecture_pattern tree = "MVC (Model-View-Controller)".
Proof.
  intros tree. split; [reflexivity|].
  apply (proj2 (C7_architecture_rule_priority tree) "controllers" "models" "views");
    solve [reflexivity | simpl; auto].
Defined.

(** ** The project-health scorer *)

Section HealthFacts.
Import Py EnhancedAnalyzer HealthSpec.

Lemma Qltb_div_l a b n d :
  0 < b -> Qltb (true_div a b) (n # d) = (a * Zpos d <? n * b).
Proof.
  intros Hb. unfold Qltb, true_div, Qle_bool. simpl.
  rewrite Z2Pos.id by assumption.
  destruct (Z.leb_spec (n * b) (a * Zpos d)); destruct (Z.ltb_spec (a * Zpos d) (n * b));
    simpl; try reflexivity; lia.
Qed.

Lemma Qltb_div_r a b n d :
  0 < b -> Qltb (n # d) (true_div a b) = (n * b <? a * Zpos d).
Proof.
  intros Hb. unfold Qltb, true_div, Qle_bool. simpl.
  rewrite Z2Pos.id by assumption.
  destruct (Z.leb_spec (a * Zpos d) (n * b)); destruct (Z.ltb_spec (n * b) (a * Zpos d));
    simpl; try reflexivity; lia.
Qed.

Lemma len_cons_pos {A : Type} (x : A) (xs : list A) : 0 < len (x :: xs).
Proof. unfold len. simpl List.length. lia. Qed.
End HealthFacts.

(** C8. For every issue list and pull-request list the score is 50, plus 20
    when fewer than 30 % of the issues are open and minus 20 when more than
    70 % are, plus 15 when more than 70 % of the pull requests are merged
    and minus 15 when fewer than 30 % are, plus 15 when more than 5 issues
    were updated within the last 30 days, clamped to [0, 100] (an empty
    list has no ratio and contributes nothing). The score lies between 15
    and 100, so the clamp never changes it; ten closed issues, all updated
    recently, with ten merged pull requests score exactly 100. *)
Theorem C8_health_score_formula
    (now : Z) (issues : list EnhancedAnalyzer.issue)
    (prs : list EnhancedAnalyzer.pull_request) :
  EnhancedAnalyzer._calculate_health_score now issues prs =
    HealthSpec.clamp 0 100
      (50 + HealthSpec.issue_term issues + HealthSpec.pr_term prs +
       HealthSpec.activity_term now issues) /\
  15 <= EnhancedAnalyzer._calculate_health_score now issues prs <= 100 /\
  (EnhancedAnalyzer.len issues = 10 -> EnhancedAnalyzer.len prs = 10 ->
   HealthSpec.open_count issues = 0 -> HealthSpec.merged_count prs = 10 ->
   HealthSpec.recent_count now issues > 5 ->
   EnhancedAnalyzer._calculate_health_score now issues prs = 100).
Proof.
  assert (Hformula : EnhancedAnalyzer._calculate_health_score now issues prs =
            HealthSpec.clamp 0 100
              (50 + HealthSpec.issue_term issues + HealthSpec.pr_term prs +
               HealthSpec.activity_term now issues)).
  { unfold EnhancedAnalyzer._calculate_health_score, HealthSpec.clamp.
    f_equal. f_equal.
    unfold HealthSpec.issue_term, HealthSpec.pr_term, HealthSpec.activity_term,
      HealthSpec.below_30, HealthSpec.above_70.
    fold (HealthSpec.open_count issues). fold (HealthSpec.merged_count prs).
    fold (HealthSpec.recent_count now issues).
    assert (Hi : (match issues with
                  | [] => 50
                  | _ :: _ =>
                      if EnhancedAnalyzer.Qltb
                           (EnhancedAnalyzer.true_div (HealthSpec.open_count issues)
                              (EnhancedAnalyzer.len issues)) (3 # 10)
                      then 50 + 20
                      else if EnhancedAnalyzer.Qltb (7 # 10)
                                (EnhancedAnalyzer.true_div (HealthSpec.open_count issues)
                                   (EnhancedAnalyzer.len issues))
                           then 50 - 20 else 50
                  end) =
                 50 + (if 10 * HealthSpec.open_count issues <? 3 * EnhancedAnalyzer.len issues
                       then 20
                       else if 7 * EnhancedAnalyzer.len issues <? 10 * HealthSpec.open_count issues
                            then -20 else 0)).
    { destruct issues as [|i issues']; [reflexivity|].
      rewrite Qltb_div_l, Qltb_div_r by apply len_cons_pos.
      rewrite (Z.mul_comm (HealthSpec.open_count _) 10).
      destruct (_ <? _); [lia|]. destruct (_ <? _); lia. }
    rewrite Hi. clear Hi.
    set (s1 := 50 + _).
    assert (Hp : (match prs with
                  | [] => s1
                  | _ :: _ =>
                      if EnhancedAnalyzer.Qltb (7 # 10)
                           (EnhancedAnalyzer.true_div (HealthSpec.merged_count prs)
                              (EnhancedAnalyzer.len prs))
                      then s1 + 15
                      else if EnhancedAnalyzer.Qltb
                                (EnhancedAnalyzer.true_div (HealthSpec.merged_count prs)
                                   (EnhancedAnalyzer.len prs)) (3 # 10)
                           then s1 - 15 else s1
                  end) =
                 s1 + (if 7 * EnhancedAnalyzer.len prs <? 10 * HealthSpec.merged_count prs
                       then 15
                       else if 10 * HealthSpec.merged_count prs <? 3 * EnhancedAnalyzer.len prs
                            then -15 else 0)).
    { clearbody s1. destruct prs as [|p prs']; [simpl; lia|].
      rewrite Qltb_div_l, Qltb_div_r by apply len_cons_pos.
      rewrite (Z.mul_comm (HealthSpec.merged_count _) 10).
      destruct (_ <? _); [lia|]. destruct (_ <? _); lia. }
    rewrite Hp. clear Hp. clearbody s1.
    destruct (HealthSpec.recent_count now issues >? 5); lia. }
  split; [exact Hformula|]. split.
  - rewrite Hformula.
    unfold HealthSpec.clamp, HealthSpec.issue_term, HealthSpec.pr_term,
      HealthSpec.activity_term.
    repeat match goal with
           | |- context [if ?b then _ else _] => destruct b
           end; lia.
  - intros Hi Hp Ho Hm Hr. rewrite Hformula.
    unfold HealthSpec.clamp, HealthSpec.issue_term, HealthSpec.pr_term,
      HealthSpec.activity_term, HealthSpec.below_30, HealthSpec.above_70.
    rewrite Hi, Hp, Ho, Hm.
    destruct (Z.gtb_spec (HealthSpec.recent_count now issues) 5); [|lia].
    reflexivity.
Qed.

(** An instance of C8: ten closed issues updated one day ago and ten
    merged pull requests. *)
Lemma C8_health_score_formula_witness :
  let now := 1700000000000000 in
  let issues := repeat (EnhancedAnalyzer.Issue "closed" (now - 86400000000)) 10 in
  let prs := repeat (EnhancedAnalyzer.PullRequest (Py.PStr "2023-11-14T00:00:00Z")) 10 in
  HealthSpec.recent_count now issues > 5 /\
  EnhancedAnalyzer._calculate_health_score now issues prs = 100.
Proof.
  intros now issues prs. split; [reflexivity|].
  apply (proj2 (proj2 (C8_health_score_formula now issues prs))); reflexivity.
Defined.

(** ** The quality extractor *)

Section QualityFacts.
Import Py Run GitHubAnalyzer DeepAnalyzer QualitySpec.

Lemma round_half_even_nearest a b :
  0 <= a -> 0 < b -> 2 * Z.abs (round_half_even_pct a b * b - 1000 * a) <= b.
Proof.
  intros Ha Hb. unfold round_half_even_pct.
  pose proof (Z.div_mod (1000 * a) b ltac:(lia)) as Hdm.
  pose proof (Z.mod_pos_bound (1000 * a) b Hb) as Hr.
  set (q := 1000 * a / b) in *. set (r := (1000 * a) mod b) in *.
  destruct (Z.ltb_spec (2 * r) b); [|destruct (Z.ltb_spec b (2 * r));
    [|destruct (Z.even q)]]; nia.
Qed.

Lemma degraded_env_nearest : nearest_tenth Examples.degraded_env.
Proof. intros a b. apply round_half_even_nearest. Qed.

(** The branch-protection probe is wrapped in [try/except]: the extractor
    always returns. *)
Lemma analyze_code_quality_detailed_returns E owner repo tree w :
  exists q w', analyze_code_quality_detailed E owner repo tree w = (Ok q, w') /\
    test_file_ratio q =
      (if total_files tree >? 0
       then round_pct E (Z.of_nat (List.length (test_files tree))) (total_files tree)
       else 0) /\
    test_coverage q =
      (if total_files tree >? 0 then
         if test_file_ratio q >? 300 then "High (>30% test files)"
         else if test_file_ratio q >? 150 then "Medium (15-30% test files)"
         else if test_file_ratio q >? 50 then "Low (5-15% test files)"
         else "Minimal (<5% test files)"
       else "Unknown").
Proof.
  unfold analyze_code_quality_detailed, Run.bind at 1.
  match goal with
  | |- context [try_except ?m ?h w] => destruct (try_except m h w) as [[p|e] w1] eqn:Htry
  end.
  - eexists _, _. split; [reflexivity|]. simpl. split; reflexivity.
  - exfalso. unfold try_except in Htry.
    match type of Htry with
    | context [match ?m with _ => _ end] => destruct m as [[p|e'] w2]
    end; discriminate.
Qed.
End QualityFacts.

(** C9 (as amended). For a tree with a positive file count the extractor
    returns, and its [test_file_ratio] is the percentage of test files
    rounded to one decimal place (a nearest tenth of [100 * tests / total]),
    not the plain quotient. The label is chosen on the rounded percentage:
    High above 30.0, Medium above 15.0 up to 30.0, Low above 5.0 up to
    15.0, Minimal up to 5.0. In terms of the counts: High when the
    percentage exceeds 30.05, Medium between 15.05 and 30.05, Low between
    5.05 and 15.05, Minimal below 5.05; the exact values 30 %, 15 % and
    5 % fall in Medium, Low and Minimal. *)
Theorem C9_coverage_tiers
    (E : Run.env) (owner repo : string) (tree : DeepAnalyzer.tree_analysis)
    (w : Run.world) :
  QualitySpec.nearest_tenth E ->
  0 < DeepAnalyzer.total_files tree ->
  let t := Z.of_nat (List.length (DeepAnalyzer.test_files tree)) in
  let n := DeepAnalyzer.total_files tree in
  exists q w',
    DeepAnalyzer.analyze_code_quality_detailed E owner repo tree w = (Py.Ok q, w') /\
    DeepAnalyzer.test_file_ratio q = Run.round_pct E t n /\
    2 * Z.abs (DeepAnalyzer.test_file_ratio q * n - 1000 * t) <= n /\
    (DeepAnalyzer.test_coverage q = "High (>30% test files)" <->
       300 < DeepAnalyzer.test_file_ratio q) /\
    (DeepAnalyzer.test_coverage q = "Medium (15-30% test files)" <->
       150 < DeepAnalyzer.test_file_ratio q <= 300) /\
    (DeepAnalyzer.test_coverage q = "Low (5-15% test files)" <->
       50 < DeepAnalyzer.test_file_ratio q <= 150) /\
    (DeepAnalyzer.test_coverage q = "Minimal (<5% test files)" <->
       DeepAnalyzer.test_file_ratio q <= 50) /\
    (601 * n < 2000 * t -> DeepAnalyzer.test_coverage q = "High (>30% test files)") /\
    (301 * n < 2000 * t < 601 * n ->
       DeepAnalyzer.test_coverage q = "Medium (15-30% test files)") /\
    (101 * n < 2000 * t < 301 * n ->
       DeepAnalyzer.test_coverage q = "Low (5-15% test files)") /\
    (2000 * t < 101 * n -> DeepAnalyzer.test_coverage q = "Minimal (<5% test files)") /\
    (10 * t = 3 * n -> DeepAnalyzer.test_coverage q = "Medium (15-30% test files)") /\
    (20 * t = 3 * n -> DeepAnalyzer.test_coverage q = "Low (5-15% test files)") /\
    (20 * t = n -> DeepAnalyzer.test_coverage q = "Minimal (<5% test files)").
Proof.
  intros Hnear Hn t n.
  destruct (analyze_code_quality_detailed_returns E owner repo tree w)
    as (q & w' & Hrun & Hratio & Hcov).
  exists q, w'. split; [exact Hrun|].
  fold n in Hratio, Hcov. fold t in Hratio.
  destruct (Z.gtb_spec n 0) as [_|Hle]; [|lia].
  assert (Ht : 0 <= t) by (unfold t; lia).
  pose proof (Hnear t n Ht Hn) as Hk. rewrite <- Hratio in Hk.
  set (k := DeepAnalyzer.test_file_ratio q) in *.
  split; [exact Hratio|]. split; [exact Hk|].
  rewrite Hcov.
  destruct (Z.gtb_spec k 300); [|destruct (Z.gtb_spec k 150); [|destruct (Z.gtb_spec k 50)]];
    repeat split; intros; try reflexivity; try discriminate; try lia; try nia.
Qed.

(** An instance of C9: 25 test files among 100 files. *)
Lemma C9_coverage_tiers_witness :
  let tree :=
    {| DeepAnalyzer.total_files := 100; DeepAnalyzer.total_dirs := 3;
       DeepAnalyzer.file_types := []; DeepAnalyzer.directory_structure := [];
       DeepAnalyzer.config_files := [];
       DeepAnalyzer.test_files := repeat "tests/test_x.py" 25;
       DeepAnalyzer.doc_files := []; DeepAnalyzer.max_depth := 1 |} in
  QualitySpec.nearest_tenth Examples.degraded_env /\
  0 < DeepAnalyzer.total_files tree /\
  exists q w',
    DeepAnalyzer.analyze_code_quality_detailed Examples.degraded_env "o" "r" tree
      Examples.empty_world = (Py.Ok q, w') /\
    DeepAnalyzer.test_coverage q = "Medium (15-30% test files)".
Proof.
  intros tree. split; [exact degraded_env_nearest|]. split; [reflexivity|].
  destruct (C9_coverage_tiers Examples.degraded_env "o" "r" tree
              Examples.empty_world degraded_env_nearest eq_refl)
    as (q & w' & Hrun & _ & _ & _ & _ & _ & _ & _ & Hmed & _).
  exists q, w'. split; [exact Hrun|]. apply Hmed. simpl. lia.
Defined.

(** C9 as stated fails: with 3004 test files among 10000 files the ratio
    of test files to files exceeds 30 %, yet the label is Medium, because
    the tiers are applied to the percentage rounded to 30.0. *)
Lemma C9_rounded_tier_counterexample :
  let tree :=
    {| DeepAnalyzer.total_files := 10000; DeepAnalyzer.total_dirs := 3;
       DeepAnalyzer.file_types := []; DeepAnalyzer.directory_structure := [];
       DeepAnalyzer.config_files := [];
       DeepAnalyzer.test_files := repeat "tests/test_x.py" 3004;
       DeepAnalyzer.doc_files := []; DeepAnalyzer.max_depth := 1 |} in
  let t := Z.of_nat (List.length (DeepAnalyzer.test_files tree)) in
  let n := DeepAnalyzer.total_files tree in
  30 * n < 100 * t /\
  exists q w',
    DeepAnalyzer.analyze_code_quality_detailed Examples.degraded_env "o" "r" tree
      Examples.empty_world = (Py.Ok q, w') /\
    DeepAnalyzer.test_file_ratio q = 300 /\
    DeepAnalyzer.test_coverage q = "Medium (15-30% test files)" /\
    DeepAnalyzer.test_coverage q <> "High (>30% test files)".
Proof.
  intros tree t n. split; [vm_compute; reflexivity|].
  eexists _, _. split; [vm_compute; reflexivity|].
  split; [reflexivity|]. split; [reflexivity | discriminate].
Qed.

(** ** The timeout guard *)

(** C6. For every unit of work and budget the guard returns a value and
    never raises. When the work returns within the budget the guard
    returns that value; when the work raises within the budget the guard
    returns a degraded result whose error is the text of the exception,
    marked [partial: True]; when the budget elapses first (the work ends
    later, or never) the guard returns a degraded result whose error is
    the timeout message, marked [partial: True]. *)
Theorem C6_timeout_guard_contract
    (E : Run.env) (seconds : Z) (w : OptimizedAnalyzer.work) :
  (exists v, OptimizedAnalyzer.timeout_decorator E seconds w = Py.Ok v) /\
  (forall elapsed v,
     w = OptimizedAnalyzer.Finishes elapsed (Py.Ok v) -> elapsed < seconds ->
     OptimizedAnalyzer.timeout_decorator E seconds w = Py.Ok v) /\
  (forall elapsed e,
     w = OptimizedAnalyzer.Finishes elapsed (Py.Raise e) -> elapsed < seconds ->
     OptimizedAnalyzer.timeout_decorator E seconds w =
       Py.Ok (Py.PDict [("error", Py.PStr (Py.str_exn e)); ("partial", Py.PBool true)])) /\
  (w = OptimizedAnalyzer.Hangs \/
   (exists elapsed outcome,
      w = OptimizedAnalyzer.Finishes elapsed outcome /\ seconds < elapsed) ->
   OptimizedAnalyzer.timeout_decorator E seconds w =
     Py.Ok (Py.PDict
              [("error",
                Py.PStr ("Analysis timeout after " ++
                         Run.py_str E (Py.PInt seconds) ++ " seconds"));
               ("partial", Py.PBool true)])).
Proof.
  unfold OptimizedAnalyzer.timeout_decorator, OptimizedAnalyzer.after_join.
  split; [|split; [|split]].
  - destruct w as [elapsed [v|e]|]; simpl;
      try destruct (elapsed <? seconds); simpl; eauto.
  - intros elapsed v -> Hlt.
    destruct (Z.ltb_spec elapsed seconds); [reflexivity | lia].
  - intros elapsed e -> Hlt.
    destruct (Z.ltb_spec elapsed seconds); [reflexivity | lia].
  - intros [->|(elapsed & outcome & -> & Hlt)]; [reflexivity|].
    destruct (Z.ltb_spec elapsed seconds); [lia | reflexivity].
Qed.

(** An instance of C6 with a budget of 5: work raising after 2 units, and
    work returning after 9 units. *)
Lemma C6_timeout_guard_contract_witness :
  2 < 5 /\ 5 < 9 /\
  OptimizedAnalyzer.timeout_decorator Examples.degraded_env 5
    (OptimizedAnalyzer.Finishes 2 (Py.Raise (Py.ValueError "bad"))) =
    Py.Ok (Py.PDict [("error", Py.PStr "bad"); ("partial", Py.PBool true)]) /\
  exists v,
    OptimizedAnalyzer.timeout_decorator Examples.degraded_env 5
      (OptimizedAnalyzer.Finishes 9 (Py.Ok (Py.PInt 1))) = Py.Ok v /\
    Py.truthy v = true.
Proof.
  split; [lia|]. split; [lia|]. split.
  - apply (proj1 (proj2 (proj2 (C6_timeout_guard_contract Examples.degraded_env 5
             (OptimizedAnalyzer.Finishes 2 (Py.Raise (Py.ValueError "bad")))))) 2
             (Py.ValueError "bad") eq_refl).
    lia.
  - eexists. split.
    + apply (proj2 (proj2 (proj2 (C6_timeout_guard_contract Examples.degraded_env 5
               (OptimizedAnalyzer.Finishes 9 (Py.Ok (Py.PInt 1))))))).
      right. exists 9, (Py.Ok (Py.PInt 1)). split; [reflexivity | lia].
    + reflexivity.
Defined.

(** ** The report assembler *)

Section RunFacts.
Import Py Run.

Lemma bind_ok {A B : Type} (m : M A) (k : A -> M B) w r w' :
  Run.bind m k w = (Ok r, w') ->
  exists a w1, m w = (Ok a, w1) /\ k a w1 = (Ok r, w').
Proof.
  unfold Run.bind. destruct (m w) as [[a|e] w1]; [eauto | discriminate].
Qed.

Lemma pbind_ok {A B : Type} (x : result A) (k : A -> result B) r :
  Py.bind x k = Ok r -> exists a, x = Ok a /\ k a = Ok r.
Proof. destruct x as [a|e]; simpl; [eauto | discriminate]. Qed.

Lemma bind_step {A B : Type} (m : M A) (k : A -> M B) w a w1 :
  m w = (Ok a, w1) -> Run.bind m k w = k a w1.
Proof. unfold Run.bind. now intros ->. Qed.

Lemma ret_ok {A : Type} (a r : A) w w' :
  ret a w = (Ok r, w') -> a = r /\ w = w'.
Proof. unfold ret. now intros [= -> ->]. Qed.

Lemma lift_ok {A : Type} (x : result A) (r : A) w w' :
  lift x w = (Ok r, w') -> x = Ok r /\ w = w'.
Proof. unfold lift. now intros [= -> ->]. Qed.

(** a computation followed by one that always raises, raises *)
Lemma bind_raises {A B : Type} (m : M A) (k : A -> M B) w :
  (forall a w1, ReportSpec.raises (k a w1)) -> ReportSpec.raises (Run.bind m k w).
Proof.
  intros Hk. unfold Run.bind. destruct (m w) as [[a|e] w1]; [apply Hk|].
  now exists e.
Qed.

Lemma raises_lift_bind {A B : Type} (x : result A) (k : A -> M B) w e :
  x = Raise e -> ReportSpec.raises (Run.bind (lift x) k w).
Proof. intros ->. now exists e. Qed.
End RunFacts.

(** invert one [bind] of a hypothesis [H : (x <- m ;; k) w = (Ok r, w')] *)
Ltac invert_bind H :=
  let a := fresh "a" in
  let w1 := fresh "w" in
  let Hm := fresh "Hm" in
  apply bind_ok in H; destruct H as (a & w1 & Hm & H).

(** the same, naming what it introduces *)
Ltac invert_bind_as H a w1 Hm :=
  apply bind_ok in H; destruct H as (a & w1 & Hm & H).

(** invert one bind of a hypothesis [H : (x <~ r ;; k) = Ok v] *)
Ltac invert_pbind H :=
  let a := fresh "a" in
  let Hm := fresh "Hm" in
  apply pbind_ok in H; destruct H as (a & Hm & H).

(** turn [H : map fst d = k1 :: ... :: kn :: nil] into an explicit [d] *)
Ltac explode_dict d H :=
  lazymatch type of H with
  | map fst d = _ :: _ =>
      let k := fresh "k" in
      let v := fresh "v" in
      let Hk := fresh "Hk" in
      destruct d as [|[k v] d]; [discriminate H|];
      cbn [map fst] in H; injection H as Hk H; subst k; explode_dict d H
  | map fst d = [] =>
      destruct d; [clear H | discriminate H]
  end.

Section SectionKeys.
Import Py Run DeepAnalyzer RepoProcessor ReportSpec.

(** [_process_activity] returns its nine keys whenever it returns. *)
Lemma process_activity_keys E commits issues prs releases w base w' :
  _process_activity E commits issues prs releases w = (Ok base, w') ->
  dict_keys base =
    ["recent_commit_patterns"; "commit_frequency_per_day"; "release_cadence";
     "open_issues_count"; "open_pull_requests"; "pull_request_velocity";
     "contributor_activity"; "breaking_changes"; "latest_release"].
Proof.
  unfold _process_activity. intros H.
  do 13 invert_bind H.
  apply ret_ok in H. destruct H as [<- _]. reflexivity.
Qed.

(** [_process_activity_deep] adds two keys to them, and up to three more
    that depend on the deep activity data. *)
Lemma process_activity_deep_keys E commits issues prs releases a w section w' :
  _process_activity_deep E commits issues prs releases a w = (Ok section, w') ->
  dict_keys section = (activity_base_keys ++ activity_optional_keys a)%list.
Proof.
  unfold _process_activity_deep. intros H.
  invert_bind_as H base wb Hbase. apply process_activity_keys in Hbase.
  unfold dict_keys in Hbase. explode_dict base Hbase.
  unfold activity_optional_keys.
  invert_bind_as H base1 w1 H1.
  invert_bind_as H base2 w2 H2.
  do 3 invert_bind H. apply ret_ok in H. destruct H as [<- _].
  destruct (truthy (peak_hours a));
    [invert_bind H1|]; apply ret_ok in H1; destruct H1 as [<- _];
    (destruct (truthy (peak_days a));
       [invert_bind H2|]; apply ret_ok in H2; destruct H2 as [<- _];
       destruct (truthy (contributor_distribution a)); reflexivity).
Qed.

Lemma process_metadata_keys E repo_info languages contributors d :
  _process_metadata E repo_info languages contributors = Ok d ->
  dict_keys d = metadata_keys.
Proof.
  unfold _process_metadata. intros H.
  do 14 invert_pbind H. injection H as <-. reflexivity.
Qed.

Lemma process_architecture_keys E repo_info package_json requirements_txt d :
  _process_architecture E repo_info package_json requirements_txt = Ok d ->
  dict_keys d =
    ["entry_points"; "directory_structure"; "core_dependencies"; "dev_dependencies";
     "build_system"; "deployment_pipeline"].
Proof.
  unfold _process_architecture. intros H.
  invert_pbind H. destruct a as [[entry_points core] dev].
  do 2 invert_pbind H. injection H as <-. reflexivity.
Qed.

Lemma process_architecture_deep_keys E repo_info package_json requirements_txt tree deps d :
  _process_architecture_deep E repo_info package_json requirements_txt tree deps = Ok d ->
  dict_keys d = (architecture_base_keys ++ architecture_optional_keys tree)%list.
Proof.
  unfold _process_architecture_deep. intros H.
  invert_pbind H. apply process_architecture_keys in Hm.
  unfold dict_keys in Hm. explode_dict a Hm.
  invert_pbind H. unfold architecture_optional_keys.
  assert (Hkeys : dict_keys a = architecture_base_keys).
  { destruct (directory_structure tree) as [|entry rest].
    - injection Hm as <-. reflexivity.
    - invert_pbind Hm. injection Hm as <-. reflexivity. }
  clear Hm. unfold dict_keys, architecture_base_keys in Hkeys. explode_dict a Hkeys.
  destruct (file_types tree) as [|c counts].
  - injection H as <-. destruct (package_managers deps); reflexivity.
  - invert_pbind H. injection H as <-. destruct (package_managers deps); reflexivity.
Qed.

Lemma process_quality_metrics_keys E repo_info workflows d :
  _process_quality_metrics E repo_info workflows = Ok d ->
  dict_keys d =
    ["test_coverage_percentage"; "testing_framework"; "linting_standards";
     "ci_cd_pipeline_status"; "automation_scope"; "security_vulnerabilities";
     "recent_workflow_results"].
Proof.
  unfold _process_quality_metrics. intros H.
  do 4 invert_pbind H. injection H as <-. reflexivity.
Qed.

Lemma process_quality_metrics_deep_keys E repo_info workflows q tree d :
  _process_quality_metrics_deep E repo_info workflows q tree = Ok d ->
  dict_keys d = quality_keys.
Proof.
  unfold _process_quality_metrics_deep. intros H.
  invert_pbind H. apply process_quality_metrics_keys in Hm.
  unfold dict_keys in Hm. explode_dict a Hm.
  do 2 invert_pbind H. injection H as <-. reflexivity.
Qed.

Lemma process_documentation_keys E readme repo_info d :
  _process_documentation E readme repo_info = Ok d ->
  dict_keys d = documentation_keys.
Proof.
  unfold _process_documentation. intros H.
  invert_pbind H. destruct a as [summary steps].
  invert_pbind H. injection H as <-. reflexivity.
Qed.

Lemma process_technical_debt_keys E repo_info w d w' :
  _process_technical_debt E repo_info w = (Ok d, w') ->
  dict_keys d = debt_base_keys.
Proof.
  unfold _process_technical_debt. intros H.
  do 6 invert_bind H. apply ret_ok in H. destruct H as [<- _]. reflexivity.
Qed.

Lemma process_technical_debt_deep_keys E repo_info languages tree deps q sec w d w' :
  _process_technical_debt_deep E repo_info languages tree deps q sec w = (Ok d, w') ->
  dict_keys d =
    (debt_base_keys ++
     match security_features sec with [] => [] | _ => ["security_features"] end)%list.
Proof.
  unfold _process_technical_debt_deep. intros H.
  invert_bind_as H base wb Hbase. apply process_technical_debt_keys in Hbase.
  unfold dict_keys, debt_base_keys in Hbase. explode_dict base Hbase.
  do 3 invert_bind H. apply ret_ok in H. destruct H as [<- _].
  destruct (security_features sec); reflexivity.
Qed.

(** The security analysis always lists at least one feature. *)
Lemma analyze_security_posture_features deps q sec :
  analyze_security_posture deps q = Ok sec -> security_features sec <> [].
Proof.
  unfold analyze_security_posture. intros H. invert_pbind H. injection H as <-.
  simpl. destruct (_ ++ _)%list; discriminate.
Qed.
End SectionKeys.

Section AssemblerFacts.
Import Py Run GitHubAnalyzer DeepAnalyzer CachePy RepoProcessor ReportSpec.

(** A [get] that returns a true value was a hit on an unexpired entry;
    it made no request and left the entries as they were. *)
Lemma cache_get_truthy E key w v w' :
  cache_get E key w = (Ok v, w') -> truthy v = true ->
  exists e,
    dict_get key (RepositoryCache._cache (cache w)) = Some e /\
    clock E (clock_reads w) < RepositoryCache.expires_at e /\
    RepositoryCache.value e = v /\
    RepositoryCache._cache (cache w') = RepositoryCache._cache (cache w) /\
    api_calls w' = api_calls w.
Proof.
  unfold cache_get, RepositoryCache.get. intros H Hv.
  destruct (dict_get key (RepositoryCache._cache (cache w))) as [e|] eqn:Hget.
  - destruct (Z.ltb_spec (clock E (clock_reads w)) (RepositoryCache.expires_at e)).
    + injection H as <- <-. exists e. simpl. auto.
    + simpl in H.
      destruct (dict_del key (RepositoryCache._access_times (cache w)));
        simpl in H; [|discriminate H].
      injection H as Hv' _. subst v. discriminate Hv.
  - injection H as Hv' _. subst v. discriminate Hv.
Qed.

Lemma cache_get_hit E key w e :
  dict_get key (RepositoryCache._cache (cache w)) = Some e ->
  clock E (clock_reads w) < RepositoryCache.expires_at e ->
  exists w',
    cache_get E key w = (Ok (RepositoryCache.value e), w') /\
    api_calls w' = api_calls w /\
    RepositoryCache.hits (cache w') = RepositoryCache.hits (cache w) + 1.
Proof.
  intros Hget Hlt. unfold cache_get, RepositoryCache.get. rewrite Hget.
  destruct (Z.ltb_spec (clock E (clock_reads w)) (RepositoryCache.expires_at e));
    [|lia].
  eexists. split; [reflexivity|]. simpl. auto.
Qed.

(** A [set] that returns has stored the entry; it made no request. *)
Lemma cache_set_ok E key v ttl w u w' :
  cache_set E key v ttl w = (Ok u, w') ->
  exists e,
    dict_get key (RepositoryCache._cache (cache w')) = Some e /\
    RepositoryCache.value e = v /\
    RepositoryCache.expires_at e =
      clock E (clock_reads w) + RepositoryCache.ttl_or_default ttl (cache w) /\
    api_calls w' = api_calls w.
Proof.
  unfold cache_set, RepositoryCache.set. intros H.
  destruct (Py.dict_len (RepositoryCache._cache (cache w)) >=?
            RepositoryCache.max_size (cache w)).
  - unfold RepositoryCache._evict_oldest in H.
    destruct (min_key (RepositoryCache._access_times (cache w))) as [victim|].
    + destruct (dict_del victim (RepositoryCache._cache (cache w))) as [d|x];
        [|discriminate].
      simpl in H.
      destruct (dict_del victim (RepositoryCache._access_times (cache w))) as [a|x];
        [|discriminate].
      injection H as _ <-. simpl. rewrite dict_get_set_eq. eexists.
      split; [reflexivity|]. simpl. auto.
    + injection H as _ <-. simpl. rewrite dict_get_set_eq. eexists.
      split; [reflexivity|]. simpl. auto.
  - injection H as _ <-. simpl. rewrite dict_get_set_eq. eexists.
    split; [reflexivity|]. simpl. auto.
Qed.

(** What a returning [build_analysis] has done: the report has the fresh
    shape and sits in the cache under the repository's key. *)
Lemma build_analysis_ok E S owner repo w r w' :
  build_analysis E S owner repo w = (Ok r, w') ->
  fresh_report E owner repo r /\ truthy r = true /\
  exists e,
    dict_get (analysis_key owner repo) (RepositoryCache._cache (cache w')) = Some e /\
    RepositoryCache.value e = r.
Proof.
  unfold build_analysis. intros H.
  do 11 invert_bind H.
  invert_bind_as H enhanced wq Hq.
  invert_bind_as H tree wt Htree.
  do 2 invert_bind H.
  invert_bind_as H deep_activity wa Hact.
  apply lift_ok in Hact. destruct Hact as [Hact _].
  invert_bind_as H sec wsec Hsec.
  apply lift_ok in Hsec. destruct Hsec as [Hsec _].
  apply analyze_security_posture_features in Hsec.
  invert_bind_as H metadata wm Hmeta.
  apply lift_ok in Hmeta. destruct Hmeta as [Hmeta _].
  apply process_metadata_keys in Hmeta.
  invert_bind_as H architecture war Harch.
  apply lift_ok in Harch. destruct Harch as [Harch _].
  apply process_architecture_deep_keys in Harch.
  invert_bind_as H quality_metrics wqm Hqual.
  apply lift_ok in Hqual. destruct Hqual as [Hqual _].
  apply process_quality_metrics_deep_keys in Hqual.
  invert_bind_as H documentation wd Hdoc.
  apply lift_ok in Hdoc. destruct Hdoc as [Hdoc _].
  apply process_documentation_keys in Hdoc.
  invert_bind_as H section ws Hkeys.
  apply process_activity_deep_keys in Hkeys.
  invert_bind_as H debt wdebt Hdebt.
  apply process_technical_debt_deep_keys in Hdebt.
  do 2 invert_bind H.
  invert_bind_as H u wc Hset.
  apply ret_ok in H. destruct H as [<- <-].
  unfold cache_repository_analysis in Hset.
  apply cache_set_ok in Hset. destruct Hset as (e & Hget & Hval & _ & _).
  split; [|split].
  - eexists _, tree, deep_activity, enhanced, _, _, _, _, _.
    split; [reflexivity|]. split; [exact Htree|]. split; [exact Hact|].
    split; [destruct (truthy enhanced); reflexivity|].
    unfold section_keys.
    repeat split; eexists;
      (split; [destruct (truthy enhanced); reflexivity|]); try eassumption.
    rewrite Hdebt. destruct (security_features sec); [contradiction | reflexivity].
  - destruct (truthy enhanced); reflexivity.
  - exists e. split; assumption.
Qed.
End AssemblerFacts.

Section AssemblerRaises.
Import Py Run GitHubAnalyzer DeepAnalyzer CachePy RepoProcessor ReportSpec.

(** The activity analysis cannot slice a dictionary: a non-empty
    dictionary in place of the commit list makes it raise. *)
Lemma analyze_commit_activity_dict E k v kv issues prs :
  analyze_commit_activity E (PDict ((k, v) :: kv)) issues prs =
    Raise (TypeError "unhashable type: 'slice'").
Proof. reflexivity. Qed.

(** Hence [build_analysis] raises whenever the provider answers the
    commits request with a non-empty dictionary, such as the degraded
    marker, whatever the other stages do. *)
Lemma build_analysis_degraded_commits E S owner repo w :
  (forall n, exists k v kv,
     respond E n (repo_endpoint owner repo ++ "/commits") = Ok (PDict ((k, v) :: kv))) ->
  raises (build_analysis E S owner repo w).
Proof.
  intros Hdeg. unfold build_analysis.
  do 3 (apply bind_raises; intros ? ?).
  unfold get_commits at 1.
  match goal with
  | |- raises (Run.bind (_make_request E ?ep) ?k ?w0) =>
      destruct (Hdeg (api_calls w0)) as (k0 & v0 & kv0 & Hresp);
      rewrite (bind_step (_make_request E ep) k w0 (PDict ((k0, v0) :: kv0))
                 {| cache := cache w0; api_calls := Datatypes.S (api_calls w0);
                    clock_reads := clock_reads w0 |});
      [|unfold _make_request; now rewrite Hresp]
  end.
  do 11 (apply bind_raises; intros ? ?).
  eapply raises_lift_bind. apply analyze_commit_activity_dict.
Qed.

Lemma reraised_raises {A : Type} (p : result A * world) :
  raises p -> raises (reraised p).
Proof.
  intros [e He]. destruct p as [[a|x] w]; simpl in *; [discriminate|].
  unfold raises. simpl. eauto.
Qed.

(** [analyze_repository], stage by stage. *)
Lemma analyze_repository_unfold E S url w :
  analyze_repository E S url w =
    match parse_repo_url E url with
    | Raise e => reraised (@Raise pyval e, w)
    | Ok (owner, repo) =>
        match get_cached_analysis E owner repo w with
        | (Ok cached, w1) =>
            if truthy cached then (Ok cached, w1)
            else reraised (build_analysis E S owner repo w1)
        | (Raise e, w1) => reraised (@Raise pyval e, w1)
        end
    end.
Proof.
  unfold analyze_repository, try_except, Run.bind, lift, raise, reraised.
  destruct (parse_repo_url E url) as [[owner repo]|e]; [|reflexivity].
  destruct (get_cached_analysis E owner repo w) as [[cached|e] w1]; [|reflexivity].
  destruct (truthy cached); [reflexivity|].
  destruct (build_analysis E S owner repo w1) as [[r|e] w2]; reflexivity.
Qed.

Lemma get_cached_absent E owner repo w :
  dict_get (analysis_key owner repo) (RepositoryCache._cache (cache w)) = None ->
  get_cached_analysis E owner repo w =
    (Ok PNone,
     {| cache := RepositoryCache.with_misses (cache w)
                   (RepositoryCache.misses (cache w) + 1);
        api_calls := api_calls w; clock_reads := (clock_reads w + 0)%nat |}).
Proof.
  intros Hget. unfold get_cached_analysis, cache_get, get_reads, RepositoryCache.get.
  now rewrite Hget.
Qed.
End AssemblerRaises.

(** With nothing cached for the repository and a non-empty dictionary, such
    as the degraded marker, in place of the commit list, the call raises,
    whatever the other stages do. *)
Lemma analyze_repository_degraded_commits
    (E : Run.env) (S : RepoProcessor.stages) (url : string) (w : Run.world)
    (owner repo : string) :
  GitHubAnalyzer.parse_repo_url E url = Py.Ok (owner, repo) ->
  Py.dict_get (CachePy.analysis_key owner repo)
    (RepositoryCache._cache (Run.cache w)) = None ->
  (forall n, exists k v kv,
     Run.respond E n (GitHubAnalyzer.repo_endpoint owner repo ++ "/commits") =
       Py.Ok (Py.PDict ((k, v) :: kv))) ->
  ReportSpec.raises (RepoProcessor.analyze_repository E S url w).
Proof.
  intros Hp Hnone Hdeg.
  rewrite analyze_repository_unfold, Hp, (get_cached_absent E owner repo w Hnone).
  simpl Py.truthy. cbv iota.
  apply reraised_raises. now apply build_analysis_degraded_commits.
Qed.







(** C3. When a call of [analyze] has returned a report, the cache holds
    that report under the repository's key; a second call that reads the
    clock before the entry expires returns the same report from the cache,
    makes no request to the provider, and counts one more hit. *)
Theorem C3_cached_idempotence
    (E : Run.env) (S : RepoProcessor.stages) (url : string) (w : Run.world)
    (r : Py.pyval) (w1 : Run.world) :
  RepoProcessor.analyze_repository E S url w = (Py.Ok r, w1) ->
  exists owner repo e,
    GitHubAnalyzer.parse_repo_url E url = Py.Ok (owner, repo) /\
    Py.dict_get (CachePy.analysis_key owner repo)
      (RepositoryCache._cache (Run.cache w1)) = Some e /\
    RepositoryCache.value e = r /\
    (Run.clock E (Run.clock_reads w1) < RepositoryCache.expires_at e ->
     exists w2,
       RepoProcessor.analyze_repository E S url w1 = (Py.Ok r, w2) /\
       Run.api_calls w2 = Run.api_calls w1 /\
       RepositoryCache.hits (Run.cache w2) = RepositoryCache.hits (Run.cache w1) + 1).
Proof.
  intros H. rewrite analyze_repository_unfold in H.
  destruct (GitHubAnalyzer.parse_repo_url E url) as [[owner repo]|x] eqn:Hp;
    [|discriminate].
  destruct (CachePy.get_cached_analysis E owner repo w) as [[cached|x] wa] eqn:Hc;
    [|discriminate].
  assert (Hentry : exists e,
            Py.dict_get (CachePy.analysis_key owner repo)
              (RepositoryCache._cache (Run.cache w1)) = Some e /\
            RepositoryCache.value e = r /\ Py.truthy r = true).
  { destruct (Py.truthy cached) eqn:Ht.
    - injection H as <- <-.
      destruct (cache_get_truthy E _ w cached wa Hc Ht) as (e & Hget & _ & Hval & Hsame & _).
      exists e. rewrite Hsame. auto.
    - destruct (RepoProcessor.build_analysis E S owner repo wa) as [[r'|x] w2] eqn:Hb;
        simpl in H; [|discriminate].
      injection H as <- <-.
      destruct (build_analysis_ok E S owner repo wa r' w2 Hb) as (_ & Htr & e & Hget & Hval).
      exists e. auto. }
  destruct Hentry as (e & Hget & Hval & Htr).
  exists owner, repo, e. split; [reflexivity|]. split; [exact Hget|].
  split; [exact Hval|]. intros Hfresh.
  destruct (cache_get_hit E _ w1 e Hget Hfresh) as (w2 & Hhit & Hcalls & Hhits).
  exists w2. split; [|split; assumption].
  rewrite analyze_repository_unfold, Hp.
  unfold CachePy.get_cached_analysis. rewrite Hhit, Hval, Htr. reflexivity.
Qed.

(** An instance of C3: two calls in succession for a repository with one
    commit. *)
Lemma C3_cached_idempotence_witness :
  exists r w1 w2,
    RepoProcessor.analyze_repository Examples.one_commit_env Examples.sample_stages
      "octocat/Hello-World" Examples.empty_world = (Py.Ok r, w1) /\
    RepoProcessor.analyze_repository Examples.one_commit_env Examples.sample_stages
      "octocat/Hello-World" w1 = (Py.Ok r, w2) /\
    Run.api_calls w2 = Run.api_calls w1.
Proof.
  destruct (RepoProcessor.analyze_repository Examples.one_commit_env
              Examples.sample_stages "octocat/Hello-World" Examples.empty_world)
    as [[r|x] w1] eqn:Hrun; [|vm_compute in Hrun; discriminate Hrun].
  destruct (C3_cached_idempotence Examples.one_commit_env Examples.sample_stages
              "octocat/Hello-World" Examples.empty_world r w1 Hrun)
    as (owner & repo & e & Hp & Hget & Hval & Hagain).
  exists r, w1.
  destruct Hagain as (w2 & Hsecond & Hcalls & _).
  - vm_compute in Hrun. injection Hrun as <- <-.
    vm_compute in Hp. injection Hp as <- <-.
    vm_compute in Hget. injection Hget as <-. vm_compute. reflexivity.
  - exists w2. split; [reflexivity|]. split; assumption.
Defined.

(** * Further properties *)

(** ** The cache engine *)

(** X1. On a well-formed cache every [get] adds exactly one to
    [hits + misses] (one to [hits] when it returns the stored entry, one to
    [misses] otherwise), and [set] changes neither counter: the two
    counters together count the lookups since the last [clear]. *)
Theorem counters_count_lookups
    (c : RepositoryCache.t) (key : string) (now now' : Z) :
  RepositoryCache.wf c ->
  let c' := snd (RepositoryCache.get now now' key c) in
  RepositoryCache.hits c' + RepositoryCache.misses c' =
    RepositoryCache.hits c + RepositoryCache.misses c + 1 /\
  (RepositoryCache.hits c' = RepositoryCache.hits c + 1 <->
   exists e, Py.dict_get key (RepositoryCache._cache c) = Some e /\
             now < RepositoryCache.expires_at e) /\
  (forall t1 t2 t3 k v ttl,
     RepositoryCache.hits (snd (RepositoryCache.set t1 t2 t3 k v ttl c)) =
       RepositoryCache.hits c /\
     RepositoryCache.misses (snd (RepositoryCache.set t1 t2 t3 k v ttl c)) =
       RepositoryCache.misses c).
Proof.
  intros Hwf c'. unfold c'. rewrite get_spec by assumption.
  split; [|split].
  - destruct (Py.dict_get key (RepositoryCache._cache c)) as [e|]; simpl; [|lia].
    destruct (now <? RepositoryCache.expires_at e); simpl; lia.
  - destruct (Py.dict_get key (RepositoryCache._cache c)) as [e|]; simpl.
    + destruct (Z.ltb_spec now (RepositoryCache.expires_at e)); simpl.
      * split; [intros _; now exists e | reflexivity].
      * split; [lia | intros (e' & [= <-] & Hlt); lia].
    + split; [lia | intros (e' & [=] & _)].
  - intros t1 t2 t3 k v ttl. rewrite set_spec by assumption. simpl.
    destruct (Py.dict_len (RepositoryCache._cache c) >=? RepositoryCache.max_size c);
      [destruct (Py.min_key (RepositoryCache._access_times c))|]; simpl; auto.
Qed.

Lemma counters_count_lookups_witness :
  RepositoryCache.wf (RepositoryCache.init 100 900) /\
  RepositoryCache.misses
    (snd (RepositoryCache.get 5 5 "k" (RepositoryCache.init 100 900))) = 1.
Proof.
  split; [apply wf_init|].
  pose proof (proj1 (counters_count_lookups (RepositoryCache.init 100 900) "k" 5 5
                       (wf_init 100 900))) as H.
  simpl in H. simpl. lia.
Defined.

(** X2. Below capacity [set] touches nothing but its own key: every other
    key keeps its entry and its access time, and the entry count grows by
    one for a new key and stays the same for a key that is overwritten. *)
Theorem set_below_capacity_frame
    (c : RepositoryCache.t) (key : string) (v : Py.pyval) (ttl : option Z)
    (t1 t2 t3 : Z) :
  RepositoryCache.wf c ->
  Py.dict_len (RepositoryCache._cache c) < RepositoryCache.max_size c ->
  let c' := snd (RepositoryCache.set t1 t2 t3 key v ttl c) in
  (forall k, k <> key ->
     Py.dict_get k (RepositoryCache._cache c') =
       Py.dict_get k (RepositoryCache._cache c) /\
     Py.dict_get k (RepositoryCache._access_times c') =
       Py.dict_get k (RepositoryCache._access_times c)) /\
  Py.dict_len (RepositoryCache._cache c') =
    Py.dict_len (RepositoryCache._cache c) +
    (if Py.dict_in key (RepositoryCache._cache c) then 0 else 1).
Proof.
  intros Hwf Hlt c'. unfold c'. rewrite set_spec by assumption.
  destruct (Z.geb_spec (Py.dict_len (RepositoryCache._cache c))
              (RepositoryCache.max_size c)) as [Hge|_]; [lia|].
  simpl. split.
  - intros k Hk. rewrite !dict_get_set_ne by congruence. auto.
  - rewrite dict_len_set. destruct (Py.dict_in key (RepositoryCache._cache c)); lia.
Qed.

Lemma set_below_capacity_frame_witness :
  let c := snd (RepositoryCache.set 1 1 1 "a" (Py.PInt 1) None
                  (RepositoryCache.init 2 900)) in
  RepositoryCache.wf c /\
  Py.dict_len (RepositoryCache._cache c) < RepositoryCache.max_size c /\
  Py.dict_len
    (RepositoryCache._cache (snd (RepositoryCache.set 2 2 2 "a" (Py.PInt 7) None c))) = 1.
Proof.
  intros c.
  assert (Hwf : RepositoryCache.wf c) by (apply wf_set, wf_init).
  assert (Hlt : Py.dict_len (RepositoryCache._cache c) < RepositoryCache.max_size c)
    by (vm_compute; reflexivity).
  split; [exact Hwf|]. split; [exact Hlt|].
  rewrite (proj2 (set_below_capacity_frame c "a" (Py.PInt 7) None 2 2 2 Hwf Hlt)).
  reflexivity.
Defined.

(** X3. A [get] touches nothing but its own key: every other key keeps its
    entry and its access time (an expired entry of another key is not
    purged), the entry count never grows, and the capacity and default TTL
    stay as they are. *)
Theorem get_frame
    (c : RepositoryCache.t) (key : string) (now now' : Z) :
  RepositoryCache.wf c ->
  let c' := snd (RepositoryCache.get now now' key c) in
  (forall k, k <> key ->
     Py.dict_get k (RepositoryCache._cache c') =
       Py.dict_get k (RepositoryCache._cache c) /\
     Py.dict_get k (RepositoryCache._access_times c') =
       Py.dict_get k (RepositoryCache._access_times c)) /\
  Py.dict_len (RepositoryCache._cache c') <= Py.dict_len (RepositoryCache._cache c) /\
  RepositoryCache.max_size c' = RepositoryCache.max_size c /\
  RepositoryCache.default_ttl c' = RepositoryCache.default_ttl c.
Proof.
  intros Hwf c'. unfold c'. rewrite get_spec by assumption.
  destruct (Py.dict_get key (RepositoryCache._cache c)) as [e|] eqn:Hget; simpl.
  - destruct (now <? RepositoryCache.expires_at e); simpl.
    + split; [|repeat split; lia].
      intros k Hk. rewrite dict_get_set_ne by congruence. auto.
    + split; [|split; [|split; reflexivity]].
      * intros k Hk. rewrite !dict_get_remove_ne by congruence. auto.
      * rewrite dict_len_remove; [lia | now apply dict_get_in with e].
  - repeat split; auto; lia.
Qed.

Lemma get_frame_witness :
  let c := snd (RepositoryCache.set 1 1 1 "a" (Py.PInt 1) (Some 5)
                  (RepositoryCache.init 2 900)) in
  RepositoryCache.wf c /\
  Py.dict_len (RepositoryCache._cache (snd (RepositoryCache.get 9 9 "a" c))) <= 1.
Proof.
  intros c.
  assert (Hwf : RepositoryCache.wf c) by (apply wf_set, wf_init).
  split; [exact Hwf|].
  apply (proj1 (proj2 (get_frame c "a" 9 9 Hwf))).
Defined.

(** ** The cache's module-level helpers *)

(** X4. Invalidating one repository's analysis empties the cache for every
    repository: whatever was cached, the next lookup of any repository's
    analysis finds nothing, is counted as the first miss of fresh
    statistics, and reads no clock. *)
Theorem invalidate_drops_every_repository
    (E : Run.env) (owner repo owner' repo' : string) (w : Run.world) :
  exists w',
    Run.bind (CachePy.invalidate_repository_cache owner repo)
             (fun _ => CachePy.get_cached_analysis E owner' repo') w
      = (Py.Ok Py.PNone, w') /\
    RepositoryCache._cache (Run.cache w') = [] /\
    RepositoryCache._access_times (Run.cache w') = [] /\
    RepositoryCache.hits (Run.cache w') = 0 /\
    RepositoryCache.misses (Run.cache w') = 1 /\
    Run.clock_reads w' = Run.clock_reads w /\
    Run.api_calls w' = Run.api_calls w.
Proof.
  eexists. split.
  - unfold Run.bind, CachePy.invalidate_repository_cache. cbv beta iota.
    rewrite get_cached_absent by reflexivity. reflexivity.
  - simpl. repeat split; lia.
Qed.

Section CacheResult.
Import Py Run CachePy.

Variable E : env.
Variable ttl : option Z.
Variable name : string.
Variable args : list pyval.

(** X5. The memoising decorator never stores a result that reports an error:
    when nothing is cached under the call's key and the wrapped function
    returns a dictionary whose ["error"] is true, the decorated call
    returns that dictionary and leaves the cache exactly as the lookup and
    the function left it, so the key is still absent afterwards unless the
    function itself stored it. *)
Theorem cache_result_skips_errors
    (func : M pyval) (w w1 w2 : world) (digest : string) (kv : dict pyval)
    (err : pyval) :
  _generate_key E args = Ok digest ->
  cache_get E (name ++ ":" ++ digest) w = (Ok PNone, w1) ->
  func w1 = (Ok (PDict kv), w2) ->
  dict_get "error" kv = Some err -> truthy err = true ->
  cache_result E ttl name args func w = (Ok (PDict kv), w2).
Proof.
  intros Hkey Hget Hfun Herr Htrue. unfold cache_result, Run.bind, lift.
  rewrite Hkey. cbv beta iota zeta. rewrite Hget. cbn [is_None negb].
  rewrite Hfun. cbn [cacheable]. rewrite Herr, Htrue. reflexivity.
Qed.

(** X6. The decorator serves a stored result without running the function:
    after a decorated call that ran the function and got a result that is
    not [None] and reports no error, a second decorated call with the same
    name and arguments, made before the entry expires, returns the same
    result whatever function it wraps; it makes no request and counts one
    more hit. *)
Theorem cache_result_serves_stored
    (func : M pyval) (w w1 w2 w3 : world) (digest : string) (r : pyval) :
  _generate_key E args = Ok digest ->
  cache_get E (name ++ ":" ++ digest) w = (Ok PNone, w1) ->
  func w1 = (Ok r, w2) ->
  cacheable r = true -> r <> PNone ->
  cache_result E ttl name args func w = (Ok r, w3) ->
  clock E (clock_reads w3) <
    clock E (clock_reads w2) + RepositoryCache.ttl_or_default ttl (cache w2) ->
  exists w4, forall func' : M pyval,
    cache_result E ttl name args func' w3 = (Ok r, w4) /\
    api_calls w4 = api_calls w3 /\
    RepositoryCache.hits (cache w4) = RepositoryCache.hits (cache w3) + 1.
Proof.
  intros Hkey Hget Hfun Hc Hr Hrun Hfresh.
  unfold cache_result, Run.bind, lift in Hrun.
  rewrite Hkey in Hrun. cbv beta iota zeta in Hrun. rewrite Hget in Hrun.
  cbn [is_None negb] in Hrun. rewrite Hfun, Hc in Hrun.
  destruct (cache_set E (name ++ ":" ++ digest) r ttl w2) as [[u|x] ws] eqn:Hset;
    [|discriminate Hrun].
  injection Hrun as <-.
  destruct (cache_set_ok _ _ _ _ _ _ _ Hset) as (e & Hstored & Hval & Hexp & _).
  rewrite <- Hexp in Hfresh.
  destruct (cache_get_hit E _ _ _ Hstored Hfresh) as (w4 & Hhit & Hcalls & Hhits).
  exists w4. intros func'. split; [|auto].
  unfold cache_result, Run.bind, lift. rewrite Hkey. cbv beta iota zeta.
  rewrite Hhit, Hval.
  destruct r; try reflexivity. congruence.
Qed.

End CacheResult.

Lemma cache_result_skips_errors_witness :
  let E := Examples.quiet_env in
  let failing : Run.M Py.pyval :=
    Run.ret (Py.PDict [("error", Py.PStr "boom")]) in
  let w1 := snd (CachePy.cache_get E "f:" Examples.empty_world) in
  CachePy._generate_key E [] = Py.Ok "" /\
  CachePy.cache_get E "f:" Examples.empty_world = (Py.Ok Py.PNone, w1) /\
  CachePy.cache_result E None "f" [] failing Examples.empty_world =
    (Py.Ok (Py.PDict [("error", Py.PStr "boom")]), w1).
Proof.
  intros E failing w1.
  assert (Hkey : CachePy._generate_key E [] = Py.Ok "") by reflexivity.
  assert (Hget : CachePy.cache_get E ("f" ++ ":" ++ "") Examples.empty_world =
                   (Py.Ok Py.PNone, w1)) by reflexivity.
  split; [exact Hkey|]. split; [exact Hget|].
  apply (cache_result_skips_errors E None "f" [] failing Examples.empty_world w1 w1
           "" [("error", Py.PStr "boom")] (Py.PStr "boom") Hkey Hget);
    reflexivity.
Defined.

Lemma cache_result_serves_stored_witness :
  let E := Examples.quiet_env in
  let r := Py.PDict [("stars", Py.PInt 3)] in
  let w1 := snd (CachePy.cache_get E "f:" Examples.empty_world) in
  let w3 := snd (CachePy.cache_result E None "f" [] (Run.ret r) Examples.empty_world) in
  CachePy.cache_result E None "f" [] (Run.ret r) Examples.empty_world = (Py.Ok r, w3) /\
  Run.clock E (Run.clock_reads w3) <
    Run.clock E (Run.clock_reads w1) + RepositoryCache.ttl_or_default None (Run.cache w1) /\
  exists w4, forall func' : Run.M Py.pyval,
    CachePy.cache_result E None "f" [] func' w3 = (Py.Ok r, w4) /\
    Run.api_calls w4 = Run.api_calls w3 /\
    RepositoryCache.hits (Run.cache w4) = RepositoryCache.hits (Run.cache w3) + 1.
Proof.
  intros E r w1 w3.
  assert (Hkey : CachePy._generate_key E [] = Py.Ok "") by reflexivity.
  assert (Hget : CachePy.cache_get E ("f" ++ ":" ++ "") Examples.empty_world =
                   (Py.Ok Py.PNone, w1)) by reflexivity.
  assert (Hfun : Run.ret r w1 = (Py.Ok r, w1)) by reflexivity.
  assert (Hrun : CachePy.cache_result E None "f" [] (Run.ret r) Examples.empty_world =
                   (Py.Ok r, w3)) by reflexivity.
  assert (Hfresh : Run.clock E (Run.clock_reads w3) <
            Run.clock E (Run.clock_reads w1) +
            RepositoryCache.ttl_or_default None (Run.cache w1))
    by (vm_compute; reflexivity).
  split; [exact Hrun|]. split; [exact Hfresh|].
  apply (cache_result_serves_stored E None "f" [] (Run.ret r) Examples.empty_world
           w1 w1 w3 "" r Hkey Hget Hfun); [reflexivity | discriminate | exact Hrun | exact Hfresh].
Defined.

(** ** The provider client *)

Section SplitFacts.
Import PyStr.

Variable sep : ascii.

Lemma prefix_empty (s : string) : String.prefix "" s = true.
Proof. now destruct s. Qed.

Lemma contains_char_cons (a : ascii) (s : string) :
  contains (String sep "") (String a s) =
    (Ascii.eqb a sep || contains (String sep "") s)%bool.
Proof.
  cbn [contains String.prefix].
  destruct (ascii_dec sep a) as [<-|Hne].
  - now rewrite prefix_empty, Ascii.eqb_refl.
  - destruct (Ascii.eqb_spec a sep) as [->|_]; [congruence | reflexivity].
Qed.

Lemma split_on_nonempty (s : string) : split_on sep s <> [].
Proof.
  destruct s as [|a s]; cbn [split_on]; [discriminate|].
  destruct (Ascii.eqb a sep); [discriminate|].
  destruct (split_on sep s); discriminate.
Qed.

(** Splitting at a character that the left part does not contain. *)
Lemma split_on_app (x t : string) :
  contains (String sep "") x = false ->
  split_on sep (x ++ String sep t) = x :: split_on sep t.
Proof.
  induction x as [|a x IH]; intros Hx; cbn [append split_on].
  - now rewrite Ascii.eqb_refl.
  - rewrite contains_char_cons in Hx. apply Bool.orb_false_iff in Hx as [Ha Hx].
    rewrite Ha, IH by assumption. reflexivity.
Qed.

Lemma split_on_single (x : string) :
  contains (String sep "") x = false -> split_on sep x = [x].
Proof.
  induction x as [|a x IH]; intros Hx; cbn [split_on]; [reflexivity|].
  rewrite contains_char_cons in Hx. apply Bool.orb_false_iff in Hx as [Ha Hx].
  rewrite Ha, IH by assumption. reflexivity.
Qed.

Lemma join_cons2 (x y : string) (l : list string) :
  join (String sep "") (x :: y :: l) =
    x ++ String sep "" ++ join (String sep "") (y :: l).
Proof. reflexivity. Qed.

(** [sep.join(s.split(sep)) == s], and no part contains the separator. *)
Lemma split_on_join (s : string) :
  join (String sep "") (split_on sep s) = s /\
  Forall (fun part => contains (String sep "") part = false) (split_on sep s).
Proof.
  induction s as [|a s [IHj IHf]]; cbn [split_on].
  - split; [reflexivity | now repeat constructor].
  - destruct (Ascii.eqb_spec a sep) as [->|Hne].
    + split.
      * cbn [join]. destruct (split_on sep s) eqn:Hs;
          [now apply split_on_nonempty in Hs|].
        now rewrite IHj.
      * constructor; [reflexivity | assumption].
    + destruct (split_on sep s) as [|w ws] eqn:Hs;
        [now apply split_on_nonempty in Hs|].
      pose proof (Forall_inv IHf) as Hw. pose proof (Forall_inv_tail IHf) as Hws.
      cbn beta in Hw. split.
      * destruct ws as [|y l].
        -- cbn [join] in *. now rewrite IHj.
        -- rewrite join_cons2 in *. rewrite <- IHj. reflexivity.
      * constructor; [|assumption]. rewrite contains_char_cons, Hw.
        now destruct (Ascii.eqb_spec a sep).
Qed.

End SplitFacts.

(** X7. A locator that does not start with ["http"] parses exactly when it is
    [owner/repo] with a single ["/"]: it yields the text before and the
    text after that slash, and every other locator raises the invalid-URL
    [ValueError]. Neither part is checked further, so an empty owner or
    repository name is accepted. *)
Theorem parse_repo_url_short_form (E : Run.env) (url : string) :
  PyStr.startswith "http" url = false ->
  (forall owner repo,
     GitHubAnalyzer.parse_repo_url E url = Py.Ok (owner, repo) <->
     url = owner ++ "/" ++ repo /\
     PyStr.contains "/" owner = false /\ PyStr.contains "/" repo = false) /\
  (Py.is_ok (GitHubAnalyzer.parse_repo_url E url) = false ->
   GitHubAnalyzer.parse_repo_url E url =
     Py.Raise (Py.ValueError ("Invalid GitHub repository URL: " ++ url))).
Proof.
  intros Hhttp. unfold GitHubAnalyzer.parse_repo_url. rewrite Hhttp.
  destruct (split_on_join "/" url) as [Hjoin Hparts].
  split.
  - intros owner repo. split.
    + intros H.
      destruct (PyStr.split_on "/" url) as [|a [|b [|c l]]]; try discriminate H.
      injection H as <- <-. cbn [PyStr.join] in Hjoin.
      inversion Hparts as [|? ? Ha Hb]; subst. inversion Hb; subst. auto.
    + intros (-> & Ho & Hr).
      change (owner ++ "/" ++ repo) with (owner ++ String "/" repo).
      rewrite split_on_app, split_on_single by assumption. reflexivity.
  - destruct (PyStr.split_on "/" url) as [|a [|b [|c l]]]; try reflexivity.
    discriminate.
Qed.

Lemma parse_repo_url_short_form_witness :
  PyStr.startswith "http" "/" = false /\
  GitHubAnalyzer.parse_repo_url Examples.quiet_env "/" = Py.Ok ("", "").
Proof.
  split; [reflexivity|].
  apply (proj1 (parse_repo_url_short_form Examples.quiet_env "/" eq_refl)).
  repeat split.
Defined.

Section ClientFacts.
Import Py Run GitHubAnalyzer.

Variable E : env.
Variables owner repo : string.

(** X8. [get_repository_info] never hands the degraded marker on: what it
    returns is a dictionary whose ["error"] is absent or false, after
    exactly one request; and when the provider's answer carries a true
    ["error"], the result is the default structure, named after the
    repository and marked partial. *)
Theorem get_repository_info_hides_errors (w : world) :
  (forall v w',
     get_repository_info E owner repo w = (Ok v, w') ->
     api_calls w' = S (api_calls w) /\
     exists kv, v = PDict kv /\
       truthy (match dict_get "error" kv with Some e => e | None => PNone end)
         = false) /\
  (forall kv err,
     respond E (api_calls w) (repo_endpoint owner repo) = Ok (PDict kv) ->
     dict_get "error" kv = Some err -> truthy err = true ->
     exists v w',
       get_repository_info E owner repo w = (Ok (PDict v), w') /\
       dict_get "name" v = Some (PStr repo) /\
       dict_get "owner" v = Some (PDict [("login", PStr owner)]) /\
       dict_get "partial" v = Some (PBool true) /\
       dict_get "stargazers_count" v = Some (PInt 0) /\
       dict_get "error" v = None).
Proof.
  unfold get_repository_info, _make_request, Run.bind, lift. split.
  - intros v w' H.
    destruct (respond E (api_calls w) (repo_endpoint owner repo)) as [r|x];
      [|discriminate H].
    destruct r as [| | | | |xs|kv]; try discriminate H. cbn [py_get] in H.
    destruct (truthy (match dict_get "error" kv with Some e => e | None => PNone end))
      eqn:Herr; injection H as <- <-.
    + split; [reflexivity|]. eexists. split; [reflexivity|]. reflexivity.
    + split; [reflexivity|]. exists kv. auto.
  - intros kv err Hresp Hget Htrue. rewrite Hresp. cbn [py_get].
    rewrite Hget, Htrue. eexists. eexists. split; [reflexivity|].
    repeat split.
Qed.

Lemma optional_fetchers_return (w : world) :
  Forall (fun fetch : string -> string -> M pyval =>
            exists v w', fetch owner repo w = (Ok v, w') /\
                         api_calls w' = S (api_calls w) /\
                         cache w' = cache w)
         [get_readme E; get_package_json E; get_requirements_txt E;
          get_workflow_runs E; get_releases E].
Proof.
  repeat constructor;
    unfold get_readme, get_package_json, get_requirements_txt, get_workflow_runs,
      get_releases, decode_content, try_except, _make_request, Run.bind, lift, ret;
    repeat match goal with
           | |- context [match ?x with _ => _ end] =>
               match x with
               | context [match _ with _ => _ end] => fail 1
               | _ => destruct x
               end
           end;
    eexists; eexists; (split; [reflexivity|]); split; reflexivity.
Qed.

Lemma get_package_json_returns (w : world) :
  exists v w', get_package_json E owner repo w = (Ok v, w') /\
               api_calls w' = S (api_calls w) /\ cache w' = cache w.
Proof.
  pose proof (optional_fetchers_return w) as H.
  apply Forall_inv_tail in H. exact (Forall_inv H).
Qed.

Lemma get_requirements_txt_returns (w : world) :
  exists v w', get_requirements_txt E owner repo w = (Ok v, w') /\
               api_calls w' = S (api_calls w) /\ cache w' = cache w.
Proof.
  pose proof (optional_fetchers_return w) as H.
  do 2 apply Forall_inv_tail in H. exact (Forall_inv H).
Qed.

End ClientFacts.

(** X9. The optional fetchers absorb every failure: whatever the provider
    does, [get_readme], [get_package_json], [get_requirements_txt],
    [get_workflow_runs] and [get_releases] return a value, never raise,
    and make exactly one request each. *)
Theorem optional_fetchers_never_raise
    (E : Run.env) (owner repo : string) (w : Run.world) :
  Forall (fun fetch : string -> string -> Run.M Py.pyval =>
            exists v w', fetch owner repo w = (Py.Ok v, w') /\
                         Run.api_calls w' = S (Run.api_calls w) /\
                         Run.cache w' = Run.cache w)
         [GitHubAnalyzer.get_readme E; GitHubAnalyzer.get_package_json E;
          GitHubAnalyzer.get_requirements_txt E;
          GitHubAnalyzer.get_workflow_runs E; GitHubAnalyzer.get_releases E].
Proof. apply optional_fetchers_return. Qed.

(** ** The deep analyzer *)

(** case analysis on the test of a conditional of the goal *)
Ltac destruct_if :=
  match goal with
  | |- context [if ?b then _ else _] => destruct b
  end.

(** case analysis on the innermost scrutinee of a [match] of the goal *)
Ltac destruct_match :=
  match goal with
  | |- context [match ?x with _ => _ end] =>
      lazymatch x with
      | context [match _ with _ => _ end] => fail
      | _ => destruct x
      end
  end.

Section TreeFacts.
Import Py PyStr Run GitHubAnalyzer DeepAnalyzer DeepSpec.

Lemma depth_of_nonneg (sep : ascii) (s : string) : 0 <= depth_of sep s.
Proof.
  unfold depth_of. pose proof (split_on_nonempty sep s) as H.
  destruct (split_on sep s); [congruence | cbn [List.length]; lia].
Qed.

Lemma tree_wf_default : tree_wf _default_tree_analysis.
Proof. unfold tree_wf. cbn. repeat split; try lia. constructor. Qed.

Lemma tree_step_wf (t t' : tree_analysis) (item : pyval) :
  tree_wf t -> tree_step t item = Ok t' -> tree_wf t'.
Proof.
  intros (Hf & Hd & Hm & Ht & Hdoc & Hc & Hnames) H. unfold tree_step in H.
  invert_pbind H. invert_pbind H.
  destruct (is_str a0 "blob").
  - destruct a as [| | | |path| |]; try discriminate H. injection H as <-.
    unfold tree_wf. cbn [total_files total_dirs max_depth test_files doc_files config_files].
    pose proof (depth_of_nonneg "/" path).
    repeat split; try lia.
    + destruct_if; [rewrite length_app; cbn [List.length]|]; lia.
    + destruct_if; [rewrite length_app; cbn [List.length]|]; lia.
    + destruct_if; [rewrite length_app; cbn [List.length]|]; lia.
    + match goal with
      | |- context [if ?b then _ else _] => destruct b eqn:Hin
      end; [|assumption].
      change (existsb (String.eqb (last_part "/" path)) config_basenames = true) in Hin.
      apply Forall_app. split; [assumption|]. constructor; [|constructor].
      apply existsb_exists in Hin as (b & Hb & Heq).
      apply String.eqb_eq in Heq. now rewrite Heq.
  - destruct (is_str a0 "tree"); injection H as <-; unfold tree_wf; cbn;
      repeat split; try lia; assumption.
Qed.

Lemma foldM_tree_wf (items : list pyval) (t t' : tree_analysis) :
  tree_wf t -> foldM tree_step items t = Ok t' -> tree_wf t'.
Proof.
  revert t. induction items as [|item items IH]; intros t Hwf H; cbn [foldM] in H.
  - now injection H as <-.
  - invert_pbind H. eapply IH; [|exact H]. eapply tree_step_wf; eassumption.
Qed.

(** [analyze_file_tree] never raises, whatever the provider answers or
    raises, and makes at most two requests; and the analysis it returns
    keeps its counts consistent: none is negative, the test, documentation
    and configuration files are each at most [total_files], and every
    configuration file has one of the ten listed base names. *)
Lemma analyze_file_tree_world (E : env) (owner repo : string) (w : world) :
  (api_calls (snd (analyze_file_tree E owner repo w)) <= api_calls w + 2)%nat /\
  cache (snd (analyze_file_tree E owner repo w)) = cache w.
Proof.
  unfold analyze_file_tree, get_repository_info, try_except, _make_request,
    Run.bind, lift, ret.
  repeat destruct_match; cbn; split; solve [lia | reflexivity].
Qed.

Lemma analyze_file_tree_returns
    (E : env) (owner repo : string) (w : world) :
  exists t w',
    analyze_file_tree E owner repo w = (Ok t, w') /\
    tree_wf t /\
    (api_calls w' <= api_calls w + 2)%nat /\
    cache w' = cache w.
Proof.
  pose proof (analyze_file_tree_world E owner repo w) as Hworld.
  destruct (analyze_file_tree E owner repo w) as [r w'] eqn:Hrun.
  cbn [snd] in Hworld. unfold analyze_file_tree, try_except in Hrun.
  match type of Hrun with
  | context [match ?m w with _ => _ end] =>
      destruct (m w) as [[t|x] w1] eqn:H
  end.
  - injection Hrun as <- <-. exists t, w1. split; [reflexivity|].
    split; [|exact Hworld].
    invert_bind_as H info w2 Hinfo. invert_bind_as H branch w3 Hbranch.
    invert_bind_as H tree_data w4 Htree.
    destruct (negb (truthy tree_data)).
    { apply ret_ok in H as [<- _]. apply tree_wf_default. }
    invert_bind_as H has_tree w5 Hhas.
    destruct (negb has_tree).
    { apply ret_ok in H as [<- _]. apply tree_wf_default. }
    invert_bind_as H files w6 Hfiles. invert_bind_as H items w7 Hitems.
    apply lift_ok in H as [H _].
    eapply foldM_tree_wf; [apply tree_wf_default | exact H].
  - injection Hrun as <- <-. exists _default_tree_analysis, w1.
    split; [reflexivity|]. split; [apply tree_wf_default | exact Hworld].
Qed.

Lemma analyze_file_tree_wf (E : env) (owner repo : string) (w w' : world) t :
  analyze_file_tree E owner repo w = (Ok t, w') -> tree_wf t.
Proof.
  intros H. destruct (analyze_file_tree_returns E owner repo w) as (t0 & w0 & H0 & Hwf & _).
  rewrite H in H0. now injection H0 as <- _.
Qed.

End TreeFacts.

(** X10. [analyze_file_tree] never raises, whatever the provider answers or
    raises, and makes at most two requests; and the analysis it returns
    keeps its counts consistent: none is negative, the test, documentation
    and configuration files are each at most [total_files], and every
    configuration file has one of the ten listed base names. *)
Theorem analyze_file_tree_total_and_bounded
    (E : Run.env) (owner repo : string) (w : Run.world) :
  exists t w',
    DeepAnalyzer.analyze_file_tree E owner repo w = (Py.Ok t, w') /\
    DeepSpec.tree_wf t /\
    (Run.api_calls w' <= Run.api_calls w + 2)%nat /\
    Run.cache w' = Run.cache w.
Proof. apply analyze_file_tree_returns. Qed.

Section QualityFeatures.
Import Py PyStr Run GitHubAnalyzer DeepAnalyzer DeepSpec.

(** What the quality extractor reads off the configuration files. *)
Lemma analyze_code_quality_detailed_features E owner repo tree w q w' :
  analyze_code_quality_detailed E owner repo tree w = (Ok q, w') ->
  linting_config q =
    flat_map (fun lint_file =>
                if any (fun f => contains lint_file f) (config_files tree)
                then [before_first "rc" (remove_char "." lint_file)] else [])
             linting_files /\
  ci_cd_tools q =
    ((if any (fun f => contains ".github/workflows" f) (config_files tree)
      then ["GitHub Actions"] else []) ++
     (if any (fun f => contains ".gitlab-ci" f) (config_files tree)
      then ["GitLab CI"] else []) ++
     (if any (fun f => contains "Jenkinsfile" f) (config_files tree)
      then ["Jenkins"] else []) ++
     (if any (fun f => contains ".travis" f) (config_files tree)
      then ["Travis CI"] else []))%list /\
  test_file_ratio q =
    (if total_files tree >? 0
     then round_pct E (Z.of_nat (List.length (test_files tree))) (total_files tree)
     else 0) /\
  documentation_coverage q =
    (if total_files tree >? 0
     then round_pct E (Z.of_nat (List.length (doc_files tree))) (total_files tree)
     else 0) /\
  code_review_process q =
    (if branch_protection q then "Protected branches with review requirements"
     else "Unknown").
Proof.
  unfold analyze_code_quality_detailed, Run.bind at 1. intros H.
  match type of H with
  | context [try_except ?m ?h w] => destruct (try_except m h w) as [[p|e] w1]
  end; [|discriminate H].
  unfold ret in H. injection H as <- _. cbn. repeat split.
Qed.

(** the fragments that the quality extractor looks for in the paths of
    the configuration files *)
Lemma config_basename_has_no_fragment (f frag : string) :
  In f config_basenames -> contains "/" f = false ->
  In frag (linting_files ++
           [".github/workflows"; ".gitlab-ci"; "Jenkinsfile"; ".travis"])%list ->
  contains frag f = false.
Proof.
  intros Hf Hslash Hfrag.
  repeat (destruct Hf as [<-|Hf]; [try discriminate Hslash|]); [..|destruct Hf];
    clear Hslash;
    repeat (destruct Hfrag as [<-|Hfrag]; [reflexivity|]); destruct Hfrag.
Qed.

Lemma top_level_config_no_fragment (tree : tree_analysis) (frag : string) :
  tree_wf tree ->
  (forall f, In f (config_files tree) -> contains "/" f = false) ->
  In frag (linting_files ++
           [".github/workflows"; ".gitlab-ci"; "Jenkinsfile"; ".travis"])%list ->
  any (fun f => contains frag f) (config_files tree) = false.
Proof.
  intros (_ & _ & _ & _ & _ & _ & Hnames) Htop Hfrag. unfold any.
  induction (config_files tree) as [|f l IH]; [reflexivity|].
  cbn [existsb]. pose proof (Forall_inv Hnames) as Hf. cbn beta in Hf.
  assert (Hslash : contains "/" f = false) by (apply Htop; now left).
  unfold last_part in Hf. rewrite (split_on_single "/" f Hslash) in Hf.
  cbn [List.last] in Hf.
  rewrite (config_basename_has_no_fragment f frag Hf Hslash Hfrag). cbn [orb].
  apply IH; [exact (Forall_inv_tail Hnames)|].
  intros g Hg. apply Htop. now right.
Qed.

End QualityFeatures.


Lemma and_iff_both (A B C D : Prop) :
  (A <-> C) -> (B <-> D) -> (A /\ B <-> C /\ D).
Proof. tauto. Qed.

(** when one optional entry is missing *)
Ltac optional_entry_iff :=
  match goal with
  | |- context [?a >? ?b] => destruct (Z.gtb_spec a b)
  | |- context [?a <? ?b] => destruct (Z.ltb_spec a b)
  | |- context [match ?l with [] => _ | _ :: _ => _ end] => destruct l
  end;
  split; intros; first [discriminate | reflexivity | lia | congruence].

(** a list put together from eight optional entries, with a sentinel
    when all are missing *)
Lemma optional_entries_shape (p1 p2 p3 p4 p5 p6 p7 p8 : list string)
    (sentinel : string) :
  Forall (fun p => (List.length p <= 1)%nat) [p1; p2; p3; p4; p5; p6; p7; p8] ->
  ~ In sentinel (p1 ++ p2 ++ p3 ++ p4 ++ p5 ++ p6 ++ p7 ++ p8)%list ->
  let ind := (p1 ++ p2 ++ p3 ++ p4 ++ p5 ++ p6 ++ p7 ++ p8)%list in
  let r := match ind with [] => [sentinel] | _ => ind end in
  r <> [] /\ (List.length r <= 8)%nat /\
  (In sentinel r <->
   p1 = [] /\ p2 = [] /\ p3 = [] /\ p4 = [] /\ p5 = [] /\ p6 = [] /\ p7 = [] /\
   p8 = []) /\
  (In sentinel r -> r = [sentinel]).
Proof.
  intros Hlen Hnot ind r.
  assert (Hl : (List.length ind <= 8)%nat).
  { unfold ind. rewrite !length_app.
    repeat (let H := fresh "H" in
            pose proof (Forall_inv Hlen) as H; cbn beta in H;
            apply Forall_inv_tail in Hlen).
    lia. }
  assert (Hind : ind = (p1 ++ p2 ++ p3 ++ p4 ++ p5 ++ p6 ++ p7 ++ p8)%list)
    by reflexivity.
  change (~ In sentinel ind) in Hnot. unfold r. clearbody ind. clear r.
  destruct ind as [|x l]; symmetry in Hind.
  - split; [discriminate|]. split; [cbn; lia|]. split; [|reflexivity].
    split; [|intros _; now left]. intros _.
    repeat (apply app_eq_nil in Hind as [? Hind]). repeat split; assumption.
  - split; [discriminate|]. split; [exact Hl|]. split.
    + split; [intros Hin; now apply Hnot in Hin|].
      intros (-> & -> & -> & -> & -> & -> & -> & ->). discriminate Hind.
    + intros Hin. now apply Hnot in Hin.
Qed.

(** X11. The debt indicators are never empty and number at most eight. The
    sentinel ["No significant technical debt indicators detected"] is
    listed exactly when none of the eight checks fires (depth at most 6,
    at most 500 files, at most 50 dependencies, at most 5 flexible pins,
    a test-file ratio of at least 10.0, some CI tool, some linter, a
    documentation coverage of at least 5.0), and then it is the only
    entry. *)
Theorem tech_debt_indicators_shape
    (E : Run.env) (tree : DeepAnalyzer.tree_analysis)
    (deps : DeepAnalyzer.dependencies) (q : DeepAnalyzer.quality) :
  let r := DeepAnalyzer.identify_tech_debt_indicators E tree deps q in
  let sentinel := "No significant technical debt indicators detected" in
  r <> [] /\ (List.length r <= 8)%nat /\
  (In sentinel r <->
   DeepAnalyzer.max_depth tree <= 6 /\ DeepAnalyzer.total_files tree <= 500 /\
   DeepAnalyzer.total_count deps <= 50 /\
   Z.of_nat (List.length (DeepAnalyzer.outdated_check deps)) <= 5 /\
   100 <= DeepAnalyzer.test_file_ratio q /\
   DeepAnalyzer.ci_cd_tools q <> [] /\ DeepAnalyzer.linting_config q <> [] /\
   50 <= DeepAnalyzer.documentation_coverage q) /\
  (In sentinel r -> r = [sentinel]).
Proof.
  unfold DeepAnalyzer.identify_tech_debt_indicators.
  match goal with
  | |- context [match (?a ++ ?b ++ ?c ++ ?d ++ ?e ++ ?f ++ ?g ++ ?h)%list
                with [] => _ | _ :: _ => _ end] =>
      pose proof (optional_entries_shape a b c d e f g h
                    "No significant technical debt indicators detected") as Hs
  end.
  cbv zeta in Hs |- *.
  match type of Hs with
  | ?A -> ?B -> _ => assert (Hf : A); [|assert (Hn : B); [|specialize (Hs Hf Hn)]]
  end.
  - repeat (apply Forall_cons;
            [match goal with
             | |- context [if ?b then _ else _] => destruct b
             | |- context [match ?l with _ => _ end] => destruct l
             end; cbn [List.length]; lia|]).
    apply Forall_nil.
  - rewrite !in_app_iff. intros H.
    repeat destruct H as [H|H];
      repeat match type of H with
             | context [if ?b then _ else _] => destruct b
             | context [match ?l with _ => _ end] => destruct l
             end;
      cbn [In append] in H; try destruct H as [H|H]; try discriminate H;
      try destruct H.
  - destruct Hs as (Hne & Hlen & Hiff & Hone).
    split; [exact Hne|]. split; [exact Hlen|]. split; [|exact Hone].
    rewrite Hiff. clear.
    repeat (apply and_iff_both; [optional_entry_iff|]). optional_entry_iff.
Qed.

(** X12. Linters and CI tools are looked for in the paths of the configuration
    files only, and those are files with one of ten manifest base names.
    So when every such file of the analysed tree sits at the top level,
    whatever else the repository holds (workflow files, linter
    configurations), the quality analysis reports no linter and no CI
    tool, and the debt indicators list both as missing. *)
Theorem lint_and_ci_blind_to_top_level
    (E : Run.env) (owner repo : string) (w w1 w2 : Run.world)
    (tree : DeepAnalyzer.tree_analysis) (deps : DeepAnalyzer.dependencies)
    (q : DeepAnalyzer.quality) :
  DeepAnalyzer.analyze_file_tree E owner repo w = (Py.Ok tree, w1) ->
  (forall f, In f (DeepAnalyzer.config_files tree) -> PyStr.contains "/" f = false) ->
  DeepAnalyzer.analyze_code_quality_detailed E owner repo tree w1 = (Py.Ok q, w2) ->
  DeepAnalyzer.linting_config q = [] /\
  DeepAnalyzer.ci_cd_tools q = [] /\
  In "No CI/CD pipeline detected"
     (DeepAnalyzer.identify_tech_debt_indicators E tree deps q) /\
  In "No code linting configuration found"
     (DeepAnalyzer.identify_tech_debt_indicators E tree deps q).
Proof.
  intros Htree Htop Hq.
  apply analyze_file_tree_wf in Htree.
  apply analyze_code_quality_detailed_features in Hq as (Hlint & Hci & _).
  assert (Hnone : forall frag,
            In frag (DeepAnalyzer.linting_files ++
                     [".github/workflows"; ".gitlab-ci"; "Jenkinsfile"; ".travis"])%list ->
            PyStr.any (fun f => PyStr.contains frag f) (DeepAnalyzer.config_files tree)
              = false)
    by (intros frag; now apply top_level_config_no_fragment).
  assert (Hlint0 : DeepAnalyzer.linting_config q = []).
  { rewrite Hlint. unfold DeepAnalyzer.linting_files. cbn [flat_map].
    rewrite !Hnone by (cbn; tauto). reflexivity. }
  assert (Hci0 : DeepAnalyzer.ci_cd_tools q = []).
  { rewrite Hci. rewrite !Hnone by (cbn; tauto). reflexivity. }
  split; [exact Hlint0|]. split; [exact Hci0|].
  unfold DeepAnalyzer.identify_tech_debt_indicators. rewrite Hlint0, Hci0.
  match goal with
  | |- context [match ?l with [] => _ | _ :: _ => _ end] =>
      set (ind := l);
      assert (Hin : In "No CI/CD pipeline detected" ind /\
                    In "No code linting configuration found" ind)
        by (unfold ind; rewrite !in_app_iff; cbn [In]; tauto)
  end.
  destruct ind; [destruct Hin as [[] _] | exact Hin].
Qed.

Lemma lint_and_ci_blind_to_top_level_witness :
  let E := MoreExamples.ci_env in
  let run := DeepAnalyzer.analyze_file_tree E "o" "r" Examples.empty_world in
  exists tree w1 q w2,
    run = (Py.Ok tree, w1) /\
    DeepAnalyzer.total_files tree = 4 /\
    DeepAnalyzer.config_files tree = ["package.json"] /\
    DeepAnalyzer.analyze_code_quality_detailed E "o" "r" tree w1 = (Py.Ok q, w2) /\
    DeepAnalyzer.ci_cd_tools q = [].
Proof.
  intros E run.
  destruct run as [[tree|x] w1] eqn:Hrun; [|vm_compute in Hrun; discriminate Hrun].
  assert (Hfiles : DeepAnalyzer.total_files tree = 4 /\
                   DeepAnalyzer.config_files tree = ["package.json"]).
  { vm_compute in Hrun. injection Hrun as <- _. split; reflexivity. }
  destruct Hfiles as [Htotal Hconfig].
  destruct (DeepAnalyzer.analyze_code_quality_detailed E "o" "r" tree w1)
    as [[q|x] w2] eqn:Hq.
  2:{ destruct (analyze_code_quality_detailed_returns E "o" "r" tree w1)
        as (q' & w' & Hq' & _). rewrite Hq in Hq'. discriminate Hq'. }
  exists tree, w1, q, w2. repeat (split; [first [reflexivity | assumption]|]).
  apply (lint_and_ci_blind_to_top_level E "o" "r" Examples.empty_world w1 w2 tree
           {| DeepAnalyzer.total_count := 0; DeepAnalyzer.direct_dependencies := [];
              DeepAnalyzer.dev_dependencies := []; DeepAnalyzer.outdated_check := [];
              DeepAnalyzer.security_warnings := []; DeepAnalyzer.package_managers := [] |}
           q Hrun); [|exact Hq].
  rewrite Hconfig. intros f [<-|[]]. reflexivity.
Defined.

(** X13. Whatever the tree, the security posture built on the quality analysis
    lists exactly one feature: ["Branch protection enabled"] when the
    protection probe succeeded and ["Consider enabling security features"]
    otherwise. The CI tools it searches for "dependabot" and "security"
    are among the four names the quality analysis can produce, none of
    which matches, so the two other features are never reported; and no
    vulnerability is ever listed. *)
Theorem security_features_one_of_two
    (E : Run.env) (owner repo : string) (w w' : Run.world)
    (tree : DeepAnalyzer.tree_analysis) (deps : DeepAnalyzer.dependencies)
    (q : DeepAnalyzer.quality) (s : DeepAnalyzer.security) :
  DeepAnalyzer.analyze_code_quality_detailed E owner repo tree w = (Py.Ok q, w') ->
  DeepAnalyzer.analyze_security_posture deps q = Py.Ok s ->
  DeepAnalyzer.security_features s =
    (if DeepAnalyzer.branch_protection q then ["Branch protection enabled"]
     else ["Consider enabling security features"]) /\
  DeepAnalyzer.vulnerabilities s = [].
Proof.
  intros Hq Hs.
  apply analyze_code_quality_detailed_features in Hq as (_ & Hci & _).
  unfold DeepAnalyzer.analyze_security_posture in Hs. invert_pbind Hs.
  injection Hs as <-. cbn [DeepAnalyzer.security_features DeepAnalyzer.vulnerabilities].
  split; [|reflexivity]. rewrite Hci.
  repeat match goal with
         | |- context [if PyStr.any (fun f => PyStr.contains ?frag f) ?l then _ else _] =>
             destruct (PyStr.any (fun f => PyStr.contains frag f) l)
         end;
    destruct (DeepAnalyzer.branch_protection q); reflexivity.
Qed.

Lemma security_features_one_of_two_witness :
  let E := Examples.quiet_env in
  let deps :=
    {| DeepAnalyzer.total_count := 0; DeepAnalyzer.direct_dependencies := [];
       DeepAnalyzer.dev_dependencies := []; DeepAnalyzer.outdated_check := [];
       DeepAnalyzer.security_warnings := []; DeepAnalyzer.package_managers := [] |} in
  exists q w' s,
    DeepAnalyzer.analyze_code_quality_detailed E "o" "r"
      DeepAnalyzer._default_tree_analysis Examples.empty_world = (Py.Ok q, w') /\
    DeepAnalyzer.analyze_security_posture deps q = Py.Ok s /\
    DeepAnalyzer.vulnerabilities s = [].
Proof.
  intros E deps.
  destruct (DeepAnalyzer.analyze_code_quality_detailed E "o" "r"
              DeepAnalyzer._default_tree_analysis Examples.empty_world)
    as [[q|x] w'] eqn:Hq; [|vm_compute in Hq; discriminate Hq].
  destruct (DeepAnalyzer.analyze_security_posture deps q) as [s|x] eqn:Hs;
    [|vm_compute in Hs; discriminate Hs].
  exists q, w', s. split; [first [reflexivity | exact Hq]|].
  split; [first [reflexivity | exact Hs]|].
  apply (security_features_one_of_two E "o" "r" Examples.empty_world w'
           DeepAnalyzer._default_tree_analysis deps q s Hq Hs).
Defined.

(** ** Commit activity *)

Section ActivityFacts.
Import Py PyStr Run DeepAnalyzer DeepSpec.


Lemma filterM_length {A : Type} (p : A -> result bool) (xs ys : list A) :
  filterM p xs = Ok ys -> (List.length ys <= List.length xs)%nat.
Proof.
  revert ys. induction xs as [|x xs IH]; intros ys H; cbn [filterM] in H.
  - injection H as <-. cbn. lia.
  - invert_pbind H. invert_pbind H. injection H as <-.
    specialize (IH _ Hm0). destruct a; cbn [List.length]; lia.
Qed.

Lemma py_slice_list (xs : list pyval) (n : nat) :
  py_slice (PList xs) n = Ok (PList (firstn n xs)).
Proof. reflexivity. Qed.

Lemma py_iter_list (xs : list pyval) : py_iter (PList xs) = Ok xs.
Proof. reflexivity. Qed.

Lemma slice_filter_length (p : pyval -> result bool) (xs : list pyval) (n : nat)
    (x : pyval) (y g : list pyval) :
  py_slice (PList xs) n = Ok x -> py_iter x = Ok y -> filterM p y = Ok g ->
  (List.length g <= List.length xs)%nat.
Proof.
  rewrite py_slice_list. intros [= <-]. rewrite py_iter_list. intros [= <-] Hf.
  apply filterM_length in Hf. pose proof (length_firstn n xs). lia.
Qed.


End ActivityFacts.



(** X15. The commit-message verdict depends on how many commits there are: it
    counts the good messages among the first 50 commits and wants more
    than 20 for "Good" and more than 35 for "Excellent". So a repository
    with 1 to 20 commits is always told "Needs improvement", however its
    messages are written; "Excellent" needs at least 36 commits; and an
    empty commit list yields "Unknown". *)
Theorem few_commits_need_improvement
    (E : Run.env) (cs : list Py.pyval) (issues prs : Py.pyval)
    (a : DeepAnalyzer.activity) :
  DeepAnalyzer.analyze_commit_activity E (Py.PList cs) issues prs = Py.Ok a ->
  (cs = [] -> DeepAnalyzer.commit_message_quality a = Py.PStr "Unknown") /\
  (cs <> [] -> (List.length cs <= 20)%nat ->
   DeepAnalyzer.commit_message_quality a = Py.PStr "Needs improvement") /\
  (DeepAnalyzer.commit_message_quality a = Py.PStr "Excellent (follows conventions)" ->
   (36 <= List.length cs)%nat) /\
  (DeepAnalyzer.commit_message_quality a = Py.PStr "Good (mostly structured)" ->
   (21 <= List.length cs)%nat).
Proof.
  intros H. unfold DeepAnalyzer.analyze_commit_activity in H.
  invert_pbind H.
  destruct a0 as [[[hours days] contributors] message_quality].
  invert_pbind H. invert_pbind H. injection H as <-.
  cbn [DeepAnalyzer.commit_message_quality].
  destruct (Py.truthy (Py.PList cs)) eqn:Ht.
  2:{ injection Hm as _ _ _ <-. destruct cs; [|discriminate Ht].
      repeat split; try discriminate; congruence. }
  assert (Hcs : cs <> []) by (intros ->; discriminate Ht).
  do 8 invert_pbind Hm. invert_pbind Hm. injection Hm as _ _ _ <-.
  match goal with
  | Hs : Run.py_slice (Py.PList ?l) 50 = Py.Ok ?x, Hi : Run.py_iter ?x = Py.Ok ?y,
    Hf : Run.filterM _ ?y = Py.Ok ?g |- _ =>
      pose proof (slice_filter_length _ _ _ _ _ _ Hs Hi Hf) as Hlen;
      clear Hs Hi Hf; set (good := List.length g) in *
  end.
  split; [congruence|]. split; [|split].
  - intros _ Hle.
    destruct (Z.gtb_spec (Z.of_nat good) 35); [lia|].
    destruct (Z.gtb_spec (Z.of_nat good) 20); [lia|]. reflexivity.
  - destruct (Z.gtb_spec (Z.of_nat good) 35); [intros _; lia|].
    destruct (Z.gtb_spec (Z.of_nat good) 20); discriminate.
  - destruct (Z.gtb_spec (Z.of_nat good) 35); [discriminate|].
    destruct (Z.gtb_spec (Z.of_nat good) 20); [intros _; lia | discriminate].
Qed.

Lemma few_commits_need_improvement_witness :
  exists a,
    DeepAnalyzer.analyze_commit_activity Examples.quiet_env
      (Py.PList [Examples.sample_commit]) (Py.PList []) (Py.PList []) = Py.Ok a /\
    DeepAnalyzer.commit_message_quality a = Py.PStr "Needs improvement".
Proof.
  destruct (DeepAnalyzer.analyze_commit_activity Examples.quiet_env
              (Py.PList [Examples.sample_commit]) (Py.PList []) (Py.PList []))
    as [a|x] eqn:Hrun; [|vm_compute in Hrun; discriminate Hrun].
  exists a. split; [reflexivity|].
  apply (proj1 (proj2 (few_commits_need_improvement Examples.quiet_env
                         [Examples.sample_commit] (Py.PList []) (Py.PList []) a Hrun)));
    [discriminate | cbn; lia].
Defined.

(** ** The dependency analysis *)

Section DependencyFacts.
Import Py PyStr Run GitHubAnalyzer DeepAnalyzer DeepSpec.

Lemma subsequence_nil (ys : list string) : subsequence [] ys = true.
Proof. now destruct ys. Qed.

Lemma subsequence_weaken (ys : list string) :
  (forall x xs, subsequence (x :: xs) ys = true -> subsequence xs ys = true) /\
  (forall xs y, subsequence xs ys = true -> subsequence xs (y :: ys) = true).
Proof.
  induction ys as [|a ys [IHt IHc]].
  - split; [discriminate|]. intros [|x xs] y H; [reflexivity | discriminate H].
  - assert (Ht : forall x xs, subsequence (x :: xs) (a :: ys) = true ->
                              subsequence xs (a :: ys) = true).
    { intros x xs H. cbn [subsequence] in H.
      destruct (String.eqb x a); [now apply IHc | apply IHc; now apply IHt in H]. }
    split; [exact Ht|].
    intros [|x xs] y H; [reflexivity|].
    change (subsequence (x :: xs) (y :: a :: ys)) with
      (if String.eqb x y then subsequence xs (a :: ys)
       else subsequence (x :: xs) (a :: ys)).
    destruct (String.eqb x y); [now apply Ht in H | exact H].
Qed.

Lemma subsequence_cons_same (x : string) (xs ys : list string) :
  subsequence (x :: xs) (x :: ys) = subsequence xs ys.
Proof. cbn [subsequence]. now rewrite String.eqb_refl. Qed.

(** One probe returns, after one request, the managers found so far with
    or without its own. *)
Lemma probe_manager_returns E owner repo found probe w :
  exists (b : bool) w',
    probe_manager E owner repo found probe w =
      (Ok (found ++ if b then [snd probe] else [])%list, w') /\
    api_calls w' = S (api_calls w) /\ cache w' = cache w.
Proof.
  destruct probe as [filename manager].
  unfold probe_manager, try_except, _make_request, Run.bind, lift, ret. cbn [snd].
  repeat destruct_match;
    first [ exists true; eexists; split; [reflexivity|]; split; reflexivity
          | exists false; rewrite app_nil_r; eexists; split; [reflexivity|];
            split; reflexivity ].
Qed.

Lemma probe_managers_returns E owner repo probes : forall found w,
  exists extra w',
    probe_managers E owner repo found probes w = (Ok (found ++ extra)%list, w') /\
    subsequence extra (map snd probes) = true /\
    api_calls w' = (api_calls w + List.length probes)%nat /\ cache w' = cache w.
Proof.
  induction probes as [|p probes IH]; intros found w; cbn [probe_managers].
  - exists (@nil string), w. rewrite app_nil_r. cbn. repeat split. lia.
  - destruct (probe_manager_returns E owner repo found p w) as (b & w1 & Hp & Hc & Hk).
    destruct (IH (found ++ if b then [snd p] else [])%list w1)
      as (extra & w2 & Hps & Hsub & Hc2 & Hk2).
    exists ((if b then [snd p] else []) ++ extra)%list, w2.
    rewrite (bind_step _ _ _ _ _ Hp), Hps, app_assoc.
    split; [reflexivity|]. split; [|split; [cbn [List.length]; lia | congruence]].
    cbn [map]. destruct b; cbn [app].
    + now rewrite subsequence_cons_same.
    + now apply subsequence_weaken.
Qed.

(** What the dependency analysis does and returns. *)
Lemma analyze_dependencies_detailed_ok E owner repo w deps w' :
  analyze_dependencies_detailed E owner repo w = (Ok deps, w') ->
  subsequence (package_managers deps) all_managers = true /\
  security_warnings deps = [] /\
  api_calls w' = (api_calls w + 7)%nat /\ cache w' = cache w.
Proof.
  unfold analyze_dependencies_detailed. intros H.
  destruct (get_package_json_returns E owner repo w) as (pj & w1 & Hpj & Hc1 & Hk1).
  rewrite (bind_step _ _ _ _ _ Hpj) in H.
  invert_bind_as H npm w2 Hnpm.
  destruct npm as [[[[managers direct] dev] total] outdated].
  assert (Hnpm' : w2 = w1 /\ (managers = [] \/ managers = ["npm/yarn"])).
  { destruct (truthy pj).
    - invert_bind_as Hnpm has_deps wa Ha. apply lift_ok in Ha as [_ <-].
      invert_bind_as Hnpm d1 wb Hb.
      assert (wb = w1) as ->.
      { destruct has_deps.
        - invert_bind Hb. apply lift_ok in Hm as [_ <-].
          invert_bind Hb. apply lift_ok in Hm as [_ <-].
          now apply ret_ok in Hb as [_ <-].
        - now apply ret_ok in Hb as [_ <-]. }
      invert_bind_as Hnpm has_dev wc Hc. apply lift_ok in Hc as [_ <-].
      invert_bind_as Hnpm d2 wd Hd.
      assert (wd = w1) as ->.
      { destruct has_dev.
        - invert_bind Hd. apply lift_ok in Hm as [_ <-].
          invert_bind Hd. apply lift_ok in Hm as [_ <-].
          now apply ret_ok in Hd as [_ <-].
        - now apply ret_ok in Hd as [_ <-]. }
      invert_bind_as Hnpm items we He. apply lift_ok in He as [_ <-].
      invert_bind_as Hnpm flexible wf Hf. apply lift_ok in Hf as [_ <-].
      apply ret_ok in Hnpm as [Heq <-]. injection Heq as <- _ _ _ _. auto.
    - apply ret_ok in Hnpm as [Heq <-]. injection Heq as <- _ _ _ _. auto. }
  destruct Hnpm' as [-> Hmanagers].
  destruct (get_requirements_txt_returns E owner repo w1) as (req & w3 & Hreq & Hc3 & Hk3).
  rewrite (bind_step _ _ _ _ _ Hreq) in H.
  invert_bind_as H pip w4 Hpip.
  destruct pip as [[[managers' direct'] total'] outdated'].
  assert (Hpip' : w4 = w3 /\ (managers' = managers \/ managers' = managers ++ ["pip"])%list).
  { destruct (truthy req).
    - destruct req as [| | | |text| |]; try discriminate Hpip.
      destruct (fold_left requirement_step (split_on (ascii_of_nat 10) text)
                  ([], outdated)) as [python_deps outdated''].
      apply ret_ok in Hpip as [Heq <-]. injection Heq as <- _ _ _. auto.
    - apply ret_ok in Hpip as [Heq <-]. injection Heq as <- _ _ _. auto. }
  destruct Hpip' as [-> Hmanagers'].
  destruct (probe_managers_returns E owner repo files_to_check managers' w3)
    as (extra & w5 & Hprobe & Hsub & Hc5 & Hk5).
  rewrite (bind_step _ _ _ _ _ Hprobe) in H.
  apply ret_ok in H as [<- <-]. cbn [package_managers security_warnings].
  split; [|split; [reflexivity | split; [cbn [List.length files_to_check] in Hc5; lia
                                        | congruence]]].
  change (map snd files_to_check)
    with ["bundler"; "cargo"; "go modules"; "maven"; "gradle"] in Hsub.
  unfold all_managers.
  destruct Hmanagers as [-> | ->]; destruct Hmanagers' as [-> | ->]; cbn [app].
  - now do 2 apply subsequence_weaken.
  - apply subsequence_weaken. now rewrite subsequence_cons_same.
  - rewrite subsequence_cons_same. now apply subsequence_weaken.
  - now rewrite !subsequence_cons_same.
Qed.

End DependencyFacts.

(** X16. The package managers that a returning dependency analysis reports are
    a selection, in this order and without repetition, of npm/yarn, pip,
    bundler, cargo, go modules, maven and gradle; the analysis has made
    exactly seven requests, one per manifest it looks for, whatever the
    answers were, and it never lists a security warning. *)
Theorem package_managers_in_probe_order
    (E : Run.env) (owner repo : string) (w w' : Run.world)
    (deps : DeepAnalyzer.dependencies) :
  DeepAnalyzer.analyze_dependencies_detailed E owner repo w = (Py.Ok deps, w') ->
  DeepSpec.subsequence (DeepAnalyzer.package_managers deps) DeepSpec.all_managers
    = true /\
  DeepAnalyzer.security_warnings deps = [] /\
  Run.api_calls w' = (Run.api_calls w + 7)%nat /\
  Run.cache w' = Run.cache w.
Proof. apply analyze_dependencies_detailed_ok. Qed.

Lemma package_managers_in_probe_order_witness :
  exists deps w',
    DeepAnalyzer.analyze_dependencies_detailed Examples.quiet_env "o" "r"
      Examples.empty_world = (Py.Ok deps, w') /\
    Run.api_calls w' = 7%nat.
Proof.
  destruct (DeepAnalyzer.analyze_dependencies_detailed Examples.quiet_env "o" "r"
              Examples.empty_world) as [[deps|x] w'] eqn:Hrun;
    [|vm_compute in Hrun; discriminate Hrun].
  exists deps, w'. split; [reflexivity|].
  apply (package_managers_in_probe_order Examples.quiet_env "o" "r"
           Examples.empty_world w' deps Hrun).
Defined.

(** ** The assembler: what a fresh report costs and holds *)

Section CallFacts.
Import Py Run RepoProcessor.

Lemma bind_keeps_calls {A B : Type} (m : M A) (k : A -> M B) :
  (forall w, api_calls (snd (m w)) = api_calls w) ->
  (forall a w, api_calls (snd (k a w)) = api_calls w) ->
  forall w, api_calls (snd (Run.bind m k w)) = api_calls w.
Proof.
  intros Hm Hk w. unfold Run.bind. specialize (Hm w).
  destruct (m w) as [[a|x] w1]; cbn [snd] in *; [|exact Hm].
  now rewrite Hk.
Qed.

Lemma lift_keeps_calls {A : Type} (x : result A) w :
  api_calls (snd (lift x w)) = api_calls w.
Proof. reflexivity. Qed.

Lemma ret_keeps_calls {A : Type} (a : A) w :
  api_calls (snd (ret a w)) = api_calls w.
Proof. reflexivity. Qed.

Lemma datetime_now_calls (E : env) w :
  api_calls (snd (datetime_now E w)) = api_calls w.
Proof. reflexivity. Qed.

End CallFacts.

(** a computation built from pure steps and clock readings makes no
    request *)
Ltac keeps_calls :=
  repeat (intros;
          first [ apply bind_keeps_calls
                | apply lift_keeps_calls
                | apply ret_keeps_calls
                | apply datetime_now_calls
                | match goal with
                  | |- context [if ?b then _ else _] => destruct b
                  | |- context [match ?x with _ => _ end] => destruct x
                  end ]).

(** the request counts before and after a step [Hi : m w = (r, w')] *)
Ltac calls_of Hi Ci :=
  pose proof (f_equal (fun p => Run.api_calls (snd p)) Hi) as Ci;
  cbn beta in Ci; cbn [snd] in Ci.

Section WorldFacts.
Import Py PyStr Run GitHubAnalyzer DeepAnalyzer CachePy RepoProcessor.

Variable E : env.

Lemma make_request_calls endpoint w :
  api_calls (snd (_make_request E endpoint w)) = S (api_calls w).
Proof. reflexivity. Qed.

Lemma get_repository_info_calls owner repo w :
  api_calls (snd (get_repository_info E owner repo w)) = S (api_calls w).
Proof.
  unfold get_repository_info, _make_request, Run.bind, lift, ret.
  repeat destruct_match; reflexivity.
Qed.

Lemma optional_fetcher_calls owner repo w :
  Forall (fun fetch : string -> string -> M pyval =>
            api_calls (snd (fetch owner repo w)) = S (api_calls w))
         [get_readme E; get_package_json E; get_requirements_txt E;
          get_workflow_runs E; get_releases E].
Proof.
  pose proof (optional_fetchers_return E owner repo w) as H.
  eapply Forall_impl; [|exact H].
  intros fetch (v & w' & -> & Hc & _). exact Hc.
Qed.

Lemma quick_insights_calls (S : stages) owner repo w :
  (api_calls w <=
   api_calls (snd (try_except (requesting (get_quick_insights S owner repo))
                              (fun _ => ret PNone) w)))%nat.
Proof.
  unfold try_except, requesting, ret.
  destruct (get_quick_insights S owner repo w) as [[v|x] n]; cbn; lia.
Qed.

Lemma analyze_file_tree_calls owner repo w :
  (api_calls w + 1 <= api_calls (snd (analyze_file_tree E owner repo w)))%nat.
Proof.
  unfold analyze_file_tree, get_repository_info, try_except, _make_request,
    Run.bind, lift, ret.
  repeat destruct_match; cbn; lia.
Qed.

Lemma analyze_code_quality_detailed_calls owner repo tree w :
  (api_calls w + 1 <=
   api_calls (snd (analyze_code_quality_detailed E owner repo tree w)))%nat.
Proof.
  unfold analyze_code_quality_detailed, get_repository_info, try_except,
    _make_request, Run.bind, lift, ret.
  repeat destruct_match; cbn; lia.
Qed.


Lemma process_activity_calls commits issues prs releases w :
  api_calls (snd (_process_activity E commits issues prs releases w)) = api_calls w.
Proof.
  revert w. unfold _process_activity. keeps_calls.
Qed.

Lemma process_activity_deep_calls commits issues prs releases a w :
  api_calls (snd (_process_activity_deep E commits issues prs releases a w)) =
    api_calls w.
Proof.
  revert w. unfold _process_activity_deep.
  apply bind_keeps_calls; [intros w; apply process_activity_calls|].
  keeps_calls.
Qed.

Lemma process_technical_debt_deep_calls repo_info languages tree deps q sec w :
  api_calls (snd (_process_technical_debt_deep E repo_info languages tree deps q
                    sec w)) = api_calls w.
Proof.
  revert w. unfold _process_technical_debt_deep, _process_technical_debt,
    _calculate_repo_age.
  keeps_calls.
Qed.

Lemma get_readme_calls owner repo w :
  api_calls (snd (get_readme E owner repo w)) = S (api_calls w).
Proof. exact (Forall_inv (optional_fetcher_calls owner repo w)). Qed.

Lemma get_package_json_calls owner repo w :
  api_calls (snd (get_package_json E owner repo w)) = S (api_calls w).
Proof.
  exact (Forall_inv (Forall_inv_tail (optional_fetcher_calls owner repo w))).
Qed.

Lemma get_requirements_txt_calls owner repo w :
  api_calls (snd (get_requirements_txt E owner repo w)) = S (api_calls w).
Proof.
  exact (Forall_inv (Forall_inv_tail (Forall_inv_tail
           (optional_fetcher_calls owner repo w)))).
Qed.

Lemma get_workflow_runs_calls owner repo w :
  api_calls (snd (get_workflow_runs E owner repo w)) = S (api_calls w).
Proof.
  exact (Forall_inv (Forall_inv_tail (Forall_inv_tail (Forall_inv_tail
           (optional_fetcher_calls owner repo w))))).
Qed.

Lemma get_releases_calls owner repo w :
  api_calls (snd (get_releases E owner repo w)) = S (api_calls w).
Proof.
  exact (Forall_inv (Forall_inv_tail (Forall_inv_tail (Forall_inv_tail
           (Forall_inv_tail (optional_fetcher_calls owner repo w)))))).
Qed.

Lemma cache_set_calls key v ttl w :
  api_calls (snd (cache_set E key v ttl w)) = api_calls w.
Proof.
  unfold cache_set.
  destruct (RepositoryCache.set _ _ _ key v ttl (cache w)); reflexivity.
Qed.

(** What a returning [build_analysis] has put in the report, and how many
    requests it has made. *)
Lemma build_analysis_inv (S : stages) owner repo w rep w' :
  build_analysis E S owner repo w = (Ok rep, w') ->
  exists repo_info workflows readme deep_quality tree quality_metrics
         documentation analysis raw,
    rep = PDict analysis /\
    dict_get "code_quality_metrics" analysis = Some (PDict quality_metrics) /\
    _process_quality_metrics_deep E repo_info workflows deep_quality tree =
      Ok quality_metrics /\
    dict_get "documentation_extraction" analysis = Some (PDict documentation) /\
    _process_documentation E readme repo_info = Ok documentation /\
    dict_get "raw_data" analysis = Some (PDict raw) /\
    dict_get "api_calls_made" raw = Some (PInt 8) /\
    (api_calls w + 20 <= api_calls w')%nat /\
    exists wq wq',
      analyze_code_quality_detailed E owner repo tree wq = (Ok deep_quality, wq').
Proof.
  unfold build_analysis. intros H.
  invert_bind_as H repo_info w1 H1. calls_of H1 C1.
  rewrite get_repository_info_calls in C1.
  invert_bind_as H languages w2 H2. calls_of H2 C2.
  invert_bind_as H contributors w3 H3. calls_of H3 C3.
  invert_bind_as H commits w4 H4. calls_of H4 C4.
  invert_bind_as H releases w5 H5. calls_of H5 C5. rewrite get_releases_calls in C5.
  invert_bind_as H issues w6 H6. calls_of H6 C6.
  invert_bind_as H pull_requests w7 H7. calls_of H7 C7.
  invert_bind_as H readme w8 H8. calls_of H8 C8. rewrite get_readme_calls in C8.
  invert_bind_as H package_json w9 H9. calls_of H9 C9.
  rewrite get_package_json_calls in C9.
  invert_bind_as H requirements_txt w10 H10. calls_of H10 C10.
  rewrite get_requirements_txt_calls in C10.
  invert_bind_as H workflows w11 H11. calls_of H11 C11.
  rewrite get_workflow_runs_calls in C11.
  invert_bind_as H enhanced w12 H12. calls_of H12 C12.
  pose proof (quick_insights_calls S owner repo w11) as C12'.
  invert_bind_as H tree w13 H13. calls_of H13 C13.
  pose proof (analyze_file_tree_calls owner repo w12) as C13'.
  invert_bind_as H deep_deps w14 H14.
  apply analyze_dependencies_detailed_ok in H14 as (_ & _ & C14 & _).
  invert_bind_as H deep_quality w15 H15. calls_of H15 C15.
  pose proof (analyze_code_quality_detailed_calls owner repo tree w14) as C15'.
  invert_bind_as H deep_activity w16 H16. apply lift_ok in H16 as [_ <-].
  invert_bind_as H sec w17 H17. apply lift_ok in H17 as [_ <-].
  invert_bind_as H metadata w18 H18. apply lift_ok in H18 as [_ <-].
  invert_bind_as H architecture w19 H19. apply lift_ok in H19 as [_ <-].
  invert_bind_as H quality_metrics w20 H20. apply lift_ok in H20 as [H20 <-].
  invert_bind_as H documentation w21 H21. apply lift_ok in H21 as [H21 <-].
  invert_bind_as H section w22 H22. calls_of H22 C22.
  rewrite process_activity_deep_calls in C22.
  invert_bind_as H debt w23 H23. calls_of H23 C23.
  rewrite process_technical_debt_deep_calls in C23.
  invert_bind_as H now w24 H24. calls_of H24 C24.
  invert_bind_as H fetched_at w25 H25. apply lift_ok in H25 as [_ <-].
  invert_bind_as H u w26 H26. calls_of H26 C26.
  unfold cache_repository_analysis in C26. rewrite cache_set_calls in C26.
  apply ret_ok in H as [<- <-].
  exists repo_info, workflows, readme, deep_quality, tree, quality_metrics,
    documentation.
  eexists. eexists. split; [reflexivity|].
  repeat split; try (destruct (truthy enhanced); reflexivity);
    try assumption.
  - cbn in C2, C3, C4, C6, C7, C24. lia.
  - now exists w14, w15.
Qed.

Lemma process_quality_metrics_deep_fields repo_info workflows q tree d :
  _process_quality_metrics_deep E repo_info workflows q tree = Ok d ->
  dict_get "test_coverage_percentage" d = Some (PStr "TBD - Requires code analysis") /\
  dict_get "security_vulnerabilities" d = Some (PStr "TBD - Requires security scan") /\
  dict_get "testing_framework" d = Some (PStr (test_coverage q)).
Proof.
  unfold _process_quality_metrics_deep. intros H.
  invert_pbind H. unfold _process_quality_metrics in Hm.
  do 4 invert_pbind Hm. injection Hm as <-.
  do 2 invert_pbind H. injection H as <-.
  repeat split; reflexivity.
Qed.

Lemma process_documentation_fields readme repo_info d :
  _process_documentation E readme repo_info = Ok d ->
  dict_get "api_documentation" d =
    Some (PStr "TBD - Requires API endpoint analysis") /\
  dict_get "configuration_variables" d =
    Some (PStr "TBD - Requires env file analysis") /\
  dict_get "known_limitations" d = Some (PStr "TBD - Requires issue analysis").
Proof.
  unfold _process_documentation. intros H.
  invert_pbind H. destruct a as [summary steps]. invert_pbind H.
  injection H as <-. repeat split; reflexivity.
Qed.

(** a call of [analyze_repository] that finds nothing cached builds the
    report *)
Lemma analyze_repository_fresh (S : stages) url owner repo w rep w' :
  parse_repo_url E url = Ok (owner, repo) ->
  dict_get (analysis_key owner repo) (RepositoryCache._cache (cache w)) = None ->
  analyze_repository E S url w = (Ok rep, w') ->
  exists w1, api_calls w1 = api_calls w /\
             build_analysis E S owner repo w1 = (Ok rep, w').
Proof.
  intros Hparse Hmiss H. rewrite analyze_repository_unfold, Hparse in H.
  rewrite (get_cached_absent E owner repo w Hmiss) in H. cbn [truthy] in H.
  unfold ReportSpec.reraised in H.
  match type of H with
  | context [build_analysis E S owner repo ?w1] =>
      exists w1; split; [reflexivity|];
      destruct (build_analysis E S owner repo w1) as [[r|x] w2];
      [exact H | discriminate H]
  end.
Qed.

End WorldFacts.

(** X17. A call that finds nothing cached makes at least twenty requests to the
    provider before it returns a report (eleven for the basic data, at
    least one for the tree, seven for the manifests and at least one for
    the quality analysis, besides those of the quick insights), yet the
    report it returns always states [api_calls_made] as 8. *)
Theorem fresh_report_undercounts_requests
    (E : Run.env) (S : RepoProcessor.stages) (url owner repo : string)
    (w w' : Run.world) (rep : Py.pyval) :
  GitHubAnalyzer.parse_repo_url E url = Py.Ok (owner, repo) ->
  Py.dict_get (CachePy.analysis_key owner repo)
    (RepositoryCache._cache (Run.cache w)) = None ->
  RepoProcessor.analyze_repository E S url w = (Py.Ok rep, w') ->
  (Run.api_calls w + 20 <= Run.api_calls w')%nat /\
  exists raw,
    Examples.field "raw_data" rep = Some (Py.PDict raw) /\
    Py.dict_get "api_calls_made" raw = Some (Py.PInt 8).
Proof.
  intros Hparse Hmiss H.
  destruct (analyze_repository_fresh E S url owner repo w rep w' Hparse Hmiss H)
    as (w1 & Hc & Hbuild).
  apply build_analysis_inv in Hbuild
    as (? & ? & ? & ? & ? & ? & ? & analysis & raw & -> & _ & _ & _ & _ & Hraw &
        Hmade & Hcalls & _).
  split; [lia|]. exists raw. split; assumption.
Qed.

Lemma fresh_report_undercounts_requests_witness :
  let run := RepoProcessor.analyze_repository Examples.quiet_env
               Examples.sample_stages "o/r" Examples.empty_world in
  exists rep w',
    run = (Py.Ok rep, w') /\
    (20 <= Run.api_calls w')%nat.
Proof.
  intros run.
  destruct run as [[rep|x] w'] eqn:Hrun; [|vm_compute in Hrun; discriminate Hrun].
  exists rep, w'. split; [reflexivity|].
  apply (fresh_report_undercounts_requests Examples.quiet_env Examples.sample_stages
           "o/r" "o" "r" Examples.empty_world w' rep eq_refl eq_refl Hrun).
Defined.

(** X18. Some fields of a freshly built report never hold what their names
    announce. In the quality section [test_coverage_percentage] and
    [security_vulnerabilities] keep their "TBD" placeholders, and
    [testing_framework] holds the test-coverage label (one of five), not
    a framework; in the documentation section [api_documentation],
    [configuration_variables] and [known_limitations] keep their
    placeholders. *)
Theorem fresh_report_placeholders
    (E : Run.env) (S : RepoProcessor.stages) (url owner repo : string)
    (w w' : Run.world) (rep : Py.pyval) :
  GitHubAnalyzer.parse_repo_url E url = Py.Ok (owner, repo) ->
  Py.dict_get (CachePy.analysis_key owner repo)
    (RepositoryCache._cache (Run.cache w)) = None ->
  RepoProcessor.analyze_repository E S url w = (Py.Ok rep, w') ->
  exists quality documentation label,
    Examples.field "code_quality_metrics" rep = Some (Py.PDict quality) /\
    Py.dict_get "test_coverage_percentage" quality =
      Some (Py.PStr "TBD - Requires code analysis") /\
    Py.dict_get "security_vulnerabilities" quality =
      Some (Py.PStr "TBD - Requires security scan") /\
    Py.dict_get "testing_framework" quality = Some (Py.PStr label) /\
    In label ["High (>30% test files)"; "Medium (15-30% test files)";
              "Low (5-15% test files)"; "Minimal (<5% test files)"; "Unknown"] /\
    Examples.field "documentation_extraction" rep = Some (Py.PDict documentation) /\
    Py.dict_get "api_documentation" documentation =
      Some (Py.PStr "TBD - Requires API endpoint analysis") /\
    Py.dict_get "configuration_variables" documentation =
      Some (Py.PStr "TBD - Requires env file analysis") /\
    Py.dict_get "known_limitations" documentation =
      Some (Py.PStr "TBD - Requires issue analysis").
Proof.
  intros Hparse Hmiss H.
  destruct (analyze_repository_fresh E S url owner repo w rep w' Hparse Hmiss H)
    as (w1 & Hc & Hbuild).
  apply build_analysis_inv in Hbuild
    as (repo_info & workflows & readme & q & tree & quality & documentation &
        analysis & raw & -> & Hq & Hquality & Hd & Hdoc & _ & _ & _ &
        wq & wq' & Hdeep).
  apply process_quality_metrics_deep_fields in Hquality as (Hcov & Hsec & Hfw).
  apply process_documentation_fields in Hdoc as (Hapi & Hconf & Hknown).
  exists quality, documentation, (DeepAnalyzer.test_coverage q).
  repeat (split; [assumption|]).
  split; [|repeat (split; [assumption|]); assumption].
  destruct (analyze_code_quality_detailed_returns E owner repo tree wq)
    as (q0 & w0 & Hq0 & _ & Hlabel).
  rewrite Hdeep in Hq0. injection Hq0 as <- _. rewrite Hlabel.
  repeat match goal with
         | |- context [if ?b then _ else _] => destruct b
         end; cbn; tauto.
Qed.

Lemma fresh_report_placeholders_witness :
  let run := RepoProcessor.analyze_repository Examples.quiet_env
               Examples.sample_stages "o/r" Examples.empty_world in
  exists rep w' quality,
    run = (Py.Ok rep, w') /\
    Examples.field "code_quality_metrics" rep = Some (Py.PDict quality) /\
    Py.dict_get "testing_framework" quality = Some (Py.PStr "Unknown").
Proof.
  intros run.
  destruct run as [[rep|x] w'] eqn:Hrun; [|vm_compute in Hrun; discriminate Hrun].
  destruct (fresh_report_placeholders Examples.quiet_env Examples.sample_stages
              "o/r" "o" "r" Examples.empty_world w' rep eq_refl eq_refl Hrun)
    as (quality & documentation & label & Hq & _ & _ & Hfw & _).
  exists rep, w', quality. split; [reflexivity|]. split; [exact Hq|].
  vm_compute in Hrun. injection Hrun as <- _.
  vm_compute in Hq. injection Hq as <-. reflexivity.
Defined.

(** ** The CSV export and the analysis endpoint *)

Section ExportFacts.
Import Py Run RepoProcessor ReportSpec ExportHandler.

Lemma section_rows_present (analysis : dict pyval) (name : string)
    (write : pyval -> result (list row)) (section : pyval) :
  dict_get name analysis = Some section ->
  section_rows (PDict analysis) name write = write section.
Proof.
  intros Hget. unfold section_rows, py_contains, py_index, dict_in.
  now rewrite Hget.
Qed.

Lemma field_row_dict (section : dict pyval) (label key : string) (default : pyval) :
  field_row (PDict section) label key default =
    Ok [PStr label; match dict_get key section with Some x => x | None => default end].
Proof. reflexivity. Qed.

Lemma dict_get_absent (section : dict pyval) (keys : list string) (key : string) :
  dict_keys section = keys -> ~ In key keys -> dict_get key section = None.
Proof.
  intros <- Hnot. apply dict_in_false_keys in Hnot. unfold dict_in in Hnot.
  now destruct (dict_get key section).
Qed.

(** the rows of the first three sections of a report of the fresh shape *)
Lemma export_csv_rows_fresh E owner repo rep w rows w' :
  fresh_report E owner repo rep ->
  export_csv_rows E rep w = (Ok rows, w') ->
  exists header metadata architecture quality rest stars forks build testing docs,
    rows = (header ++ metadata ++ architecture ++ quality ++ rest)%list /\
    metadata =
      [[PStr "Repository Metadata"]; [PStr "Field"; PStr "Value"];
       [PStr "Name"; not_available]; [PStr "Owner"; not_available];
       [PStr "Description"; not_available]; [PStr "Stars"; stars];
       [PStr "Forks"; forks]; [PStr "Primary Language"; not_available];
       [PStr "License"; not_available]; []] /\
    architecture =
      [[PStr "Architecture Synopsis"]; [PStr "Field"; PStr "Value"];
       [PStr "Core Language"; not_available]; [PStr "Framework"; not_available];
       [PStr "Build System"; build]; []] /\
    quality =
      [[PStr "Code Quality Metrics"]; [PStr "Metric"; PStr "Value"];
       [PStr "Testing Framework"; testing]; [PStr "CI/CD Pipeline"; not_available];
       [PStr "Documentation Quality"; docs]; []].
Proof.
  intros (analysis & tree & a & enhanced & commits & issues & prs & wt & wt' & -> &
          _ & _ & _ & (meta & Hmeta & Kmeta) & (arch & Harch & Karch) &
          (qual & Hqual & Kqual) & _) H.
  unfold export_csv_rows in H.
  invert_bind_as H now w1 Hnow. invert_bind_as H exported_at w2 Hstamp.
  invert_bind_as H metadata w3 Hm. apply lift_ok in Hm as [Hm _].
  invert_bind_as H architecture w4 Ha. apply lift_ok in Ha as [Ha _].
  invert_bind_as H quality w5 Hq. apply lift_ok in Hq as [Hq _].
  invert_bind_as H activity w6 Hact. invert_bind_as H debt w7 Hdebt.
  apply ret_ok in H as [<- _].
  rewrite (section_rows_present _ _ _ _ Hmeta) in Hm.
  rewrite (section_rows_present _ _ _ _ Harch) in Ha.
  rewrite (section_rows_present _ _ _ _ Hqual) in Hq.
  unfold field_row, py_get in Hm, Ha, Hq. cbn [Py.bind] in Hm, Ha, Hq.
  assert (Hno : forall key, ~ In key metadata_keys -> dict_get key meta = None)
    by (intros key; now apply dict_get_absent).
  assert (Hno' : forall key,
            ~ In key (architecture_base_keys ++ architecture_optional_keys tree)%list ->
            dict_get key arch = None)
    by (intros key; now apply dict_get_absent).
  assert (Hno'' : forall key, ~ In key quality_keys -> dict_get key qual = None)
    by (intros key; now apply dict_get_absent).
  rewrite (Hno "name"), (Hno "owner"), (Hno "description"), (Hno "primary_language"),
    (Hno "license") in Hm
    by (cbn; intuition discriminate).
  rewrite (Hno' "core_language"), (Hno' "framework_identification") in Ha
    by (unfold architecture_optional_keys; destruct (DeepAnalyzer.file_types tree);
        cbn; intuition discriminate).
  rewrite (Hno'' "ci_cd_pipeline") in Hq by (cbn; intuition discriminate).
  injection Hm as <-. injection Ha as <-. injection Hq as <-.
  eexists _, _, _, _, (activity ++ debt)%list, _, _, _, _, _.
  split; [reflexivity|]. repeat split.
Qed.

End ExportFacts.

(** X19. The CSV export reads eight fields that no report has: for a report of
    the shape that the analysis builds, whenever the export returns, the
    rows Name, Owner, Description, Primary Language and License of the
    metadata block, Core Language and Framework of the architecture block
    and CI/CD Pipeline of the quality block all carry the default "N/A",
    whatever the repository. *)
Theorem export_csv_blank_fields
    (E : Run.env) (owner repo : string) (rep : Py.pyval) (w w' : Run.world)
    (rows : list ExportHandler.row) :
  ReportSpec.fresh_report E owner repo rep ->
  ExportHandler.export_csv_rows E rep w = (Py.Ok rows, w') ->
  Forall (fun label => In [Py.PStr label; Py.PStr "N/A"] rows)
         ["Name"; "Owner"; "Description"; "Primary Language"; "License";
          "Core Language"; "Framework"; "CI/CD Pipeline"].
Proof.
  intros Hfresh H.
  destruct (export_csv_rows_fresh E owner repo rep w rows w' Hfresh H)
    as (header & metadata & architecture & quality & rest & stars & forks & build &
        testing & docs & -> & -> & -> & ->).
  unfold ExportHandler.not_available.
  repeat (apply Forall_cons; [rewrite !in_app_iff; cbn [In]; tauto|]).
  apply Forall_nil.
Qed.

Lemma export_csv_blank_fields_witness :
  let E := Examples.quiet_env in
  let run := RepoProcessor.build_analysis E Examples.sample_stages "o" "r"
               Examples.empty_world in
  exists rep w1 rows w2,
    run = (Py.Ok rep, w1) /\
    ExportHandler.export_csv_rows E rep w1 = (Py.Ok rows, w2) /\
    In [Py.PStr "Name"; Py.PStr "N/A"] rows.
Proof.
  intros E run.
  destruct run as [[rep|x] w1] eqn:Hrun; [|vm_compute in Hrun; discriminate Hrun].
  destruct (ExportHandler.export_csv_rows E rep w1) as [[rows|x] w2] eqn:Hrows.
  2:{ vm_compute in Hrun. injection Hrun as <- <-. vm_compute in Hrows.
      discriminate Hrows. }
  exists rep, w1, rows, w2. split; [first [reflexivity | exact Hrun]|].
  split; [first [reflexivity | exact Hrows]|].
  pose proof (proj1 (build_analysis_ok E Examples.sample_stages "o" "r"
                       Examples.empty_world rep w1 Hrun)) as Hfresh.
  exact (Forall_inv (export_csv_blank_fields E "o" "r" rep w1 w2 rows Hfresh Hrows)).
Defined.

Section EndpointFacts.
Import Py Run RepoProcessor.

(** what [analyze_repository] raises *)
Lemma analyze_repository_raises_wrapped E S url w e w' :
  RepoProcessor.analyze_repository E S url w = (Raise e, w') ->
  exists cause, e = Exception ("Repository analysis failed: " ++ str_exn cause).
Proof.
  unfold RepoProcessor.analyze_repository, try_except, raise.
  match goal with
  | |- context [match ?m w with _ => _ end] => destruct (m w) as [[r|x] w1]
  end; [discriminate|].
  intros [= <- _]. now exists x.
Qed.

End EndpointFacts.

(** X20. The analysis endpoint answers every failure with HTTP 400 and a
    message that is not empty: a malformed locator, a provider failure
    and an exception inside the analysis are not told apart by status,
    and there is no 5xx from the handler. When it is the analysis that
    failed, the detail is its message, beginning with "Repository analysis
    failed: "; in particular a locator that does not parse is answered
    with the invalid-URL text and leaves the process state untouched. A
    response body reports success with the report of the analysis. *)
Theorem analyze_endpoint_answers
    (E : Run.env) (S : RepoProcessor.stages) (url : string) (w : Run.world) :
  match App.analyze_repository E S url w with
  | (App.Body body, _) =>
      exists analysis w1,
        RepoProcessor.analyze_repository E S url w = (Py.Ok analysis, w1) /\
        Py.dict_get "success" body = Some (Py.PBool true) /\
        Py.dict_get "repo_url" body = Some (Py.PStr url) /\
        Py.dict_get "analysis" body = Some analysis
  | (App.HTTPException status_code detail, w') =>
      status_code = 400 /\ detail <> "" /\
      (Py.is_ok (fst (RepoProcessor.analyze_repository E S url w)) = false ->
       exists cause, detail = "Repository analysis failed: " ++ Py.str_exn cause) /\
      (forall e, GitHubAnalyzer.parse_repo_url E url = Py.Raise e ->
                 detail = "Repository analysis failed: " ++ Py.str_exn e /\ w' = w)
  end.
Proof.
  unfold App.analyze_repository. unfold Run.bind at 1.
  destruct (RepoProcessor.analyze_repository E S url w) as [[analysis|e] w1] eqn:Hrun.
  - unfold Run.bind, RepoProcessor.datetime_now, Run.lift, Run.ret.
    destruct (Run.lib E "isoformat" _) as [stamp|x].
    + exists analysis, w1. repeat split.
    + split; [reflexivity|]. split.
      * destruct (String.eqb_spec (Py.str_exn x) ""); cbn [negb].
        -- destruct x; discriminate.
        -- assumption.
      * split; [discriminate|]. intros e He.
        rewrite analyze_repository_unfold, He in Hrun. discriminate Hrun.
  - destruct (analyze_repository_raises_wrapped E S url w e w1 Hrun) as (cause & ->).
    cbn [Py.str_exn String.eqb append negb].
    split; [reflexivity|]. split; [discriminate|]. split.
    + intros _. now exists cause.
    + intros e He. rewrite analyze_repository_unfold, He in Hrun.
      cbn in Hrun. now injection Hrun as -> ->.
Qed.

Lemma analyze_endpoint_answers_witness :
  fst (App.analyze_repository Examples.quiet_env Examples.sample_stages "nourl"
         Examples.empty_world) =
    App.HTTPException 400
      "Repository analysis failed: Invalid GitHub repository URL: nourl".
Proof.
  pose proof (analyze_endpoint_answers Examples.quiet_env Examples.sample_stages
                "nourl" Examples.empty_world) as H.
  destruct (App.analyze_repository Examples.quiet_env Examples.sample_stages "nourl"
              Examples.empty_world) as [[body|status_code detail] w'].
  - destruct H as (analysis & w1 & Hrun & _). vm_compute in Hrun. discriminate Hrun.
  - destruct H as (-> & _ & _ & Hparse).
    destruct (Hparse (Py.ValueError "Invalid GitHub repository URL: nourl") eq_refl)
      as [-> _].
    reflexivity.
Defined.

(** ** Degraded answers that fail the analysis *)

Section FatalAnswers.
Import Py Run GitHubAnalyzer DeepAnalyzer CachePy RepoProcessor ReportSpec ProviderSpec.

Variable E : env.

Lemma raises_bind_l {A B : Type} (m : M A) (k : A -> M B) w :
  raises (m w) -> raises (Run.bind m k w).
Proof.
  intros [e He]. unfold Run.bind. destruct (m w) as [[a|x] w1]; [discriminate He|].
  now exists x.
Qed.

(** the sum of the values of a degraded answer is a type error *)
Lemma process_metadata_degraded reason repo_info contributors :
  exists e, _process_metadata E repo_info (degraded_answer reason) contributors = Raise e.
Proof. eexists. reflexivity. Qed.

(** a degraded answer cannot be sliced *)
Lemma analyze_commit_activity_degraded_issues reason commits prs :
  exists e, analyze_commit_activity E commits (degraded_answer reason) prs = Raise e.
Proof.
  unfold analyze_commit_activity.
  match goal with
  | |- exists e, Py.bind ?x _ = _ => destruct x as [[[[hours days] contributors] quality]|x0]
  end; [|now exists x0].
  cbn [Py.bind].
  match goal with
  | |- exists e, Py.bind ?x _ = _ => destruct x as [merge_time|x0]
  end; [|now exists x0].
  eexists. reflexivity.
Qed.

Lemma analyze_commit_activity_degraded_prs reason commits issues :
  exists e, analyze_commit_activity E commits issues (degraded_answer reason) = Raise e.
Proof.
  unfold analyze_commit_activity.
  match goal with
  | |- exists e, Py.bind ?x _ = _ => destruct x as [[[[hours days] contributors] quality]|x0]
  end; [|now exists x0].
  eexists. reflexivity.
Qed.

(** a degraded answer has no first release *)
Lemma process_activity_degraded_releases reason commits issues prs w :
  raises (_process_activity E commits issues prs (degraded_answer reason) w).
Proof.
  unfold _process_activity.
  do 9 (apply bind_raises; intros ? ?).
  apply bind_raises. intros ? ?.
  apply bind_raises. intros ? ?.
  apply bind_raises. intros ? ?.
  eapply raises_lift_bind. reflexivity.
Qed.

Lemma process_activity_deep_degraded_releases reason commits issues prs a w :
  raises (_process_activity_deep E commits issues prs (degraded_answer reason) a w).
Proof.
  unfold _process_activity_deep. apply raises_bind_l.
  apply process_activity_degraded_releases.
Qed.

(** the step of [build_analysis] that fetches from [endpoint], when the
    provider gives it a degraded answer *)
Ltac degraded_fetch Hdeg :=
  match goal with
  | |- raises (Run.bind ?m ?k ?w0) =>
      rewrite (bind_step m k w0 _
                 {| cache := cache w0; api_calls := Datatypes.S (api_calls w0);
                    clock_reads := clock_reads w0 |}
                 ltac:(unfold get_languages, get_commits, get_releases, get_issues,
                         get_pull_requests, try_except, _make_request;
                       rewrite Hdeg; reflexivity))
  end.

Lemma build_analysis_degraded (S : stages) owner repo suffix reason w :
  In suffix unguarded_endpoints ->
  (forall n, respond E n (repo_endpoint owner repo ++ suffix) =
             Ok (degraded_answer reason)) ->
  raises (build_analysis E S owner repo w).
Proof.
  intros Hin Hdeg. unfold build_analysis.
  destruct Hin as [<-|[<-|[<-|[<-|[<-|[]]]]]].
  - (* languages: the metadata *)
    do 1 (apply bind_raises; intros ? ?). degraded_fetch Hdeg.
    do 15 (apply bind_raises; intros ? ?).
    destruct (process_metadata_degraded reason a a0) as [e He].
    eapply raises_lift_bind. exact He.
  - (* commits: the activity analysis *)
    apply build_analysis_degraded_commits. intros n. rewrite Hdeg.
    unfold degraded_answer. eauto.
  - (* releases: the activity section *)
    do 4 (apply bind_raises; intros ? ?). degraded_fetch Hdeg.
    do 16 (apply bind_raises; intros ? ?).
    apply raises_bind_l. apply process_activity_deep_degraded_releases.
  - (* issues: the activity analysis *)
    do 5 (apply bind_raises; intros ? ?). degraded_fetch Hdeg.
    do 9 (apply bind_raises; intros ? ?).
    match goal with
    | |- raises (Run.bind (lift (analyze_commit_activity E ?c _ ?p)) _ _) =>
        destruct (analyze_commit_activity_degraded_issues reason c p) as [e He]
    end.
    eapply raises_lift_bind. exact He.
  - (* pull requests: the activity analysis *)
    do 6 (apply bind_raises; intros ? ?). degraded_fetch Hdeg.
    do 8 (apply bind_raises; intros ? ?).
    match goal with
    | |- raises (Run.bind (lift (analyze_commit_activity E ?c ?i _)) _ _) =>
        destruct (analyze_commit_activity_degraded_prs reason c i) as [e He]
    end.
    eapply raises_lift_bind. exact He.
Qed.

End FatalAnswers.

(** X21. A degraded answer to any one of five requests fails the whole
    analysis. The provider client turns a timeout, a long rate limit or a
    failed request into the marker [{"error": reason, "partial": True}];
    when, with nothing cached for the repository, the languages, the
    commits, the releases, the issues or the pull requests are answered
    that way, [analyze_repository] raises, whatever the other answers and
    the quick insights are: the assembler sums, slices or indexes these
    answers as they come. *)
Theorem degraded_answer_is_fatal
    (E : Run.env) (S : RepoProcessor.stages) (url owner repo : string)
    (suffix reason : string) (w : Run.world) :
  GitHubAnalyzer.parse_repo_url E url = Py.Ok (owner, repo) ->
  Py.dict_get (CachePy.analysis_key owner repo)
    (RepositoryCache._cache (Run.cache w)) = None ->
  In suffix ProviderSpec.unguarded_endpoints ->
  (forall n, Run.respond E n (GitHubAnalyzer.repo_endpoint owner repo ++ suffix) =
             Py.Ok (ProviderSpec.degraded_answer reason)) ->
  exists cause w',
    RepoProcessor.analyze_repository E S url w =
      (Py.Raise (Py.Exception ("Repository analysis failed: " ++ Py.str_exn cause)), w').
Proof.
  intros Hp Hnone Hin Hdeg.
  pose proof (build_analysis_degraded E S owner repo suffix reason) as Hraise.
  rewrite analyze_repository_unfold, Hp, (get_cached_absent E owner repo w Hnone).
  cbn [Py.truthy].
  match goal with
  | |- context [RepoProcessor.build_analysis E S owner repo ?w1] =>
      destruct (Hraise w1 Hin Hdeg) as [e He];
      destruct (RepoProcessor.build_analysis E S owner repo w1) as [[r|x] w2];
      [discriminate He|]
  end.
  exists x, w2. reflexivity.
Qed.

Lemma degraded_answer_is_fatal_witness :
  exists cause w',
    RepoProcessor.analyze_repository MoreExamples.issues_timeout_env
      Examples.sample_stages "o/r" Examples.empty_world =
      (Py.Raise (Py.Exception ("Repository analysis failed: " ++ Py.str_exn cause)), w').
Proof.
  apply (degraded_answer_is_fatal MoreExamples.issues_timeout_env Examples.sample_stages
           "o/r" "o" "r" "/issues" "timeout" Examples.empty_world eq_refl eq_refl).
  - cbn. tauto.
  - intros n. reflexivity.
Defined.

(** ** The analyzer's own cache *)

(** X22. The cache of the quick analyses returns what was stored under a key
    exactly while the entry is younger than [cache_ttl], and [None]
    afterwards; a store under one key changes no other key's answer, and
    it never removes a key: unlike the repository cache this one has no
    capacity and keeps its expired entries. *)
Theorem analyzer_cache_round_trip
    (c : OptimizedAnalyzer.analyzer_cache) (key : string) (v : Py.pyval)
    (now now' : Z) :
  let c' := OptimizedAnalyzer._set_cache now key v c in
  OptimizedAnalyzer._get_cached now' key c' =
    (if now' - now <? OptimizedAnalyzer.cache_ttl c then v else Py.PNone) /\
  (forall k, k <> key ->
     OptimizedAnalyzer._get_cached now' k c' = OptimizedAnalyzer._get_cached now' k c) /\
  (forall k, Py.dict_in k (OptimizedAnalyzer._cache c) = true ->
             Py.dict_in k (OptimizedAnalyzer._cache c') = true) /\
  Py.dict_len (OptimizedAnalyzer._cache c) <= Py.dict_len (OptimizedAnalyzer._cache c').
Proof.
  intros c'. unfold c', OptimizedAnalyzer._get_cached, OptimizedAnalyzer._set_cache.
  cbn [OptimizedAnalyzer._cache OptimizedAnalyzer._cache_times
       OptimizedAnalyzer.cache_ttl].
  split; [|split; [|split]].
  - now rewrite !dict_get_set_eq.
  - intros k Hk. now rewrite !dict_get_set_ne by congruence.
  - intros k Hin. rewrite dict_in_set. now rewrite Hin, Bool.orb_true_r.
  - rewrite dict_len_set. destruct (Py.dict_in key (OptimizedAnalyzer._cache c)); lia.
Qed.

